(** * A shallow embedding of the Stockfish trading bot

    The development follows [src/stockfish/trader.py],
    [src/stockfish/utils.py] and
    [src/stockfish/algorithms/archive/algo4.py].  Python dictionaries are finite maps
    ([gmap]), Python lists are lists that grow at the end, Python
    integers are [Z], and the calls that can raise are functions into
    [outcome].  The [Trader] object is a record that every method
    threads through a small state-and-exception monad; the dictionaries
    that [Trader.run] hands to [order_by_vwap] are named attributes of
    that record, so that the aliasing between the arguments and [self]
    is kept. *)

From Stdlib Require Import ZArith QArith Lia.
From stdpp Require Import gmap strings list fin_maps.

Local Open Scope Z_scope.

(** ** Exceptions and outcomes *)

Inductive exn : Type :=
  | TypeError
  | KeyError
  | IndexError
  | ValueError
  | ZeroDivisionError
  | OverflowError
  | UnboundLocalError.

Inductive outcome (A : Type) : Type :=
  | Ok (a : A)
  | Raise (e : exn).
Arguments Ok {A} a.
Arguments Raise {A} e.

(** ** The data model of [datamodel.py] used by the trader *)

Record Order : Type := mkOrder {
  symbol : string;
  price : Z;
  quantity : Z
}.

Record OrderDepth : Type := mkOrderDepth {
  buy_orders : gmap Z Z;
  sell_orders : gmap Z Z
}.

(** [order_depths] is the dictionary in the order in which
    [state.order_depths.items()] yields it, a list of pairs whose keys
    are distinct. *)
Record TradingState : Type := mkTradingState {
  order_depths : list (string * OrderDepth);
  position : gmap string Z
}.

(** [d.get(k, default)] *)
Definition dict_get {K V : Type} `{Countable K}
    (d : gmap K V) (k : K) (dflt : V) : V :=
  default dflt (d !! k).

(** [min(d)] and [max(d)] over the keys of a dictionary; [None] stands
    for the [ValueError] Python raises on an empty one. *)
Definition min_key (d : gmap Z Z) : option Z :=
  map_fold (fun k _ acc => Some (from_option (Z.min k) k acc)) None d.

Definition max_key (d : gmap Z Z) : option Z :=
  map_fold (fun k _ acc => Some (from_option (Z.max k) k acc)) None d.

(** ** Order builders (trader.py, lines 235-293) *)

Definition place_buy_order
    (product : string) (orders : list Order) (price quantity : Z)
    : list Order :=
  let quantity := Z.abs quantity in
  orders ++ [mkOrder product price quantity].

Definition place_sell_order
    (product : string) (orders : list Order) (price quantity : Z)
    : list Order :=
  let quantity := Z.abs quantity in
  orders ++ [mkOrder product price (- quantity)].

(** The body of [for price in range(start, finish + 1)] with its early
    [return], over the prices still to visit. *)
Fixpoint buy_sweep (product : string) (book : gmap Z Z)
    (prices : list Z) (quantity : Z) (orders : list Order) : list Order :=
  match prices with
  | [] => orders
  | price :: rest =>
      match book !! price with
      | Some volume =>
          let best_ask_volume := Z.abs volume in
          let quantity := Z.min quantity best_ask_volume in
          let orders := place_buy_order product orders price quantity in
          let quantity := quantity - best_ask_volume in
          if decide (quantity <= 0) then orders
          else buy_sweep product book rest quantity orders
      | None => buy_sweep product book rest quantity orders
      end
  end.

Definition place_buy_orders_up_to
    (product : string) (orders : list Order) (quantity : Z)
    (order_depth : OrderDepth) : outcome (list Order) :=
  let quantity := Z.abs quantity in
  match min_key (sell_orders order_depth),
        max_key (sell_orders order_depth) with
  | Some start, Some finish =>
      Ok (buy_sweep product (sell_orders order_depth)
            (seqZ start (finish + 1 - start)) quantity orders)
  | _, _ => Raise ValueError
  end.

(** [for price in range(start, finish - 1, -1)] *)
Fixpoint sell_sweep (product : string) (book : gmap Z Z)
    (prices : list Z) (quantity : Z) (orders : list Order) : list Order :=
  match prices with
  | [] => orders
  | price :: rest =>
      match book !! price with
      | Some volume =>
          let best_bid_volume := Z.abs volume in
          let quantity := Z.min quantity best_bid_volume in
          let orders := place_sell_order product orders price quantity in
          let quantity := quantity - best_bid_volume in
          if decide (quantity <= 0) then orders
          else sell_sweep product book rest quantity orders
      | None => sell_sweep product book rest quantity orders
      end
  end.

Definition place_sell_orders_up_to
    (product : string) (orders : list Order) (quantity : Z)
    (order_depth : OrderDepth) : outcome (list Order) :=
  let quantity := Z.abs quantity in
  match max_key (buy_orders order_depth),
        min_key (buy_orders order_depth) with
  | Some start, Some finish =>
      Ok (sell_sweep product (buy_orders order_depth)
            (reverse (seqZ finish (start + 1 - finish))) quantity orders)
  | _, _ => Raise ValueError
  end.

(** ** Book features (trader.py, lines 161-180)

    Python returns the pair [(None, None)] for an empty side and a pair
    of integers otherwise; the embedding writes the first as [None] and
    the second as [Some (price, volume)]. *)

Definition get_best_bid (order_depth : OrderDepth) : option (Z * Z) :=
  if decide (size (buy_orders order_depth) = 0%nat) then None
  else
    best_bid ← max_key (buy_orders order_depth);
    best_bid_volume ← buy_orders order_depth !! best_bid;
    Some (best_bid, best_bid_volume).

Definition get_best_ask (order_depth : OrderDepth) : option (Z * Z) :=
  if decide (size (sell_orders order_depth) = 0%nat) then None
  else
    best_ask ← min_key (sell_orders order_depth);
    best_ask_volume ← sell_orders order_depth !! best_ask;
    Some (best_ask, best_ask_volume).

(** ** Python numbers

    [get_vwap] and [get_moving_average] use true division, whose
    results are Python floats.  The embedding does not fix a
    representation for them: it is written over an interface with the
    operations the trader uses, and every theorem holds for each
    implementation of the interface.

    What the embedding does fix is when the division of two integers
    raises: on a divisor of 0, and when the quotient, rounded to the
    nearest float, is beyond the largest float.  The largest float is
    [2^1024 - 2^971] and the rounding is to nearest, ties to even, so
    the quotients that are too large are those of magnitude
    [2^1024 - 2^970] or more. *)

Definition float_limit : Z := 2 ^ 1024 - 2 ^ 970.
Arguments float_limit : simpl never.

Class PyNum : Type := {
  num : Type;
  num_of_int : Z → num;            (* an [int] as a number *)
  num_add : num → num → num;       (* [a + b] *)
  num_div : num → num → num;       (* [a / b], for [b] non-zero *)
  num_ltb : num → num → bool;      (* [a < b] *)
  num_ltb_irrefl : ∀ a, num_ltb a a = false
}.

(** [a > b] *)
Definition num_gtb `{PyNum} (a b : num) : bool := num_ltb b a.

(** Exact rational arithmetic is one implementation. *)
Definition Qltb (a b : Q) : bool := negb (Qle_bool b a).

Definition Qltb_irrefl (a : Q) : Qltb a a = false :=
  proj2 (negb_false_iff _) (proj2 (Qle_bool_iff a a) (Qle_refl a)).

Definition QNum : PyNum := {|
  num := Q;
  num_of_int := inject_Z;
  num_add := Qplus;
  num_div := Qdiv;
  num_ltb := Qltb;
  num_ltb_irrefl := Qltb_irrefl
|}.

Section Trader.

Context `{PyNum}.

(** [a / b] for a number [a] and an integer [b].  The numbers the
    trader divides by an integer are sums of floats, or the integer 0
    when nothing was added, and the divisor is a length or a window:
    this division raises on a divisor of 0 only. *)
Definition truediv (a : num) (b : Z) : outcome num :=
  if decide (b = 0) then Raise ZeroDivisionError
  else Ok (num_div a (num_of_int b)).

(** [a / b] for two integers *)
Definition int_truediv (a b : Z) : outcome num :=
  if decide (b = 0) then Raise ZeroDivisionError
  else if decide (float_limit * Z.abs b ≤ Z.abs a) then Raise OverflowError
  else Ok (num_div (num_of_int a) (num_of_int b)).

(** [sum(xs)]: the built-in starts from the integer [0] and adds from
    the left. *)
Definition py_sum (xs : list num) : num :=
  foldl num_add (num_of_int 0) xs.

(** [l[start:]] *)
Definition slice_from {A : Type} (l : list A) (start : Z) : list A :=
  let n := Z.of_nat (length l) in
  let start := if decide (start < 0) then Z.max (n + start) 0
               else Z.min start n in
  drop (Z.to_nat start) l.

(** [l[-k]] for [k >= 1] *)
Definition index_from_end {A : Type} (l : list A) (k : nat) : outcome A :=
  if decide (k ≤ length l)%nat then
    match l !! (length l - k)%nat with
    | Some x => Ok x
    | None => Raise IndexError
    end
  else Raise IndexError.

(** trader.py, lines 205-210 *)
Definition get_moving_average (prices : list num) (window_size : Z)
    : outcome num :=
  let window_size := Z.min (Z.of_nat (length prices)) window_size in
  truediv (py_sum (slice_from prices (- window_size))) window_size.

(** trader.py, lines 222-232 *)
Definition get_vwap (orders : gmap Z Z) : outcome num :=
  let '(weighted_sum, quantity_sum) :=
    map_fold (fun price quantity '(weighted_sum, quantity_sum) =>
                (weighted_sum + price * quantity, quantity_sum + quantity))
             (0, 0) orders in
  if decide (quantity_sum ≠ 0) then int_truediv weighted_sum quantity_sum
  else Ok (num_of_int 0).

(** ** The trader object (trader.py, lines 11-24) *)

Record Trader : Type := mkTrader {
  position_limit : gmap string Z;
  ask_price : gmap string Z;
  bid_price : gmap string Z;
  vwap_bid_prices : gmap string (list num);
  vwap_ask_prices : gmap string (list num);
  large_ask_averages : gmap string (list num);
  small_ask_averages : gmap string (list num);
  large_bid_averages : gmap string (list num);
  small_bid_averages : gmap string (list num);
  window_size_small : Z;
  window_size_large : Z
}.

Definition Trader_init : Trader := {|
  position_limit := <["PEARLS" := 20]> (<["BANANAS" := 20]> ∅);
  ask_price := ∅;
  bid_price := ∅;
  vwap_bid_prices := ∅;
  vwap_ask_prices := ∅;
  large_ask_averages := ∅;
  small_ask_averages := ∅;
  large_bid_averages := ∅;
  small_bid_averages := ∅;
  window_size_small := 100;
  window_size_large := 500
|}.

Definition set_ask_price (d : gmap string Z) (t : Trader) : Trader :=
  mkTrader (position_limit t) d (bid_price t)
    (vwap_bid_prices t) (vwap_ask_prices t)
    (large_ask_averages t) (small_ask_averages t)
    (large_bid_averages t) (small_bid_averages t)
    (window_size_small t) (window_size_large t).

Definition set_bid_price (d : gmap string Z) (t : Trader) : Trader :=
  mkTrader (position_limit t) (ask_price t) d
    (vwap_bid_prices t) (vwap_ask_prices t)
    (large_ask_averages t) (small_ask_averages t)
    (large_bid_averages t) (small_bid_averages t)
    (window_size_small t) (window_size_large t).

(** The six dictionaries of series.  [Trader.run] passes them to
    [order_by_vwap] by reference, so a parameter of [order_by_vwap] is
    the name of an attribute of [self]. *)
Inductive series : Type :=
  | Vwap_bid_prices
  | Vwap_ask_prices
  | Large_ask_averages
  | Small_ask_averages
  | Large_bid_averages
  | Small_bid_averages.

#[global] Instance series_eq_dec : EqDecision series.
Proof. solve_decision. Defined.

Definition series_get (a : series) (t : Trader) : gmap string (list num) :=
  match a with
  | Vwap_bid_prices => vwap_bid_prices t
  | Vwap_ask_prices => vwap_ask_prices t
  | Large_ask_averages => large_ask_averages t
  | Small_ask_averages => small_ask_averages t
  | Large_bid_averages => large_bid_averages t
  | Small_bid_averages => small_bid_averages t
  end.

Definition series_set (a : series) (d : gmap string (list num)) (t : Trader)
    : Trader :=
  let pick b := if decide (a = b) then d else series_get b t in
  mkTrader (position_limit t) (ask_price t) (bid_price t)
    (pick Vwap_bid_prices) (pick Vwap_ask_prices)
    (pick Large_ask_averages) (pick Small_ask_averages)
    (pick Large_bid_averages) (pick Small_bid_averages)
    (window_size_small t) (window_size_large t).

(** [lst[product] = l] *)
Definition series_setitem (lst : series) (product : string) (l : list num)
    (t : Trader) : Trader :=
  series_set lst (<[product := l]> (series_get lst t)) t.

(** ** The store and the monad of the methods

    A method runs on the trader object and on the list [orders] of the
    current iteration of [Trader.run], which the deferred callables
    capture.  An exception leaves the store as it is at the point where
    it is raised. *)

Record Store : Type := mkStore {
  self : Trader;
  orders : list Order
}.

Definition M (A : Type) : Type := Store → outcome A * Store.

#[global] Instance M_ret : MRet M := fun A a s => (Ok a, s).

#[global] Instance M_bind : MBind M := fun A B k m s =>
  match m s with
  | (Ok a, s') => k a s'
  | (Raise e, s') => (Raise e, s')
  end.

Definition raise {A : Type} (e : exn) : M A := fun s => (Raise e, s).

Definition lift {A : Type} (o : outcome A) : M A := fun s => (o, s).

Definition get_self : M Trader := fun s => (Ok (self s), s).

Definition modify_self (f : Trader → Trader) : M unit :=
  fun s => (Ok tt, mkStore (f (self s)) (orders s)).

Definition modify_orders (f : list Order → list Order) : M unit :=
  fun s => (Ok tt, mkStore (self s) (f (orders s))).

Definition get_orders : M (list Order) := fun s => (Ok (orders s), s).

(** [d[k]] *)
Definition getitem {V : Type} (d : gmap string V) (k : string) : M V :=
  match d !! k with
  | Some v => mret v
  | None => raise KeyError
  end.

End Trader.

Section Methods.

Context `{PyNum}.

(** trader.py, lines 92-97 *)
Definition get_crossover_data (large_averages small_averages : list num)
    : M (num * num * num * num) :=
  cur_roc_large ← lift (index_from_end large_averages 1);
  cur_roc_small ← lift (index_from_end small_averages 1);
  past_roc_large ← lift (index_from_end large_averages 2);
  past_roc_small ← lift (index_from_end small_averages 2);
  mret (cur_roc_large, cur_roc_small, past_roc_large, past_roc_small).

(** trader.py, lines 76-82 *)
Definition sell_signal (product : string) : M bool :=
  self ← get_self;
  large_averages ← getitem (large_bid_averages self) product;
  small_averages ← getitem (small_bid_averages self) product;
  if decide (Z.of_nat (length large_averages) < window_size_small self)
  then mret false
  else
    '(cur_roc_large, cur_roc_small, past_roc_large, past_roc_small) ←
        get_crossover_data large_averages small_averages;
    mret (num_gtb cur_roc_large cur_roc_small
          && num_ltb past_roc_large past_roc_small).

(** trader.py, lines 84-90 *)
Definition buy_signal (product : string) : M bool :=
  self ← get_self;
  large_averages ← getitem (large_ask_averages self) product;
  small_averages ← getitem (small_ask_averages self) product;
  if decide (Z.of_nat (length large_averages) < window_size_small self)
  then mret false
  else
    '(cur_roc_large, cur_roc_small, past_roc_large, past_roc_small) ←
        get_crossover_data large_averages small_averages;
    mret (num_ltb cur_roc_large cur_roc_small
          && num_gtb past_roc_large past_roc_small).

(** trader.py, lines 132-134 *)
Definition init_list (product : string) (lst : series) : M unit :=
  self ← get_self;
  if decide (product ∉ dom (series_get lst self))
  then modify_self (series_setitem lst product [])
  else mret tt.

(** trader.py, lines 136-137 *)
Definition not_enough_data (product : string) (prices : series) : M bool :=
  self ← get_self;
  product_prices ← getitem (series_get prices self) product;
  mret (bool_decide (Z.of_nat (length product_prices) < window_size_large self)).

(** [lst[product].append(x)] *)
Definition append_to (lst : series) (product : string) (x : num) : M unit :=
  self ← get_self;
  l ← getitem (series_get lst self) product;
  modify_self (series_setitem lst product (l ++ [x])).

(** [get_moving_average(prices[product], window_size)] *)
Definition moving_average_of (prices : series) (product : string)
    (window_size : Z) : M num :=
  self ← get_self;
  product_prices ← getitem (series_get prices self) product;
  lift (get_moving_average product_prices window_size).

(** trader.py, lines 115-130.  [order_condition] and
    [place_order_function] are the two deferred callables. *)
Definition order_by_vwap (product : string)
    (prices large_averages small_averages : series) (book : gmap Z Z)
    (order_condition : M bool) (place_order_function : M unit) : M unit :=
  init_list product prices;;
  init_list product large_averages;;
  init_list product small_averages;;
  vwap ← lift (get_vwap book);
  append_to prices product vwap;;
  not_enough ← not_enough_data product prices;
  if (not_enough : bool) then mret tt
  else
    self ← get_self;
    large ← moving_average_of prices product (window_size_large self);
    append_to large_averages product large;;
    self ← get_self;
    small ← moving_average_of prices product (window_size_small self);
    append_to small_averages product small;;
    condition ← order_condition;
    if (condition : bool) then place_order_function else mret tt.

(** The body of the loop of [Trader.run] (trader.py, lines 33-71),
    up to the assignment to [result] that the loop below performs. *)
Definition run_product (state : TradingState) (product : string)
    (order_depth : OrderDepth) : M unit :=
  modify_orders (fun _ => []);;
  self ← get_self;
  let position := dict_get (position state) product 0 in
  let position_limit := dict_get (position_limit self) product 0 in
  let buy_volume := position_limit - position in
  let sell_volume := position_limit + position in
  match get_best_ask order_depth, get_best_bid order_depth with
  | Some (best_ask, best_ask_volume), Some (best_bid, best_bid_volume) =>
      let best_ask_volume := Z.min (- best_ask_volume) buy_volume in
      let best_bid_volume := Z.min best_bid_volume sell_volume in
      modify_self (fun t =>
        set_ask_price
          (<[product := Z.min (dict_get (ask_price t) product best_ask) best_ask]>
             (ask_price t)) t);;
      modify_self (fun t =>
        set_bid_price
          (<[product := Z.max (dict_get (bid_price t) product best_bid) best_bid]>
             (bid_price t)) t);;
      if decide (product = "PEARLS") then
        self ← get_self;
        ask ← getitem (ask_price self) product;
        bid ← getitem (bid_price self) product;
        if decide (ask < bid) then
          self ← get_self;
          ask ← getitem (ask_price self) product;
          modify_orders (fun orders =>
            place_buy_order product orders ask buy_volume);;
          self ← get_self;
          bid ← getitem (bid_price self) product;
          modify_orders (fun orders =>
            place_sell_order product orders bid sell_volume)
        else mret tt
      else if decide (product = "BANANAS") then
        order_by_vwap product
          Vwap_bid_prices Large_bid_averages Small_bid_averages
          (buy_orders order_depth)
          (sell_signal product)
          (modify_orders (fun orders =>
             place_sell_order product orders best_bid best_bid_volume));;
        order_by_vwap product
          Vwap_ask_prices Large_ask_averages Small_ask_averages
          (sell_orders order_depth)
          (buy_signal product)
          (modify_orders (fun orders =>
             place_buy_order product orders best_ask best_ask_volume))
      else mret tt
  | _, _ =>
      (* line 40 applies unary minus to [None], or line 41 compares
         [None] with an integer *)
      raise TypeError
  end.

Fixpoint run_loop (state : TradingState) (items : list (string * OrderDepth))
    (result : gmap string (list Order)) : M (gmap string (list Order)) :=
  match items with
  | [] => mret result
  | (product, order_depth) :: items =>
      run_product state product order_depth;;
      orders ← get_orders;
      run_loop state items (<[product := orders]> result)
  end.

(** trader.py, lines 26-74.  [logger.flush(state, orders)] reads the
    local [orders], which is unbound when the loop body never ran; the
    serialisation the logger performs is outside the embedding. *)
Definition run (state : TradingState) : M (gmap string (list Order)) :=
  result ← run_loop state (order_depths state) ∅;
  match order_depths state with
  | [] => raise UnboundLocalError
  | _ => mret result
  end.

(** One call of the harness: the returned orders, or the exception, and
    the trader object afterwards. *)
Definition tick (t : Trader) (state : TradingState)
    : outcome (gmap string (list Order)) * Trader :=
  let '(r, s) := run state (mkStore t []) in (r, self s).

(** The trader object after a sequence of calls. *)
Definition ticks (t : Trader) (states : list TradingState) : Trader :=
  foldl (fun t state => (tick t state).2) t states.

End Methods.

(** ** The helpers of utils.py *)

Module Util.

Definition get_best_bid (order_depth : OrderDepth) : option (Z * Z) :=
  if decide (size (buy_orders order_depth) = 0%nat) then None
  else
    best_bid ← max_key (buy_orders order_depth);
    best_bid_volume ← buy_orders order_depth !! best_bid;
    Some (best_bid, best_bid_volume).

Definition get_best_ask (order_depth : OrderDepth) : option (Z * Z) :=
  if decide (size (sell_orders order_depth) = 0%nat) then None
  else
    best_ask ← min_key (sell_orders order_depth);
    best_ask_volume ← sell_orders order_depth !! best_ask;
    Some (best_ask, - best_ask_volume).

(** utils.py, lines 61-72 *)
Definition get_vwap `{PyNum} (orders : gmap Z Z) : outcome num :=
  let '(weighted_sum, quantity_sum) :=
    map_fold (fun price quantity '(weighted_sum, quantity_sum) =>
                (weighted_sum + price * quantity, quantity_sum + quantity))
             (0, 0) orders in
  if decide (quantity_sum ≠ 0) then int_truediv weighted_sum quantity_sum
  else Ok (num_of_int 0).

(** utils.py, lines 30-39 *)
Definition get_mid_price `{PyNum} (order_depth : OrderDepth)
    : outcome (option num) :=
  match get_best_bid order_depth, get_best_ask order_depth with
  | Some (best_bid, _), Some (best_ask, _) =>
      match int_truediv (best_bid + best_ask) 2 with
      | Ok mid => Ok (Some mid)
      | Raise e => Raise e
      end
  | _, _ => Ok None
  end.

(** utils.py, lines 42-48.  The class [Trade] of [datamodel.py] is not
    part of the sources; the attribute [trade.price] the function reads
    is the parameter [price_of]. *)
Definition get_moving_average `{PyNum} {Trade : Type}
    (price_of : Trade → num) (trades : list Trade) (window_size : Z)
    : outcome num :=
  let window_size := Z.min (Z.of_nat (length trades)) window_size in
  truediv (py_sum (price_of <$> slice_from trades (- window_size)))
          window_size.

(** utils.py, lines 75-92 *)
Definition place_buy_order
    (product : string) (orders : list Order) (price quantity : Z)
    : list Order :=
  let quantity := Z.abs quantity in
  orders ++ [mkOrder product price quantity].

Definition place_sell_order
    (product : string) (orders : list Order) (price quantity : Z)
    : list Order :=
  let quantity := Z.abs quantity in
  orders ++ [mkOrder product price (- quantity)].

End Util.

(** ** Spread and mid price (trader.py, lines 183-202) *)

Definition get_spread (order_depth : OrderDepth) : option Z :=
  match get_best_bid order_depth, get_best_ask order_depth with
  | Some (best_bid, _), Some (best_ask, _) => Some (best_ask - best_bid)
  | _, _ => None
  end.

Definition get_mid_price `{PyNum} (order_depth : OrderDepth)
    : outcome (option num) :=
  match get_best_bid order_depth, get_best_ask order_depth with
  | Some (best_bid, _), Some (best_ask, _) =>
      match int_truediv (best_bid + best_ask) 2 with
      | Ok mid => Ok (Some mid)
      | Raise e => Raise e
      end
  | _, _ => Ok None
  end.

(** ** Rates of change (trader.py, lines 99-113)

    These two methods subtract, multiply and divide by a number that
    may be zero; the interface of the numbers is extended with these
    operations. *)

Class PyArith `{PyNum} : Type := {
  num_sub : num → num → num;       (* [a - b] *)
  num_mul : num → num → num;       (* [a * b] *)
  num_is_zero : num → bool         (* [a == 0] *)
}.

Definition QArith_ops : PyArith (H := QNum) :=
  @Build_PyArith QNum
    (Qminus : Q → Q → Q) (Qmult : Q → Q → Q) (fun a : Q => Qeq_bool a 0).

Section Rates.

Context `{PyArith}.






End Rates.

(** ** The archived algorithm (algorithms/archive/algo4.py)

    The two acceptable prices are float literals that the code only
    compares with integer prices; Python compares an [int] with a
    [float] by their exact values, and each literal is written here as
    the decimal it denotes. *)

Module Algo4.

Definition int_lt_float (n : Z) (x : Q) : bool := Qltb (inject_Z n) x.

Definition int_gt_float (n : Z) (x : Q) : bool := Qltb x (inject_Z n).

(** algo4.py, lines 42-61 *)
Definition buy (state : TradingState) (product : string)
    (order_depth : OrderDepth) (orders : list Order)
    : outcome (list Order) :=
  let acceptable_price := (4940944 # 1000)%Q in
  if decide (0 < size (sell_orders order_depth))%nat then
    match min_key (sell_orders order_depth) with
    | None => Raise ValueError
    | Some best_ask =>
        match sell_orders order_depth !! best_ask with
        | None => Raise KeyError
        | Some volume =>
            let best_ask_volume :=
              Z.max volume (dict_get (position state) product 0 - 20) in
            if int_lt_float best_ask acceptable_price
            then Ok (orders ++ [mkOrder product best_ask (- best_ask_volume)])
            else Ok orders
        end
    end
  else Ok orders.

(** algo4.py, lines 63-70 *)
Definition sell (state : TradingState) (product : string)
    (order_depth : OrderDepth) (orders : list Order)
    : outcome (list Order) :=
  let acceptable_price := (4935635 # 1000)%Q in
  if decide (size (buy_orders order_depth) ≠ 0)%nat then
    match max_key (buy_orders order_depth) with
    | None => Raise ValueError
    | Some best_bid =>
        match buy_orders order_depth !! best_bid with
        | None => Raise KeyError
        | Some volume =>
            let best_bid_volume :=
              Z.min volume (dict_get (position state) product 0 + 20) in
            if int_gt_float best_bid acceptable_price
            then Ok (orders ++ [mkOrder product best_bid (- best_bid_volume)])
            else Ok orders
        end
    end
  else Ok orders.

(** The loop of [run] (lines 18-35).  [state.order_depths[product]] is
    the book paired with the key [product]. *)
Fixpoint run_loop (state : TradingState) (items : list (string * OrderDepth))
    (result : gmap string (list Order))
    : outcome (gmap string (list Order)) :=
  match items with
  | [] => Ok result
  | (product, order_depth) :: items =>
      if decide (product = "BANANAS") then
        let orders := [] in
        match
          (if decide (0 < dict_get (position state) product 0)
           then sell state product order_depth orders
           else buy state product order_depth orders)
        with
        | Ok orders => run_loop state items (<[product := orders]> result)
        | Raise e => Raise e
        end
      else run_loop state items result
  end.

(** algo4.py, lines 9-40 *)
Definition run (state : TradingState) : outcome (gmap string (list Order)) :=
  run_loop state (order_depths state) ∅.

End Algo4.

(** ** Reference definitions for the refinement statements *)

(** [Σ quantity] and [Σ price·quantity] over one side of a book *)
Definition quantity_total (orders : gmap Z Z) : Z :=
  foldr Z.add 0 ((map_to_list orders).*2).

Definition weighted_total (orders : gmap Z Z) : Z :=
  foldr Z.add 0 (map (fun pq => pq.1 * pq.2) (map_to_list orders)).

(** The last [n] values of a series, and the arithmetic mean *)
Definition last_values {A : Type} (n : nat) (xs : list A) : list A :=
  drop (length xs - n) xs.

Definition mean `{PyNum} (xs : list num) : num :=
  num_div (py_sum xs) (num_of_int (Z.of_nat (length xs))).

(** The sell side of the specification's example of a sweep. *)
Definition book3 : gmap Z Z := <[10 := 5]> (<[11 := 5]> (<[12 := 5]> ∅)).

(** A sell side holding 5 units at price 10, stored as -5. *)
Definition one_ask : OrderDepth := mkOrderDepth ∅ {[ 10 := -5 ]}.

(** The single order of the PEARLS branch pair, or no order: what
    [Trader.run] returns for PEARLS with an ask floor and a bid
    ceiling. *)
Definition pearls_orders (floor ceiling buy_volume sell_volume : Z)
    : list Order :=
  if decide (floor < ceiling)
  then [mkOrder "PEARLS" floor (Z.abs buy_volume);
        mkOrder "PEARLS" ceiling (- Z.abs sell_volume)]
  else [].

(** The orders of [Algo4] for a position and a book of BANANAS, with
    the two acceptable prices rounded to the integer prices they
    separate. *)
Definition algo4_orders (pos : Z) (od : OrderDepth) : list Order :=
  if decide (0 < pos) then
    match get_best_bid od with
    | Some (best_bid, volume) =>
        if decide (4936 ≤ best_bid)
        then [mkOrder "BANANAS" best_bid (- Z.min volume (pos + 20))]
        else []
    | None => []
    end
  else
    match get_best_ask od with
    | Some (best_ask, volume) =>
        if decide (best_ask ≤ 4940)
        then [mkOrder "BANANAS" best_ask (- Z.max volume (pos - 20))]
        else []
    | None => []
    end.

(** ** Snapshots and stores used as examples *)

(** Snapshots with an empty side, and the snapshot without instrument. *)
Definition pearls_no_asks : TradingState :=
  mkTradingState [("PEARLS", mkOrderDepth {[ 9998 := 3 ]} ∅)] ∅.

Definition bananas_no_bids : TradingState :=
  mkTradingState [("BANANAS", mkOrderDepth ∅ {[ 4950 := -3 ]})] ∅.

Definition no_instruments : TradingState := mkTradingState [] ∅.

(** A PEARLS book whose best ask 9998 is below its best bid 10002, with
    a position of 5, and a later book with a wide spread. *)
Definition pearls_crossed : TradingState :=
  mkTradingState
    [("PEARLS", mkOrderDepth {[ 10002 := 1 ]} {[ 9998 := -1 ]})]
    {[ "PEARLS" := 5 ]}.

Definition pearls_wide : TradingState :=
  mkTradingState
    [("PEARLS", mkOrderDepth {[ 9995 := 1 ]} {[ 10005 := -1 ]})]
    {[ "PEARLS" := 5 ]}.

(** The same crossed book when the position is at the limit of 20. *)
Definition pearls_at_limit : TradingState :=
  mkTradingState
    [("PEARLS", mkOrderDepth {[ 10002 := 1 ]} {[ 9998 := -1 ]})]
    {[ "PEARLS" := 20 ]}.

Definition crossed_orders : list Order :=
  [mkOrder "PEARLS" 9998 15; mkOrder "PEARLS" 10002 (-25)].

(** The trader after 499 observations of the bid side of BANANAS. *)
Definition warm_store : Store :=
  mkStore
    (series_set (H := QNum) Vwap_bid_prices
       {[ "BANANAS" := replicate 499 (inject_Z 5000) ]} Trader_init)
    [].

Definition bananas_bids : gmap Z Z := {[ 4999 := 2 ]}.

(** A trader whose ask-side averages cross on the last two entries and
    whose bid-side averages are equal there. *)
Definition cross_store : Store :=
  mkStore
    (series_set (H := QNum) Large_ask_averages
       {[ "BANANAS" := replicate 98 (inject_Z 10) ++ [inject_Z 12; inject_Z 8] ]}
    (series_set (H := QNum) Small_ask_averages
       {[ "BANANAS" := replicate 98 (inject_Z 10) ++ [inject_Z 8; inject_Z 12] ]}
    (series_set (H := QNum) Large_bid_averages
       {[ "BANANAS" := replicate 98 (inject_Z 10) ++ [inject_Z 10; inject_Z 10] ]}
    (series_set (H := QNum) Small_bid_averages
       {[ "BANANAS" := replicate 98 (inject_Z 10) ++ [inject_Z 10; inject_Z 10] ]}
       Trader_init))))
    [].

(** A two-sided book of BANANAS below both acceptable prices of
    [Algo4], with no position. *)
Definition bananas_quoted : TradingState :=
  mkTradingState
    [("BANANAS", mkOrderDepth {[ 4890 := 2 ]} {[ 4900 := -3 ]})] ∅.

(** A two-sided book of BANANAS whose prices are beyond the floats. *)
Definition bananas_huge : TradingState :=
  mkTradingState
    [("BANANAS", mkOrderDepth {[ 10 ^ 400 := 1 ]} {[ 10 ^ 400 + 1 := -1 ]})]
    ∅.

(** ** Weakest preconditions for the methods

    [wp m Q s] holds when running [m] from the store [s] ends, with an
    outcome and a store that satisfy [Q]. *)
Definition wp `{PyNum} {A : Type} (m : M A)
    (Q : outcome A → Store → Prop) (s : Store) : Prop :=
  Q (m s).1 (m s).2.

(** ** Predicates of the statements *)

(** The sign convention of the data model: buy quantities are positive,
    sell quantities are stored negative. *)
Definition sign_convention (od : OrderDepth) : Prop :=
  (∀ p q, buy_orders od !! p = Some q → 0 < q)
  ∧ (∀ p q, sell_orders od !! p = Some q → q < 0).

(** The change of position when every order of a list executes in
    full. *)
Definition net_quantity (orders : list Order) : Z :=
  foldr Z.add 0 (quantity <$> orders).

(** The total quantity of the buy orders of a list, and of its sell
    orders. *)
Definition bought (orders : list Order) : Z :=
  foldr (fun o acc => Z.max (quantity o) 0 + acc) 0 orders.

Definition sold (orders : list Order) : Z :=
  foldr (fun o acc => Z.max (- quantity o) 0 + acc) 0 orders.

(** The headroom invariant for the orders of one product: no order
    exceeds the room left on its side, and executing any of the orders
    in full leaves the position within the limit. *)
Definition within_headroom (pos lim : Z) (orders : list Order) : Prop :=
  (∀ o, o ∈ orders → quantity o ≤ lim - pos ∧ - quantity o ≤ lim + pos)
  ∧ (∀ executed, sublist executed orders →
       - lim ≤ pos + net_quantity executed ≤ lim).

(** The orders [Trader.run] can return under the key of a product. *)
Definition returned_shape (product : string) (os : list Order) : Prop :=
  Forall (fun o => symbol o = product) os
  ∧ (product = "PEARLS" →
     os = []
     ∨ ∃ a qa b qb, os = [mkOrder product a qa; mkOrder product b qb]
                    ∧ a < b ∧ 0 ≤ qa ∧ qb ≤ 0)
  ∧ (product = "BANANAS" →
     ∃ sells buys,
       os = sells ++ buys
       ∧ (sells = [] ∨ ∃ b q, sells = [mkOrder product b q] ∧ q ≤ 0)
       ∧ (buys = [] ∨ ∃ a q, buys = [mkOrder product a q] ∧ 0 ≤ q))
  ∧ (product ≠ "PEARLS" → product ≠ "BANANAS" → os = []).

(** The side of a book whose volume-weighted average price is a
    float: its total quantity is 0, or the quotient of its two sums is
    below [float_limit] in magnitude. *)
Definition vwap_in_range (book : gmap Z Z) : Prop :=
  quantity_total book ≠ 0 →
  Z.abs (weighted_total book) < float_limit * Z.abs (quantity_total book).

(** A snapshot whose books of BANANAS, the one product whose prices
    are averaged, have both sides in that range. *)
Definition in_range (state : TradingState) : Prop :=
  ∀ od, ("BANANAS", od) ∈ order_depths state →
    vwap_in_range (buy_orders od) ∧ vwap_in_range (sell_orders od).

(** A snapshot that quotes [product] and on which [Trader.run]
    returns: its keys are those of a dictionary, each of its books
    has both sides, and it is in range. *)
Definition quotes (state : TradingState) (product : string) : Prop :=
  NoDup (order_depths state).*1
  ∧ product ∈ (order_depths state).*1
  ∧ (∀ p od, (p, od) ∈ order_depths state →
       buy_orders od ≠ ∅ ∧ sell_orders od ≠ ∅)
  ∧ in_range state.

Section Predicates.

Context `{PyNum}.

(** Two trader objects that differ at most in their series. *)
Definition same_quotes (t t' : Trader) : Prop :=
  position_limit t' = position_limit t
  ∧ ask_price t' = ask_price t
  ∧ bid_price t' = bid_price t
  ∧ window_size_small t' = window_size_small t
  ∧ window_size_large t' = window_size_large t.

(** A computation that writes at most the series of the trader. *)
Definition series_only {A : Type} (m : M A) : Prop :=
  ∀ s, same_quotes (self s) (self (m s).2) ∧ orders (m s).2 = orders s.

(** The ask floor of a product never rises and its bid ceiling never
    falls from [t] to [t']. *)
Definition tightened (t t' : Trader) : Prop :=
  (∀ product a, ask_price t !! product = Some a →
     ∃ a', ask_price t' !! product = Some a' ∧ a' ≤ a)
  ∧ (∀ product b, bid_price t !! product = Some b →
     ∃ b', bid_price t' !! product = Some b' ∧ b ≤ b').

(** The crossed condition of line 46. *)
Definition crossed (t : Trader) (product : string) : Prop :=
  ∃ a b, ask_price t !! product = Some a
         ∧ bid_price t !! product = Some b ∧ a < b.

(** The series of long and short averages of each side grow together. *)
Definition aligned (t : Trader) : Prop :=
  ∀ product,
    length (default [] (large_bid_averages t !! product))
    = length (default [] (small_bid_averages t !! product))
    ∧ length (default [] (large_ask_averages t !! product))
      = length (default [] (small_ask_averages t !! product)).

(** The trader objects on which the signals read their series within
    bounds: the short window is at least 2, the long window is not 0,
    and the series of averages are aligned.  The initial object is
    one, and every call keeps the property. *)
Definition well_formed (t : Trader) : Prop :=
  2 ≤ window_size_small t ∧ window_size_large t ≠ 0 ∧ aligned t.

(** The series of a product after [n] observations of its book: one
    volume-weighted price per observation on each side, and one pair
    of averages per observation from the one that fills the long
    window. *)
Definition observed (t : Trader) (product : string) (n : nat) : Prop :=
  let len a := length (default [] (series_get a t !! product)) in
  let m := Z.to_nat (Z.of_nat n + 1 - window_size_large t) in
  len Vwap_bid_prices = n ∧ len Vwap_ask_prices = n
  ∧ len Large_bid_averages = m ∧ len Small_bid_averages = m
  ∧ len Large_ask_averages = m ∧ len Small_ask_averages = m.

End Predicates.

(** * Theorems *)

(** ** Minimum and maximum key of a dictionary *)

Lemma min_key_spec (d : gmap Z Z) :
  match min_key d with
  | None => d = ∅
  | Some k => is_Some (d !! k) ∧ ∀ k', is_Some (d !! k') → k ≤ k'
  end.
Proof.
  unfold min_key.
  apply (map_fold_weak_ind (fun r (m : gmap Z Z) =>
    match r with
    | None => m = ∅
    | Some k => is_Some (m !! k) ∧ ∀ k', is_Some (m !! k') → k ≤ k'
    end)); [done|].
  intros i x m r Hi IH. destruct r as [k|]; simpl.
  - destruct IH as [Hk Hmin]. split.
    + destruct (Z.min_spec i k) as [[_ ->]|[_ ->]].
      * by rewrite lookup_insert_eq.
      * rewrite lookup_insert_ne; [done|]. intros ->. rewrite Hi in Hk.
        by destruct Hk.
    + intros k' Hk'. destruct (decide (i = k')) as [->|Hne].
      * lia.
      * rewrite lookup_insert_ne in Hk' by done. specialize (Hmin k' Hk'). lia.
  - subst m. split.
    + by rewrite lookup_insert_eq.
    + intros k' Hk'. destruct (decide (i = k')) as [->|Hne]; [lia|].
      rewrite lookup_insert_ne, lookup_empty in Hk' by done. by destruct Hk'.
Qed.

Lemma max_key_spec (d : gmap Z Z) :
  match max_key d with
  | None => d = ∅
  | Some k => is_Some (d !! k) ∧ ∀ k', is_Some (d !! k') → k' ≤ k
  end.
Proof.
  unfold max_key.
  apply (map_fold_weak_ind (fun r (m : gmap Z Z) =>
    match r with
    | None => m = ∅
    | Some k => is_Some (m !! k) ∧ ∀ k', is_Some (m !! k') → k' ≤ k
    end)); [done|].
  intros i x m r Hi IH. destruct r as [k|]; simpl.
  - destruct IH as [Hk Hmax]. split.
    + destruct (Z.max_spec i k) as [[_ ->]|[_ ->]].
      * rewrite lookup_insert_ne; [done|]. intros ->. rewrite Hi in Hk.
        by destruct Hk.
      * by rewrite lookup_insert_eq.
    + intros k' Hk'. destruct (decide (i = k')) as [->|Hne].
      * lia.
      * rewrite lookup_insert_ne in Hk' by done. specialize (Hmax k' Hk'). lia.
  - subst m. split.
    + by rewrite lookup_insert_eq.
    + intros k' Hk'. destruct (decide (i = k')) as [->|Hne]; [lia|].
      rewrite lookup_insert_ne, lookup_empty in Hk' by done. by destruct Hk'.
Qed.

Lemma min_key_nonempty (d : gmap Z Z) :
  d ≠ ∅ →
  ∃ k v, min_key d = Some k ∧ d !! k = Some v
         ∧ ∀ k', is_Some (d !! k') → k ≤ k'.
Proof.
  intros Hne. pose proof (min_key_spec d) as Hs.
  destruct (min_key d) as [k|]; [|done].
  destruct Hs as [[v Hv] Hmin]. eauto.
Qed.

Lemma max_key_nonempty (d : gmap Z Z) :
  d ≠ ∅ →
  ∃ k v, max_key d = Some k ∧ d !! k = Some v
         ∧ ∀ k', is_Some (d !! k') → k' ≤ k.
Proof.
  intros Hne. pose proof (max_key_spec d) as Hs.
  destruct (max_key d) as [k|]; [|done].
  destruct Hs as [[v Hv] Hmax]. eauto.
Qed.

Lemma min_key_empty : min_key ∅ = None.
Proof. unfold min_key. by rewrite map_fold_empty. Qed.

Lemma max_key_empty : max_key ∅ = None.
Proof. unfold max_key. by rewrite map_fold_empty. Qed.

(** ** Best bid and best ask *)

Lemma get_best_ask_empty (od : OrderDepth) :
  sell_orders od = ∅ → get_best_ask od = None ∧ Util.get_best_ask od = None.
Proof.
  intros He. unfold get_best_ask, Util.get_best_ask. rewrite He.
  rewrite map_size_empty. by rewrite !decide_True.
Qed.

Lemma get_best_ask_nonempty (od : OrderDepth) :
  sell_orders od ≠ ∅ →
  ∃ p q, sell_orders od !! p = Some q
         ∧ (∀ p', is_Some (sell_orders od !! p') → p ≤ p')
         ∧ get_best_ask od = Some (p, q)
         ∧ Util.get_best_ask od = Some (p, - q).
Proof.
  intros Hne. destruct (min_key_nonempty _ Hne) as (p & q & Hk & Hq & Hmin).
  exists p, q. unfold get_best_ask, Util.get_best_ask.
  rewrite !decide_False by (by apply map_size_non_empty_iff).
  rewrite Hk. simpl. rewrite Hq. simpl. done.
Qed.

Lemma get_best_bid_empty (od : OrderDepth) :
  buy_orders od = ∅ → get_best_bid od = None.
Proof.
  intros He. unfold get_best_bid. rewrite He.
  rewrite map_size_empty. by rewrite decide_True.
Qed.

Lemma get_best_bid_nonempty (od : OrderDepth) :
  buy_orders od ≠ ∅ →
  ∃ p q, buy_orders od !! p = Some q
         ∧ (∀ p', is_Some (buy_orders od !! p') → p' ≤ p)
         ∧ get_best_bid od = Some (p, q).
Proof.
  intros Hne. destruct (max_key_nonempty _ Hne) as (p & q & Hk & Hq & Hmax).
  exists p, q. unfold get_best_bid.
  rewrite decide_False by (by apply map_size_non_empty_iff).
  rewrite Hk. simpl. rewrite Hq. simpl. done.
Qed.

Lemma get_best_ask_Some (od : OrderDepth) (p q : Z) :
  get_best_ask od = Some (p, q) → sell_orders od !! p = Some q.
Proof.
  unfold get_best_ask. case_decide; [done|].
  destruct (min_key (sell_orders od)) as [k|]; simpl; [|done].
  destruct (sell_orders od !! k) as [v|] eqn:Hv; simpl; [|done].
  by intros [= <- <-].
Qed.

Lemma get_best_bid_Some (od : OrderDepth) (p q : Z) :
  get_best_bid od = Some (p, q) → buy_orders od !! p = Some q.
Proof.
  unfold get_best_bid. case_decide; [done|].
  destruct (max_key (buy_orders od)) as [k|]; simpl; [|done].
  destruct (buy_orders od !! k) as [v|] eqn:Hv; simpl; [|done].
  by intros [= <- <-].
Qed.

(** C9, as the code has it.  [get_best_ask] of trader.py returns the
    lowest sell price with the quantity as the book stores it, which is
    negative under the sign convention ([Trader.run] negates it);
    [Util.get_best_ask] of utils.py returns the same price with the
    quantity negated, a positive magnitude.  Both return the absent
    value for an empty sell side. *)
Theorem get_best_ask_stored_sign (od : OrderDepth) :
  (sell_orders od = ∅ →
     get_best_ask od = None ∧ Util.get_best_ask od = None)
  ∧ (sell_orders od ≠ ∅ →
     (∀ p q, sell_orders od !! p = Some q → q < 0) →
     ∃ p q, sell_orders od !! p = Some q
            ∧ (∀ p', is_Some (sell_orders od !! p') → p ≤ p')
            ∧ get_best_ask od = Some (p, q) ∧ q < 0
            ∧ Util.get_best_ask od = Some (p, - q) ∧ 0 < - q).
Proof.
  split; [apply get_best_ask_empty|].
  intros Hne Hsign.
  destruct (get_best_ask_nonempty od Hne) as (p & q & Hq & Hmin & Ha & Hu).
  exists p, q. specialize (Hsign p q Hq). repeat split; try done; lia.
Qed.

Lemma get_best_ask_stored_sign_witness :
  ∃ p q, sell_orders one_ask !! p = Some q
         ∧ (∀ p', is_Some (sell_orders one_ask !! p') → p ≤ p')
         ∧ get_best_ask one_ask = Some (p, q) ∧ q < 0
         ∧ Util.get_best_ask one_ask = Some (p, - q) ∧ 0 < - q.
Proof.
  apply (proj2 (get_best_ask_stored_sign one_ask)).
  - simpl. apply insert_non_empty.
  - intros p q. simpl. intros [<- <-]%lookup_singleton_Some. lia.
Defined.

(** C9 as stated fails for [get_best_ask] of trader.py: on a sell side
    holding 5 units at price 10, stored as -5, the quantity it returns
    is -5. *)
Lemma get_best_ask_not_magnitude :
  sell_orders one_ask ≠ ∅
  ∧ (∀ p q, sell_orders one_ask !! p = Some q → q < 0)
  ∧ get_best_ask one_ask = Some (10, -5)
  ∧ ¬ (∃ p q, get_best_ask one_ask = Some (p, q) ∧ 0 < q).
Proof.
  assert (Ha : get_best_ask one_ask = Some (10, -5)) by (vm_compute; done).
  split; [|split; [|split]].
  - simpl. apply insert_non_empty.
  - intros p q. simpl. intros [<- <-]%lookup_singleton_Some. lia.
  - done.
  - intros (p & q & Hq & Hpos). rewrite Ha in Hq. simplify_eq. lia.
Qed.

(** ** Order builders *)

Lemma place_buy_order_app (product : string) (orders : list Order) (p q : Z) :
  place_buy_order product orders p q = orders ++ [mkOrder product p (Z.abs q)].
Proof. reflexivity. Qed.

Lemma place_sell_order_app (product : string) (orders : list Order) (p q : Z) :
  place_sell_order product orders p q
  = orders ++ [mkOrder product p (- Z.abs q)].
Proof. reflexivity. Qed.

(** C2, as the code has it.  Each builder appends exactly one order
    whatever the quantity it is given: its magnitude is the absolute
    value of the quantity, with a positive sign for a buy and a negative
    sign for a sell.  The magnitude is never negative, and it is zero
    exactly when the given quantity is zero. *)
Theorem place_order_always_appends
    (product : string) (orders : list Order) (p q : Z) :
  (∃ o, place_buy_order product orders p q = orders ++ [o]
        ∧ symbol o = product ∧ price o = p
        ∧ quantity o = Z.abs q ∧ 0 ≤ quantity o
        ∧ (quantity o = 0 ↔ q = 0))
  ∧ (∃ o, place_sell_order product orders p q = orders ++ [o]
          ∧ symbol o = product ∧ price o = p
          ∧ quantity o = - Z.abs q ∧ quantity o ≤ 0
          ∧ (quantity o = 0 ↔ q = 0)).
Proof.
  split; eexists; (split; [reflexivity|]); simpl; repeat split; lia.
Qed.

(** C2 as stated fails: a buy or a sell of quantity zero is still
    appended, as an order of quantity zero; and [Trader.run] returns
    such an order for PEARLS when the position is at the limit. *)
Lemma place_order_zero_quantity :
  place_buy_order "PEARLS" [] 10000 0 = [mkOrder "PEARLS" 10000 0]
  ∧ place_sell_order "PEARLS" [] 10000 0 = [mkOrder "PEARLS" 10000 0]
  ∧ (tick (H := QNum) Trader_init pearls_at_limit).1
    = Ok {[ "PEARLS" := [mkOrder "PEARLS" 9998 0;
                         mkOrder "PEARLS" 10002 (-40)] ]}
  ∧ ¬ (∀ product orders p q,
         q ≤ 0 →
         place_buy_order product orders p q = orders
         ∧ place_sell_order product orders p q = orders).
Proof.
  split; [reflexivity|]. split; [reflexivity|]. split; [reflexivity|].
  intros Hclaim. destruct (Hclaim "PEARLS" [] 10000 0) as [Hbuy _]; [lia|].
  discriminate Hbuy.
Qed.

(** ** The sweep *)

(** C3: the code at the specification's example.  With the sell book
    [{10: 5, 11: 5, 12: 5}] and a target of 8, the specification expects
    the orders (10, 5) and (11, 3); [place_buy_orders_up_to] emits the
    first one only. *)
Theorem place_buy_orders_up_to_example :
  place_buy_orders_up_to "BANANAS" [] 8 (mkOrderDepth ∅ book3)
  = Ok [mkOrder "BANANAS" 10 5]
  ∧ place_buy_orders_up_to "BANANAS" [] 8 (mkOrderDepth ∅ book3)
    ≠ Ok [mkOrder "BANANAS" 10 5; mkOrder "BANANAS" 11 3].
Proof. split; vm_compute; [reflexivity|discriminate]. Qed.

(** The cause: line 254 overwrites the remaining target with the
    quantity just ordered, so that line 256 leaves at most zero and the
    loop returns after the first price level, whatever the target. *)
Lemma place_buy_orders_up_to_one_level
    (product : string) (orders : list Order) (q : Z) (od : OrderDepth) :
  sell_orders od ≠ ∅ →
  ∃ p v, sell_orders od !! p = Some v
         ∧ (∀ p', is_Some (sell_orders od !! p') → p ≤ p')
         ∧ place_buy_orders_up_to product orders q od
           = Ok (orders ++ [mkOrder product p (Z.min (Z.abs q) (Z.abs v))]).
Proof.
  intros Hne.
  destruct (min_key_nonempty _ Hne) as (p & v & Hk & Hv & Hmin).
  destruct (max_key_nonempty _ Hne) as (p2 & v2 & Hk2 & Hv2 & Hmax).
  exists p, v. split; [done|]. split; [done|].
  unfold place_buy_orders_up_to. rewrite Hk, Hk2.
  assert (p ≤ p2) by (apply Hmin; eauto).
  rewrite seqZ_cons by lia. simpl. rewrite Hv.
  rewrite decide_True by lia.
  rewrite place_buy_order_app.
  rewrite (Z.abs_eq (Z.min _ _)) by lia. done.
Qed.

(** ** The volume-weighted average price *)

Section Vwap.

Context `{PyNum}.

Lemma vwap_sums (orders : gmap Z Z) :
  map_fold (fun price quantity '(weighted_sum, quantity_sum) =>
              (weighted_sum + price * quantity, quantity_sum + quantity))
           (0, 0) orders
  = (weighted_total orders, quantity_total orders).
Proof.
  unfold weighted_total, quantity_total. rewrite map_fold_foldr.
  induction (map_to_list orders) as [|[p q] l IH]; [done|].
  simpl. rewrite IH. simpl. f_equal; apply Z.add_comm.
Qed.

Lemma quantity_total_zero (orders : gmap Z Z) :
  (∀ p q, orders !! p = Some q → q = 0) → quantity_total orders = 0.
Proof.
  intros Hz. unfold quantity_total.
  assert (Hl : ∀ p q, (p, q) ∈ map_to_list orders → q = 0).
  { intros p q Hin. apply (Hz p). by apply elem_of_map_to_list. }
  induction (map_to_list orders) as [|[p q] l IH]; [done|].
  csimpl. rewrite IH.
  - rewrite (Hl p q); [done|]. left.
  - intros p' q' Hin. apply (Hl p'). by right.
Qed.

Lemma get_vwap_value (orders : gmap Z Z) :
  get_vwap orders
  = if decide (quantity_total orders = 0) then Ok (num_of_int 0)
    else if decide (float_limit * Z.abs (quantity_total orders)
                    ≤ Z.abs (weighted_total orders))
    then Raise OverflowError
    else Ok (num_div (num_of_int (weighted_total orders))
                     (num_of_int (quantity_total orders))).
Proof.
  unfold get_vwap. rewrite vwap_sums. unfold int_truediv.
  repeat case_decide; done.
Qed.

Lemma get_vwap_in_range (orders : gmap Z Z) :
  vwap_in_range orders →
  get_vwap orders
  = Ok (if decide (quantity_total orders = 0) then num_of_int 0
        else num_div (num_of_int (weighted_total orders))
                     (num_of_int (quantity_total orders))).
Proof.
  intros Hr. rewrite get_vwap_value. unfold vwap_in_range in Hr.
  repeat case_decide; try done. specialize (Hr ltac:(done)). lia.
Qed.

Lemma get_vwap_Ok (orders : gmap Z Z) (v : num) :
  get_vwap orders = Ok v → vwap_in_range orders.
Proof.
  rewrite get_vwap_value. unfold vwap_in_range.
  repeat case_decide; try done. intros _ _. lia.
Qed.

Lemma get_vwap_Raise (orders : gmap Z Z) (e : exn) :
  get_vwap orders = Raise e → e = OverflowError ∧ ¬ vwap_in_range orders.
Proof.
  rewrite get_vwap_value. unfold vwap_in_range.
  repeat case_decide; try done. intros [= <-]. split; [done|].
  intros Hr. specialize (Hr ltac:(done)). lia.
Qed.

(** C5.  On a book whose quotient of sums is in the range of the
    floats, [get_vwap] returns [Σ(price·quantity) / Σ(quantity)], the
    division being Python's, and the integer 0 when the total quantity
    is 0; the latter is the case of the empty mapping and of a mapping
    whose quantities are all 0, on which it returns 0 whatever the
    prices.  It never raises [ZeroDivisionError]: the one exception it
    raises is the [OverflowError] of the division, on the books whose
    quotient of sums is [float_limit] or more in magnitude.  The
    function of utils.py does the same. *)
Theorem get_vwap_weighted_average (orders : gmap Z Z) :
  (vwap_in_range orders →
   get_vwap orders
   = Ok (if decide (quantity_total orders = 0) then num_of_int 0
         else num_div (num_of_int (weighted_total orders))
                      (num_of_int (quantity_total orders))))
  ∧ Util.get_vwap orders = get_vwap orders
  ∧ (quantity_total orders = 0 → get_vwap orders = Ok (num_of_int 0))
  ∧ (orders = ∅ → get_vwap orders = Ok (num_of_int 0))
  ∧ ((∀ p q, orders !! p = Some q → q = 0) →
     get_vwap orders = Ok (num_of_int 0))
  ∧ get_vwap orders ≠ Raise ZeroDivisionError
  ∧ (¬ vwap_in_range orders ↔ get_vwap orders = Raise OverflowError).
Proof.
  pose proof (get_vwap_value orders) as Hv.
  assert (Hz : quantity_total orders = 0 → get_vwap orders = Ok (num_of_int 0)).
  { intros Hq. rewrite Hv. by rewrite decide_True by done. }
  split; [apply get_vwap_in_range|]. split; [reflexivity|].
  split; [done|]. split; [|split; [|split]].
  - intros ->. apply Hz. unfold quantity_total. by rewrite map_to_list_empty.
  - intros Hall. apply Hz. by apply quantity_total_zero.
  - intros He. by apply get_vwap_Raise in He as [? _].
  - split.
    + intros Hout. destruct (get_vwap orders) as [v|e] eqn:He.
      * by apply get_vwap_Ok in He.
      * by apply get_vwap_Raise in He as [-> _].
    + intros He. by apply get_vwap_Raise in He as [_ ?].
Qed.

End Vwap.

Lemma get_vwap_weighted_average_witness :
  @get_vwap QNum {[ 10 := 5; 12 := 15 ]}
  = Ok (Qdiv (inject_Z 230) (inject_Z 20))
  ∧ @get_vwap QNum {[ 10 := 0 ]} = Ok (inject_Z 0)
  ∧ @get_vwap QNum ∅ = Ok (inject_Z 0)
  ∧ @get_vwap QNum {[ 10 ^ 400 := 1 ]} = Raise OverflowError.
Proof.
  split; [|split; [|split]].
  - refine (eq_trans
              (proj1 (@get_vwap_weighted_average QNum {[ 10 := 5; 12 := 15 ]})
                 _) _).
    + intros _. vm_compute. reflexivity.
    + vm_compute. reflexivity.
  - apply (proj2 (proj2 (proj2 (proj2
      (@get_vwap_weighted_average QNum {[ 10 := 0 ]}))))).
    intros p q [_ <-]%lookup_singleton_Some. reflexivity.
  - apply (proj1 (proj2 (proj2 (proj2
      (@get_vwap_weighted_average QNum ∅))))).
    reflexivity.
  - apply (proj1 (proj2 (proj2 (proj2 (proj2 (proj2 (proj2
      (@get_vwap_weighted_average QNum {[ 10 ^ 400 := 1 ]})))))))).
    intros Hr. assert (Hlt := Hr ltac:(vm_compute; discriminate)).
    vm_compute in Hlt. discriminate.
Defined.

(** ** Rules of the weakest precondition *)

Section Rules.

Context `{PyNum}.

Lemma wp_bind {A B : Type} (m : M A) (k : A → M B)
    (Q : outcome B → Store → Prop) (s : Store) :
  wp m (fun r s' =>
          match r with
          | Ok a => wp (k a) Q s'
          | Raise e => Q (Raise e) s'
          end) s →
  wp (m ≫= k) Q s.
Proof.
  unfold wp, mbind, M_bind. by destruct (m s) as [[a|e] s'].
Qed.

Lemma wp_ret {A : Type} (a : A) (Q : outcome A → Store → Prop) (s : Store) :
  Q (Ok a) s → wp (mret a) Q s.
Proof. done. Qed.

Lemma wp_raise {A : Type} (e : exn) (Q : outcome A → Store → Prop) (s : Store) :
  Q (Raise e) s → wp (raise e) Q s.
Proof. done. Qed.

Lemma wp_lift {A : Type} (o : outcome A) (Q : outcome A → Store → Prop)
    (s : Store) :
  Q o s → wp (lift o) Q s.
Proof. done. Qed.

Lemma wp_get_self (Q : outcome Trader → Store → Prop) (s : Store) :
  Q (Ok (self s)) s → wp get_self Q s.
Proof. done. Qed.

Lemma wp_get_orders (Q : outcome (list Order) → Store → Prop) (s : Store) :
  Q (Ok (orders s)) s → wp get_orders Q s.
Proof. done. Qed.

Lemma wp_modify_self (f : Trader → Trader) (Q : outcome unit → Store → Prop)
    (s : Store) :
  Q (Ok tt) (mkStore (f (self s)) (orders s)) → wp (modify_self f) Q s.
Proof. done. Qed.

Lemma wp_modify_orders (f : list Order → list Order)
    (Q : outcome unit → Store → Prop) (s : Store) :
  Q (Ok tt) (mkStore (self s) (f (orders s))) → wp (modify_orders f) Q s.
Proof. done. Qed.

Lemma wp_getitem {V : Type} (d : gmap string V) (k : string)
    (Q : outcome V → Store → Prop) (s : Store) :
  match d !! k with
  | Some v => Q (Ok v) s
  | None => Q (Raise KeyError) s
  end →
  wp (getitem d k) Q s.
Proof. unfold getitem. by destruct (d !! k). Qed.

Lemma wp_mono {A : Type} (m : M A) (Q Q' : outcome A → Store → Prop)
    (s : Store) :
  (∀ r s', Q r s' → Q' r s') → wp m Q s → wp m Q' s.
Proof. unfold wp. auto. Qed.

End Rules.

Ltac wp_step :=
  lazymatch goal with
  | |- wp (_ ≫= _) _ _ => apply wp_bind
  | |- wp (mret _) _ _ => apply wp_ret
  | |- wp (raise _) _ _ => apply wp_raise
  | |- wp (lift _) _ _ => apply wp_lift
  | |- wp get_self _ _ => apply wp_get_self
  | |- wp get_orders _ _ => apply wp_get_orders
  | |- wp (modify_self _) _ _ => apply wp_modify_self
  | |- wp (modify_orders _) _ _ => apply wp_modify_orders
  | |- wp (getitem _ _) _ _ => apply wp_getitem
  end.

(** ** The crossover signals *)

Section Signals.

Context `{PyNum}.

Lemma index_from_end_last {A : Type} (l : list A) (x : A) :
  index_from_end (l ++ [x]) 1 = Ok x.
Proof.
  unfold index_from_end. rewrite length_app. simpl.
  rewrite decide_True by lia.
  by rewrite list_lookup_middle by lia.
Qed.

Lemma index_from_end_last2 {A : Type} (l : list A) (y x : A) :
  index_from_end (l ++ [y; x]) 1 = Ok x
  ∧ index_from_end (l ++ [y; x]) 2 = Ok y.
Proof.
  split.
  - replace (l ++ [y; x]) with ((l ++ [y]) ++ [x]) by (by rewrite <- app_assoc).
    apply index_from_end_last.
  - unfold index_from_end. rewrite length_app. simpl.
    rewrite decide_True by lia.
    by rewrite list_lookup_middle by lia.
Qed.

Lemma get_crossover_data_last2
    (L0 S0 : list num) (prevL curL prevS curS : num) (s : Store) :
  get_crossover_data (L0 ++ [prevL; curL]) (S0 ++ [prevS; curS]) s
  = (Ok (curL, curS, prevL, prevS), s).
Proof.
  unfold get_crossover_data.
  destruct (index_from_end_last2 L0 prevL curL) as [-> ->].
  destruct (index_from_end_last2 S0 prevS curS) as [-> ->].
  reflexivity.
Qed.

Lemma buy_signal_gate (s : Store) (product : string) (L S : list num) :
  large_ask_averages (self s) !! product = Some L →
  small_ask_averages (self s) !! product = Some S →
  Z.of_nat (length L) < window_size_small (self s) →
  buy_signal product s = (Ok false, s).
Proof.
  intros HL HS Hlen. unfold buy_signal, mbind, M_bind, get_self, getitem.
  rewrite HL, HS. simpl. by rewrite decide_True by done.
Qed.

Lemma sell_signal_gate (s : Store) (product : string) (L S : list num) :
  large_bid_averages (self s) !! product = Some L →
  small_bid_averages (self s) !! product = Some S →
  Z.of_nat (length L) < window_size_small (self s) →
  sell_signal product s = (Ok false, s).
Proof.
  intros HL HS Hlen. unfold sell_signal, mbind, M_bind, get_self, getitem.
  rewrite HL, HS. simpl. by rewrite decide_True by done.
Qed.

Lemma buy_signal_cross (s : Store) (product : string)
    (L0 S0 : list num) (prevL curL prevS curS : num) :
  large_ask_averages (self s) !! product = Some (L0 ++ [prevL; curL]) →
  small_ask_averages (self s) !! product = Some (S0 ++ [prevS; curS]) →
  window_size_small (self s) ≤ Z.of_nat (length (L0 ++ [prevL; curL])) →
  buy_signal product s
  = (Ok (num_ltb curL curS && num_gtb prevL prevS), s).
Proof.
  intros HL HS Hlen. unfold buy_signal, mbind, M_bind, get_self, getitem.
  rewrite HL, HS. simpl. rewrite decide_False by lia.
  by rewrite get_crossover_data_last2.
Qed.

Lemma sell_signal_cross (s : Store) (product : string)
    (L0 S0 : list num) (prevL curL prevS curS : num) :
  large_bid_averages (self s) !! product = Some (L0 ++ [prevL; curL]) →
  small_bid_averages (self s) !! product = Some (S0 ++ [prevS; curS]) →
  window_size_small (self s) ≤ Z.of_nat (length (L0 ++ [prevL; curL])) →
  sell_signal product s
  = (Ok (num_gtb curL curS && num_ltb prevL prevS), s).
Proof.
  intros HL HS Hlen. unfold sell_signal, mbind, M_bind, get_self, getitem.
  rewrite HL, HS. simpl. rewrite decide_False by lia.
  by rewrite get_crossover_data_last2.
Qed.

Lemma strict_cross_equal (curL curS prevL prevS : num) :
  curL = curS ∨ prevL = prevS →
  num_ltb curL curS && num_gtb prevL prevS = false
  ∧ num_gtb curL curS && num_ltb prevL prevS = false.
Proof.
  unfold num_gtb. intros [->| ->]; rewrite !num_ltb_irrefl;
    by rewrite ?andb_false_r.
Qed.

(** C7.  With the short window at 100: a signal on a pair of series
    whose long series has fewer than 100 entries is false.  Past that
    gate, with [prevL], [curL] the last two long averages and [prevS],
    [curS] the last two short ones, the buy signal is the conjunction
    of [curL < curS] and [prevL > prevS], and the sell signal the
    conjunction of [curL > curS] and [prevL < prevS]; the comparisons
    are strict, so both are false when [curL = curS] or
    [prevL = prevS].  Neither signal changes the store. *)
Theorem crossover_signals (s : Store) (product : string) :
  window_size_small (self s) = 100 →
  (∀ L S,
     large_ask_averages (self s) !! product = Some L →
     small_ask_averages (self s) !! product = Some S →
     (length L < 100)%nat →
     buy_signal product s = (Ok false, s))
  ∧ (∀ L S,
     large_bid_averages (self s) !! product = Some L →
     small_bid_averages (self s) !! product = Some S →
     (length L < 100)%nat →
     sell_signal product s = (Ok false, s))
  ∧ (∀ L0 S0 prevL curL prevS curS,
     large_ask_averages (self s) !! product = Some (L0 ++ [prevL; curL]) →
     small_ask_averages (self s) !! product = Some (S0 ++ [prevS; curS]) →
     (100 ≤ length (L0 ++ [prevL; curL]))%nat →
     buy_signal product s
     = (Ok (num_ltb curL curS && num_gtb prevL prevS), s)
     ∧ (curL = curS ∨ prevL = prevS →
        buy_signal product s = (Ok false, s)))
  ∧ (∀ L0 S0 prevL curL prevS curS,
     large_bid_averages (self s) !! product = Some (L0 ++ [prevL; curL]) →
     small_bid_averages (self s) !! product = Some (S0 ++ [prevS; curS]) →
     (100 ≤ length (L0 ++ [prevL; curL]))%nat →
     sell_signal product s
     = (Ok (num_gtb curL curS && num_ltb prevL prevS), s)
     ∧ (curL = curS ∨ prevL = prevS →
        sell_signal product s = (Ok false, s))).
Proof.
  intros Hw. split; [|split; [|split]].
  - intros L S HL HS Hlen. apply (buy_signal_gate s product L S); [done..|lia].
  - intros L S HL HS Hlen. apply (sell_signal_gate s product L S); [done..|lia].
  - intros L0 S0 prevL curL prevS curS HL HS Hlen.
    rewrite (buy_signal_cross s product L0 S0 prevL curL prevS curS)
      by (done || lia).
    split; [done|]. intros Heq.
    by destruct (strict_cross_equal curL curS prevL prevS Heq) as [-> _].
  - intros L0 S0 prevL curL prevS curS HL HS Hlen.
    rewrite (sell_signal_cross s product L0 S0 prevL curL prevS curS)
      by (done || lia).
    split; [done|]. intros Heq.
    by destruct (strict_cross_equal curL curS prevL prevS Heq) as [_ ->].
Qed.

End Signals.

(** ** Moving averages and the warm-up gate *)

Section MovingAverage.

Context `{PyNum}.

Lemma get_moving_average_mean (prices : list num) (k : nat) :
  prices ≠ [] → (0 < k)%nat →
  get_moving_average prices (Z.of_nat k)
  = Ok (mean (last_values (Nat.min (length prices) k) prices)).
Proof.
  intros Hne Hk. unfold get_moving_average, mean, last_values, slice_from.
  assert (0 < length prices)%nat by (destruct prices; [done|simpl; lia]).
  rewrite <- Nat2Z.inj_min.
  set (w := Nat.min (length prices) k).
  assert (0 < w ≤ length prices)%nat by (unfold w; lia).
  rewrite decide_True by lia.
  replace (Z.to_nat (Z.max (Z.of_nat (length prices) + - Z.of_nat w) 0))
    with (length prices - w)%nat by lia.
  unfold truediv. rewrite decide_False by lia.
  rewrite length_drop.
  by replace (length prices - (length prices - w))%nat with w by lia.
Qed.

Lemma last_values_length {A : Type} (n : nat) (xs : list A) :
  length (last_values n xs) = Nat.min (length xs) n.
Proof. unfold last_values. rewrite length_drop. lia. Qed.

Lemma series_get_set_eq (a : series) (d : gmap string (list num)) (t : Trader) :
  series_get a (series_set a d t) = d.
Proof. by destruct a. Qed.

Lemma series_get_set_ne (a b : series) (d : gmap string (list num))
    (t : Trader) :
  a ≠ b → series_get b (series_set a d t) = series_get b t.
Proof. by destruct a, b. Qed.

Lemma series_setitem_eq (a : series) (product : string) (l : list num)
    (t : Trader) :
  series_get a (series_setitem a product l t) !! product = Some l.
Proof.
  unfold series_setitem. rewrite series_get_set_eq. apply lookup_insert_eq.
Qed.

Lemma series_setitem_ne (a b : series) (product : string) (l : list num)
    (t : Trader) :
  a ≠ b → series_get b (series_setitem a product l t) = series_get b t.
Proof. apply series_get_set_ne. Qed.

Lemma series_setitem_other (a : series) (product product' : string)
    (l : list num) (t : Trader) :
  product ≠ product' →
  series_get a (series_setitem a product l t) !! product'
  = series_get a t !! product'.
Proof.
  intros Hne. unfold series_setitem. rewrite series_get_set_eq.
  by apply lookup_insert_ne.
Qed.

Lemma series_setitem_id (a : series) (product : string) (l : list num)
    (t : Trader) :
  series_get a t !! product = Some l → series_setitem a product l t = t.
Proof.
  intros Hl. unfold series_setitem. rewrite insert_id by done.
  by destruct a, t.
Qed.

(** The entry of a series for a product, [[]] when it has none yet. *)
Lemma init_list_run (product : string) (lst : series) (s : Store) :
  init_list product lst s
  = (Ok tt,
     mkStore
       (series_setitem lst product
          (default [] (series_get lst (self s) !! product)) (self s))
       (orders s)).
Proof.
  unfold init_list, mbind, M_bind, get_self, modify_self. simpl.
  case_decide as Hd.
  - apply not_elem_of_dom in Hd. by rewrite Hd.
  - apply elem_of_dom in Hd as [l Hl].
    rewrite Hl. simpl. rewrite series_setitem_id by done. by destruct s.
Qed.

Lemma append_to_run (lst : series) (product : string) (x : num)
    (l : list num) (s : Store) :
  series_get lst (self s) !! product = Some l →
  append_to lst product x s
  = (Ok tt, mkStore (series_setitem lst product (l ++ [x]) (self s)) (orders s)).
Proof.
  intros Hl. unfold append_to, mbind, M_bind, get_self, getitem, modify_self.
  simpl. by rewrite Hl.
Qed.

Lemma wp_init_list (product : string) (lst : series)
    (Q : outcome unit → Store → Prop) (s : Store) :
  Q (Ok tt)
    (mkStore
       (series_setitem lst product
          (default [] (series_get lst (self s) !! product)) (self s))
       (orders s)) →
  wp (init_list product lst) Q s.
Proof. unfold wp. by rewrite init_list_run. Qed.

Lemma wp_append_to (lst : series) (product : string) (x : num) (l : list num)
    (Q : outcome unit → Store → Prop) (s : Store) :
  series_get lst (self s) !! product = Some l →
  Q (Ok tt) (mkStore (series_setitem lst product (l ++ [x]) (self s)) (orders s)) →
  wp (append_to lst product x) Q s.
Proof. intros Hl. unfold wp. by rewrite (append_to_run _ _ _ l). Qed.

Lemma wp_not_enough_data (product : string) (prices : series) (l : list num)
    (Q : outcome bool → Store → Prop) (s : Store) :
  series_get prices (self s) !! product = Some l →
  Q (Ok (bool_decide (Z.of_nat (length l) < window_size_large (self s)))) s →
  wp (not_enough_data product prices) Q s.
Proof.
  intros Hl. unfold wp, not_enough_data, mbind, M_bind, get_self, getitem.
  simpl. by rewrite Hl.
Qed.

Lemma wp_moving_average_of (prices : series) (product : string) (w : Z)
    (l : list num) (Q : outcome num → Store → Prop) (s : Store) :
  series_get prices (self s) !! product = Some l →
  Q (get_moving_average l w) s →
  wp (moving_average_of prices product w) Q s.
Proof.
  intros Hl. unfold wp, moving_average_of, mbind, M_bind, get_self, getitem.
  simpl. by rewrite Hl.
Qed.

Lemma window_size_large_setitem (a : series) (p : string) (l : list num)
    (t : Trader) :
  window_size_large (series_setitem a p l t) = window_size_large t.
Proof. reflexivity. Qed.

Lemma window_size_small_setitem (a : series) (p : string) (l : list num)
    (t : Trader) :
  window_size_small (series_setitem a p l t) = window_size_small t.
Proof. reflexivity. Qed.

End MovingAverage.

Ltac series_norm :=
  cbn [self orders];
  repeat first
    [ rewrite series_setitem_eq
    | rewrite series_setitem_ne by done
    | rewrite window_size_large_setitem
    | rewrite window_size_small_setitem ].

Section WarmUp.

Context `{PyNum}.

Lemma wp_frame_self {A : Type} (m : M A) (Q : outcome A → Store → Prop)
    (s : Store) :
  self (m s).2 = self s →
  (∀ r s', self s' = self s → Q r s') →
  wp m Q s.
Proof. intros Hm HQ. unfold wp. by apply HQ. Qed.

Lemma wp_order_condition (cond : M bool) (place : M unit)
    (Q : outcome unit → Store → Prop) (s : Store) :
  (∀ s0, self (cond s0).2 = self s0) →
  (∀ s0, self (place s0).2 = self s0) →
  (∀ r s', self s' = self s → Q r s') →
  wp (condition ← cond; if (condition : bool) then place else mret tt) Q s.
Proof.
  intros Hcond Hplace HQ. apply wp_frame_self; [|done].
  unfold mbind, M_bind. specialize (Hcond s).
  destruct (cond s) as [[[]|e] s1]; simpl in *; [|done..].
  by rewrite Hplace.
Qed.

Lemma get_moving_average_total (prices : list num) (w : Z) :
  prices ≠ [] → w ≠ 0 → ∃ x, get_moving_average prices w = Ok x.
Proof.
  intros Hne Hw. unfold get_moving_average, truediv.
  assert (0 < length prices)%nat by (destruct prices; [done|simpl; lia]).
  rewrite decide_False by lia. eauto.
Qed.

Lemma wp_order_by_vwap_exact
    (product : string) (prices large small : series) (book : gmap Z Z)
    (cond : M bool) (place : M unit)
    (Q : outcome unit → Store → Prop) (s : Store) :
  prices ≠ large → prices ≠ small → large ≠ small →
  window_size_large (self s) ≠ 0 →
  window_size_small (self s) ≠ 0 →
  let entry lst := default [] (series_get lst (self s) !! product) in
  ∀ v, get_vwap book = Ok v →
  let observed := entry prices ++ [v] in
  let t0 :=
    series_setitem prices product observed
      (series_setitem small product (entry small)
         (series_setitem large product (entry large)
            (series_setitem prices product (entry prices) (self s)))) in
  (Z.of_nat (length observed) < window_size_large (self s) →
   Q (Ok tt) (mkStore t0 (orders s))) →
  (¬ Z.of_nat (length observed) < window_size_large (self s) →
   ∀ avg_large avg_small,
     get_moving_average observed (window_size_large (self s)) = Ok avg_large →
     get_moving_average observed (window_size_small (self s)) = Ok avg_small →
     wp (condition ← cond; if (condition : bool) then place else mret tt) Q
        (mkStore
           (series_setitem small product (entry small ++ [avg_small])
              (series_setitem large product (entry large ++ [avg_large]) t0))
           (orders s))) →
  wp (order_by_vwap product prices large small book cond place) Q s.
Proof.
  intros Hpl Hps Hls HWl HWs entry v Hv observed t0 Hless Henough.
  unfold order_by_vwap.
  wp_step. apply wp_init_list.
  wp_step. apply wp_init_list.
  wp_step. apply wp_init_list.
  wp_step. rewrite Hv. wp_step.
  wp_step. eapply wp_append_to; [by series_norm|].
  wp_step. eapply wp_not_enough_data; [by series_norm|].
  series_norm. fold (entry prices) (entry large) (entry small).
  fold observed. fold t0.
  case_bool_decide as Hlen; [by wp_step; apply Hless|].
  assert (Hne : observed ≠ []) by (unfold observed; by destruct (entry prices)).
  destruct (get_moving_average_total observed _ Hne HWl) as [avg_large HL].
  destruct (get_moving_average_total observed _ Hne HWs) as [avg_small HS].
  wp_step. wp_step.
  wp_step. eapply wp_moving_average_of; [by subst t0; series_norm|].
  subst t0. series_norm. rewrite HL.
  wp_step. eapply wp_append_to; [by series_norm|].
  wp_step. wp_step.
  wp_step. eapply wp_moving_average_of; [by series_norm|].
  series_norm. rewrite HS.
  wp_step. eapply wp_append_to; [by series_norm|].
  by apply Henough.
Qed.

Lemma wp_order_by_vwap_raise
    (product : string) (prices large small : series) (book : gmap Z Z)
    (cond : M bool) (place : M unit)
    (Q : outcome unit → Store → Prop) (s : Store) (e : exn) :
  prices ≠ large → prices ≠ small → large ≠ small →
  let entry lst := default [] (series_get lst (self s) !! product) in
  get_vwap book = Raise e →
  Q (Raise e)
    (mkStore
       (series_setitem small product (entry small)
          (series_setitem large product (entry large)
             (series_setitem prices product (entry prices) (self s))))
       (orders s)) →
  wp (order_by_vwap product prices large small book cond place) Q s.
Proof.
  intros Hpl Hps Hls entry He HQ.
  unfold order_by_vwap.
  wp_step. apply wp_init_list.
  wp_step. apply wp_init_list.
  wp_step. apply wp_init_list.
  wp_step. rewrite He. wp_step.
  revert HQ. series_norm. done.
Qed.

(** C6.  With the windows at 500 and 100, for a call of
    [order_by_vwap] on three distinct series whose deferred callables
    leave the trader object alone.  When the VWAP of the book is a
    float, which it is exactly when the book is in range, the price
    series of the product gains it.  While the price series then holds
    fewer than 500 values, the call returns and neither series of
    averages gains an entry.  Once it holds 500 values or more, each
    series of averages gains exactly one entry, the arithmetic mean of
    the last [min(length, window)] values of the price series.  When
    the VWAP is not a float, the call raises the [OverflowError] of
    [get_vwap] and no series gains an entry. *)
Theorem order_by_vwap_warm_up
    (product : string) (prices large small : series) (book : gmap Z Z)
    (cond : M bool) (place : M unit) (s : Store) :
  prices ≠ large → prices ≠ small → large ≠ small →
  (∀ s0, self (cond s0).2 = self s0) →
  (∀ s0, self (place s0).2 = self s0) →
  window_size_large (self s) = 500 →
  window_size_small (self s) = 100 →
  let entry lst := default [] (series_get lst (self s) !! product) in
  (vwap_in_range book ↔ ∃ v, get_vwap book = Ok v)
  ∧ (∀ v, get_vwap book = Ok v →
     wp (order_by_vwap product prices large small book cond place)
       (fun r s' =>
          let observed := entry prices ++ [v] in
          series_get prices (self s') !! product = Some observed
          ∧ ((length observed < 500)%nat →
             r = Ok tt
             ∧ series_get large (self s') !! product = Some (entry large)
             ∧ series_get small (self s') !! product = Some (entry small))
          ∧ ((500 ≤ length observed)%nat →
             series_get large (self s') !! product
             = Some (entry large
                     ++ [mean (last_values (Nat.min (length observed) 500)
                                 observed)])
             ∧ series_get small (self s') !! product
               = Some (entry small
                       ++ [mean (last_values (Nat.min (length observed) 100)
                                   observed)]))) s)
  ∧ (∀ e, get_vwap book = Raise e →
     wp (order_by_vwap product prices large small book cond place)
       (fun r s' =>
          r = Raise OverflowError
          ∧ series_get prices (self s') !! product = Some (entry prices)
          ∧ series_get large (self s') !! product = Some (entry large)
          ∧ series_get small (self s') !! product = Some (entry small)) s).
Proof.
  intros Hpl Hps Hls Hcond Hplace HWl HWs entry.
  split; [|split].
  - split.
    + intros Hr. rewrite (get_vwap_in_range book Hr). eauto.
    + intros [v Hv]. by apply get_vwap_Ok in Hv.
  - intros v Hv.
    assert (Hne : entry prices ++ [v] ≠ []) by (by destruct (entry prices)).
    eapply (wp_order_by_vwap_exact product prices large small book);
      [done|done|done|lia|lia|exact Hv| |].
    + rewrite HWl. intros Hlt. series_norm. subst entry. cbn beta in *.
      split; [done|]. split; [done|]. intros Hge. lia.
    + rewrite HWl, HWs. intros Hge avg_large avg_small.
      rewrite (get_moving_average_mean _ 500%nat) by (done || lia).
      rewrite (get_moving_average_mean _ 100%nat) by (done || lia).
      intros [= <-] [= <-].
      apply wp_order_condition; [done..|].
      intros r s' ->. series_norm. subst entry. cbn beta in *.
      split; [done|]. split; [intros Hlt; lia|done].
  - intros e He. destruct (get_vwap_Raise book e He) as [-> _].
    eapply (wp_order_by_vwap_raise product prices large small book);
      [done|done|done|exact He|].
    series_norm. subst entry. cbn beta. done.
Qed.

End WarmUp.

(** ** Computations that write only the series *)

Section Frame.

Context `{PyNum}.

Lemma same_quotes_refl (t : Trader) : same_quotes t t.
Proof. by repeat split. Qed.

Lemma same_quotes_trans (t1 t2 t3 : Trader) :
  same_quotes t1 t2 → same_quotes t2 t3 → same_quotes t1 t3.
Proof.
  intros (?&?&?&?&?) (?&?&?&?&?). repeat split; congruence.
Qed.

Lemma same_quotes_setitem (a : series) (p : string) (l : list num)
    (t : Trader) :
  same_quotes t (series_setitem a p l t).
Proof. by repeat split. Qed.

Lemma series_only_ret {A : Type} (a : A) : series_only (mret a).
Proof. intros s. split; [apply same_quotes_refl|done]. Qed.

Lemma series_only_raise {A : Type} (e : exn) : series_only (raise (A:=A) e).
Proof. intros s. split; [apply same_quotes_refl|done]. Qed.

Lemma series_only_lift {A : Type} (o : outcome A) : series_only (lift o).
Proof. intros s. split; [apply same_quotes_refl|done]. Qed.

Lemma series_only_get_self : series_only get_self.
Proof. intros s. split; [apply same_quotes_refl|done]. Qed.

Lemma series_only_getitem {V : Type} (d : gmap string V) (k : string) :
  series_only (getitem d k).
Proof.
  intros s. unfold getitem.
  destruct (d !! k); (split; [apply same_quotes_refl|done]).
Qed.

Lemma series_only_bind {A B : Type} (m : M A) (k : A → M B) :
  series_only m → (∀ a, series_only (k a)) → series_only (m ≫= k).
Proof.
  intros Hm Hk s. unfold mbind, M_bind. specialize (Hm s).
  destruct (m s) as [[a|e] s1]; simpl in *; [|done].
  destruct (Hk a s1) as [Hq Ho]. destruct Hm as [Hq1 Ho1].
  split; [by eapply same_quotes_trans|congruence].
Qed.

Lemma series_only_setitem (a : series) (p : string) (l : list num) :
  series_only (modify_self (series_setitem a p l)).
Proof. intros s. split; [apply same_quotes_setitem|done]. Qed.

Lemma series_only_init_list (product : string) (lst : series) :
  series_only (init_list product lst).
Proof.
  unfold init_list. apply series_only_bind; [apply series_only_get_self|].
  intros t. case_decide; [apply series_only_setitem|apply series_only_ret].
Qed.

Lemma series_only_append_to (lst : series) (product : string) (x : num) :
  series_only (append_to lst product x).
Proof.
  unfold append_to. apply series_only_bind; [apply series_only_get_self|].
  intros t. apply series_only_bind; [apply series_only_getitem|].
  intros l. apply series_only_setitem.
Qed.

Lemma series_only_not_enough_data (product : string) (prices : series) :
  series_only (not_enough_data product prices).
Proof.
  unfold not_enough_data.
  apply series_only_bind; [apply series_only_get_self|].
  intros t. apply series_only_bind; [apply series_only_getitem|].
  intros l. apply series_only_ret.
Qed.

Lemma series_only_moving_average_of (prices : series) (product : string)
    (w : Z) :
  series_only (moving_average_of prices product w).
Proof.
  unfold moving_average_of.
  apply series_only_bind; [apply series_only_get_self|].
  intros t. apply series_only_bind; [apply series_only_getitem|].
  intros l. apply series_only_lift.
Qed.

(** A series-only computation followed by any continuation. *)
Lemma wp_bind_series_only {A B : Type} (m : M A) (k : A → M B)
    (Q : outcome B → Store → Prop) (t0 : Trader) (s : Store) :
  series_only m →
  same_quotes t0 (self s) →
  (∀ e t', same_quotes t0 t' → Q (Raise e) (mkStore t' (orders s))) →
  (∀ a t', same_quotes t0 t' → wp (k a) Q (mkStore t' (orders s))) →
  wp (m ≫= k) Q s.
Proof.
  intros Hm H0 Hraise Hk. apply wp_bind. unfold wp.
  destruct (Hm s) as [Hq Ho]. destruct (m s) as [[a|e] [t' o']]; simpl in *.
  - subst o'. apply Hk. by eapply same_quotes_trans.
  - subst o'. apply Hraise. by eapply same_quotes_trans.
Qed.

Lemma wp_order_by_vwap (product : string) (prices large small : series)
    (book : gmap Z Z) (cond : M bool) (place : M unit)
    (Q : outcome unit → Store → Prop) (t0 : Trader) (s : Store) :
  same_quotes t0 (self s) →
  (∀ r t', same_quotes t0 t' → Q r (mkStore t' (orders s))) →
  (∀ t', same_quotes t0 t' →
     wp (condition ← cond; if (condition : bool) then place else mret tt)
        Q (mkStore t' (orders s))) →
  wp (order_by_vwap product prices large small book cond place) Q s.
Proof.
  intros H0 HQ Htail. unfold order_by_vwap.
  assert (Hstep : ∀ {A : Type} (m : M A) (k : A → M unit) (t : Trader),
    series_only m → same_quotes t0 t →
    (∀ a t', same_quotes t0 t' → wp (k a) Q (mkStore t' (orders s))) →
    wp (m ≫= k) Q (mkStore t (orders s))).
  { intros A m k t Hm Ht Hk.
    apply (wp_bind_series_only m k Q t0 (mkStore t (orders s)));
      [done|done|intros e t' Ht'; by apply HQ|done]. }
  destruct s as [t o]. simpl in *.
  apply Hstep; [apply series_only_init_list|done|]. intros _ t1 H1.
  apply Hstep; [apply series_only_init_list|done|]. intros _ t2 H2.
  apply Hstep; [apply series_only_init_list|done|]. intros _ t3 H3.
  apply Hstep; [apply series_only_lift|done|]. intros v t4 H4.
  apply Hstep; [apply series_only_append_to|done|]. intros _ t5 H5.
  apply Hstep; [apply series_only_not_enough_data|done|].
  intros [] t6 H6; [by apply wp_ret, HQ|].
  apply Hstep; [apply series_only_get_self|done|]. intros self7 t7 H7.
  apply Hstep; [apply series_only_moving_average_of|done|]. intros l8 t8 H8.
  apply Hstep; [apply series_only_append_to|done|]. intros _ t9 H9.
  apply Hstep; [apply series_only_get_self|done|]. intros self10 t10 H10.
  apply Hstep; [apply series_only_moving_average_of|done|]. intros l11 t11 H11.
  apply Hstep; [apply series_only_append_to|done|]. intros _ t12 H12.
  by apply Htail.
Qed.

Lemma get_crossover_data_readonly (L S : list num) (s : Store) :
  (get_crossover_data L S s).2 = s.
Proof.
  unfold get_crossover_data, mbind, M_bind, lift.
  by repeat destruct (index_from_end _ _).
Qed.

Lemma sell_signal_readonly (product : string) (s : Store) :
  (sell_signal product s).2 = s.
Proof.
  unfold sell_signal, mbind, M_bind, get_self, getitem.
  destruct (large_bid_averages (self s) !! product) as [L|]; [|done].
  destruct (small_bid_averages (self s) !! product) as [S|]; [|done].
  simpl. case_decide; [done|].
  pose proof (get_crossover_data_readonly L S s) as Hc.
  by destruct (get_crossover_data L S s) as [[[[[??]?]?]|?] ?].
Qed.

Lemma buy_signal_readonly (product : string) (s : Store) :
  (buy_signal product s).2 = s.
Proof.
  unfold buy_signal, mbind, M_bind, get_self, getitem.
  destruct (large_ask_averages (self s) !! product) as [L|]; [|done].
  destruct (small_ask_averages (self s) !! product) as [S|]; [|done].
  simpl. case_decide; [done|].
  pose proof (get_crossover_data_readonly L S s) as Hc.
  by destruct (get_crossover_data L S s) as [[[[[??]?]?]|?] ?].
Qed.

(** A read-only condition deciding whether one order is appended. *)
Lemma wp_signal_then_order (signal : M bool) (g : list Order → list Order)
    (Q : outcome unit → Store → Prop) (s : Store) :
  (∀ s0, (signal s0).2 = s0) →
  (∀ r, Q r s) →
  Q (Ok tt) (mkStore (self s) (g (orders s))) →
  wp (condition ← signal;
      if (condition : bool) then modify_orders g else mret tt) Q s.
Proof.
  intros Hro Hs Hg. unfold wp, mbind, M_bind. specialize (Hro s).
  destruct (signal s) as [[[]|e] s1]; simpl in *; subst s1; done.
Qed.

End Frame.

(** ** The body and the loop of [Trader.run] *)

Section Run.

Context `{PyNum}.

Lemma wp_run_product (state : TradingState) (product : string)
    (od : OrderDepth) (Q : outcome unit → Store → Prop) (s : Store) :
  let pos := dict_get (position state) product 0 in
  let lim := dict_get (position_limit (self s)) product 0 in
  match get_best_ask od, get_best_bid od with
  | Some (a, av), Some (b, bv) =>
      let ask := Z.min (dict_get (ask_price (self s)) product a) a in
      let bid := Z.max (dict_get (bid_price (self s)) product b) b in
      let t1 :=
        set_bid_price (<[product := bid]> (bid_price (self s)))
          (set_ask_price (<[product := ask]> (ask_price (self s))) (self s)) in
      if decide (product = "PEARLS") then
        if decide (ask < bid) then
          Q (Ok tt)
            (mkStore t1 [mkOrder product ask (Z.abs (lim - pos));
                         mkOrder product bid (- Z.abs (lim + pos))])
        else Q (Ok tt) (mkStore t1 [])
      else if decide (product = "BANANAS") then
        ∀ r t' sells buys,
          same_quotes t1 t' →
          sells = [] ∨ sells = [mkOrder product b (- Z.abs (Z.min bv (lim + pos)))] →
          buys = [] ∨ buys = [mkOrder product a (Z.abs (Z.min (- av) (lim - pos)))] →
          Q r (mkStore t' (sells ++ buys))
      else Q (Ok tt) (mkStore t1 [])
  | _, _ => Q (Raise TypeError) (mkStore (self s) [])
  end →
  wp (run_product state product od) Q s.
Proof.
  intros pos lim HQ. unfold run_product.
  wp_step. wp_step. wp_step. wp_step. cbn [self orders].
  fold pos lim.
  destruct (get_best_ask od) as [[a av]|]; [|by wp_step].
  destruct (get_best_bid od) as [[b bv]|]; [|by wp_step].
  wp_step. wp_step. wp_step. wp_step. cbn [self orders].
  cbn zeta in HQ.
  change (bid_price (set_ask_price _ (self s))) with (bid_price (self s)).
  set (ask := Z.min (dict_get (ask_price (self s)) product a) a) in *.
  set (bid := Z.max (dict_get (bid_price (self s)) product b) b) in *.
  set (t1 := set_bid_price _ _) in *.
  assert (Hask : ask_price t1 !! product = Some ask)
    by (subst t1; simpl; apply lookup_insert_eq).
  assert (Hbid : bid_price t1 !! product = Some bid)
    by (subst t1; simpl; apply lookup_insert_eq).
  destruct (decide (product = "PEARLS")) as [HP|HP].
  { wp_step. wp_step. wp_step. wp_step. cbn [self orders]. rewrite Hask.
    wp_step. wp_step. rewrite Hbid.
    destruct (decide (ask < bid)); [|by wp_step].
    wp_step. wp_step. wp_step. wp_step. cbn [self orders]. rewrite Hask.
    wp_step. wp_step. wp_step. wp_step. wp_step. wp_step.
    cbn [self orders]. rewrite Hbid. by wp_step. }
  destruct (decide (product = "BANANAS")) as [HB|HB]; [|by wp_step].
  assert (Hsecond : ∀ t' sells,
    same_quotes t1 t' →
    sells = [] ∨ sells = [mkOrder product b (- Z.abs (Z.min bv (lim + pos)))] →
    wp (order_by_vwap product Vwap_ask_prices Large_ask_averages
          Small_ask_averages (sell_orders od) (buy_signal product)
          (modify_orders (fun orders =>
             place_buy_order product orders a (Z.min (- av) (lim - pos)))))
       Q (mkStore t' sells)).
  { intros t' sells Ht' Hsells.
    apply (wp_order_by_vwap _ _ _ _ _ _ _ _ t1); [done| |].
    - intros r t2 Ht2. rewrite <- (app_nil_r sells). apply HQ; auto.
    - intros t2 Ht2. apply wp_signal_then_order.
      + apply buy_signal_readonly.
      + intros r. rewrite <- (app_nil_r sells). apply HQ; auto.
      + apply HQ; auto. }
  wp_step.
  apply (wp_order_by_vwap _ _ _ _ _ _ _ _ t1); [apply same_quotes_refl| |].
  - intros [[]|e] t' Ht'; cbn [self orders].
    + apply Hsecond; auto.
    + apply (HQ (Raise e) t' [] []); auto.
  - intros t' Ht'. apply wp_signal_then_order.
    + apply sell_signal_readonly.
    + intros [[]|e]; cbn [self orders].
      * apply Hsecond; auto.
      * apply (HQ (Raise e) t' [] []); auto.
    + cbn [self orders]. apply Hsecond; auto.
Qed.

(** The loop of [Trader.run], with an invariant over the items already
    processed, the store and the result so far. *)
Lemma wp_run_loop (state : TradingState)
    (Inv : list (string * OrderDepth) → Store → gmap string (list Order) → Prop)
    (Qe : exn → Store → Prop)
    (items pre : list (string * OrderDepth))
    (result : gmap string (list Order)) (s : Store) :
  Inv pre s result →
  (∀ pre' product od post s result,
     pre ++ items = pre' ++ (product, od) :: post →
     Inv pre' s result →
     wp (run_product state product od)
        (fun r s' =>
           match r with
           | Ok _ => Inv (pre' ++ [(product, od)]) s'
                       (<[product := orders s']> result)
           | Raise e => Qe e s'
           end) s) →
  wp (run_loop state items result)
     (fun r s' =>
        match r with
        | Ok res => Inv (pre ++ items) s' res
        | Raise e => Qe e s'
        end) s.
Proof.
  revert pre result s.
  induction items as [|[product od] items IH]; intros pre result s HI Hbody.
  - simpl. wp_step. by rewrite app_nil_r.
  - simpl. wp_step.
    eapply wp_mono; [|by apply (Hbody pre product od items)].
    intros [[]|e] s' Hs'; [|done].
    wp_step. wp_step.
    replace (pre ++ (product, od) :: items)
      with ((pre ++ [(product, od)]) ++ items) by (by rewrite <- app_assoc).
    apply IH; [done|].
    intros pre' product' od' post s0 result0 Heq HI'.
    apply (Hbody pre' product' od' post); [|done].
    rewrite <- Heq. by rewrite <- app_assoc.
Qed.

Lemma wp_run (state : TradingState)
    (Inv : list (string * OrderDepth) → Store → gmap string (list Order) → Prop)
    (Qe : exn → Store → Prop) (s : Store) :
  Inv [] s ∅ →
  (∀ pre product od post s result,
     order_depths state = pre ++ (product, od) :: post →
     Inv pre s result →
     wp (run_product state product od)
        (fun r s' =>
           match r with
           | Ok _ => Inv (pre ++ [(product, od)]) s'
                       (<[product := orders s']> result)
           | Raise e => Qe e s'
           end) s) →
  (order_depths state = [] → Qe UnboundLocalError s) →
  wp (run state)
     (fun r s' =>
        match r with
        | Ok res => Inv (order_depths state) s' res
        | Raise e => Qe e s'
        end) s.
Proof.
  intros HI Hbody Hempty. unfold run.
  destruct (order_depths state) as [|item items] eqn:Hitems.
  { simpl. wp_step. wp_step. wp_step. by apply Hempty. }
  wp_step.
  eapply wp_mono; [|by apply (wp_run_loop state Inv Qe _ [])].
  simpl. intros [res|e] s' Hs'; [|done]. by wp_step.
Qed.

End Run.

(** ** The ask floor and the bid ceiling *)

Section FairValue.

Context `{PyNum}.

(** What the loop body does to the quotes of the trader. *)
Lemma wp_run_product_quotes (state : TradingState) (product : string)
    (od : OrderDepth) (Q : outcome unit → Store → Prop) (s : Store) :
  match get_best_ask od, get_best_bid od with
  | Some (a, _), Some (b, _) =>
      ∀ r t' os,
        position_limit t' = position_limit (self s) →
        ask_price t'
        = <[product := Z.min (dict_get (ask_price (self s)) product a) a]>
            (ask_price (self s)) →
        bid_price t'
        = <[product := Z.max (dict_get (bid_price (self s)) product b) b]>
            (bid_price (self s)) →
        Q r (mkStore t' os)
  | _, _ => Q (Raise TypeError) (mkStore (self s) [])
  end →
  wp (run_product state product od) Q s.
Proof.
  intros HQ. apply wp_run_product.
  destruct (get_best_ask od) as [[a av]|]; [|done].
  destruct (get_best_bid od) as [[b bv]|]; [|done].
  cbn zeta. repeat case_decide; try (by apply HQ).
  intros r t' sells buys (Hl & Ha & Hb & _) _ _. by apply HQ.
Qed.

Lemma tightened_refl (t : Trader) : tightened t t.
Proof. split; intros product x Hx; exists x; split; (done || lia). Qed.

Lemma tightened_trans (t1 t2 t3 : Trader) :
  tightened t1 t2 → tightened t2 t3 → tightened t1 t3.
Proof.
  intros [Ha1 Hb1] [Ha2 Hb2]. split.
  - intros product a Ha. destruct (Ha1 product a Ha) as (a' & Ha' & ?).
    destruct (Ha2 product a' Ha') as (a'' & Ha'' & ?).
    exists a''. split; [done|lia].
  - intros product b Hb. destruct (Hb1 product b Hb) as (b' & Hb' & ?).
    destruct (Hb2 product b' Hb') as (b'' & Hb'' & ?).
    exists b''. split; [done|lia].
Qed.

Lemma tightened_update (t t' : Trader) (product : string) (a b : Z) :
  ask_price t'
  = <[product := Z.min (dict_get (ask_price t) product a) a]> (ask_price t) →
  bid_price t'
  = <[product := Z.max (dict_get (bid_price t) product b) b]> (bid_price t) →
  tightened t t'.
Proof.
  intros Ha Hb. split.
  - intros p x Hx. rewrite Ha. destruct (decide (product = p)) as [->|Hne].
    + rewrite lookup_insert_eq. eexists. split; [done|].
      unfold dict_get. rewrite Hx. simpl. lia.
    + rewrite lookup_insert_ne by done. exists x. split; [done|lia].
  - intros p x Hx. rewrite Hb. destruct (decide (product = p)) as [->|Hne].
    + rewrite lookup_insert_eq. eexists. split; [done|].
      unfold dict_get. rewrite Hx. simpl. lia.
    + rewrite lookup_insert_ne by done. exists x. split; [done|lia].
Qed.

Lemma run_product_tightened (state : TradingState) (product : string)
    (od : OrderDepth) (s : Store) :
  wp (run_product state product od)
     (fun _ s' => tightened (self s) (self s')
                  ∧ position_limit (self s') = position_limit (self s)) s.
Proof.
  apply wp_run_product_quotes.
  destruct (get_best_ask od) as [[a av]|];
    [|split; [apply tightened_refl|done]].
  destruct (get_best_bid od) as [[b bv]|];
    [|split; [apply tightened_refl|done]].
  intros r t' os Hl Ha Hb. split; [|done]. by eapply tightened_update.
Qed.

Lemma tick_quotes (t : Trader) (state : TradingState) :
  tightened t (tick t state).2
  ∧ position_limit (tick t state).2 = position_limit t.
Proof.
  unfold tick.
  pose proof (wp_run state
    (fun _ s' _ => tightened t (self s')
                   ∧ position_limit (self s') = position_limit t)
    (fun _ s' => tightened t (self s')
                 ∧ position_limit (self s') = position_limit t)
    (mkStore t [])) as Hrun.
  unfold wp in Hrun.
  destruct (run state (mkStore t [])) as [r s'] eqn:Hr. simpl in *.
  assert (Hgoal : match r with
                  | Ok _ => tightened t (self s')
                            ∧ position_limit (self s') = position_limit t
                  | Raise _ => tightened t (self s')
                               ∧ position_limit (self s') = position_limit t
                  end); [|by destruct r].
  apply Hrun.
  - split; [apply tightened_refl|done].
  - intros pre product od post s result _ [Ht Hl].
    eapply wp_mono; [|apply run_product_tightened].
    intros [[]|e] s1 [Hs1 Hl1];
      (split; [by eapply tightened_trans|congruence]).
  - intros _. split; [apply tightened_refl|done].
Qed.

Lemma ticks_quotes (states : list TradingState) (t : Trader) :
  tightened t (ticks t states)
  ∧ position_limit (ticks t states) = position_limit t.
Proof.
  unfold ticks. revert t.
  induction states as [|state states IH]; intros t; simpl.
  - split; [apply tightened_refl|done].
  - destruct (tick_quotes t state) as [Ht Hl].
    destruct (IH (tick t state).2) as [Ht' Hl'].
    split; [by eapply tightened_trans|congruence].
Qed.

Lemma crossed_tightened (t t' : Trader) (product : string) :
  crossed t product → tightened t t' → crossed t' product.
Proof.
  intros (a & b & Ha & Hb & Hlt) [Hask Hbid].
  destruct (Hask product a Ha) as (a' & Ha' & ?).
  destruct (Hbid product b Hb) as (b' & Hb' & ?).
  exists a', b'. repeat split; (done || lia).
Qed.

Lemma tick_wp (t : Trader) (state : TradingState)
    (Q : outcome (gmap string (list Order)) → Store → Prop) :
  wp (run state) Q (mkStore t []) →
  ∃ os, Q (tick t state).1 (mkStore (tick t state).2 os).
Proof.
  unfold wp, tick. destruct (run state (mkStore t [])) as [r [t' os]].
  simpl. eauto.
Qed.

Lemma tick_update (t : Trader) (state : TradingState)
    (res : gmap string (list Order)) :
  (tick t state).1 = Ok res →
  NoDup (order_depths state).*1 →
  ∀ product od,
    (product, od) ∈ order_depths state →
    ∃ a av b bv,
      get_best_ask od = Some (a, av) ∧ get_best_bid od = Some (b, bv)
      ∧ ask_price (tick t state).2 !! product
        = Some (Z.min (dict_get (ask_price t) product a) a)
      ∧ bid_price (tick t state).2 !! product
        = Some (Z.max (dict_get (bid_price t) product b) b).
Proof.
  intros Hres Hnd.
  set (Inv := fun (pre : list (string * OrderDepth)) (s : Store)
                  (_ : gmap string (list Order)) =>
    (∀ product od, (product, od) ∈ pre →
       ∃ a av b bv,
         get_best_ask od = Some (a, av) ∧ get_best_bid od = Some (b, bv)
         ∧ ask_price (self s) !! product
           = Some (Z.min (dict_get (ask_price t) product a) a)
         ∧ bid_price (self s) !! product
           = Some (Z.max (dict_get (bid_price t) product b) b))
    ∧ (∀ product, product ∉ pre.*1 →
         ask_price (self s) !! product = ask_price t !! product
         ∧ bid_price (self s) !! product = bid_price t !! product)).
  destruct (tick_wp t state
    (fun r s' => match r with
                 | Ok _ => Inv (order_depths state) s' ∅
                 | Raise _ => True
                 end)) as [os Hpost].
  { apply (wp_run state Inv (fun _ _ => True)); [|clear Hres|done].
    - split; [intros ? ? []%elem_of_nil|done].
    - intros pre product od post s result Heq [Hpre Hrest].
      apply wp_run_product_quotes.
      destruct (get_best_ask od) as [[a av]|] eqn:Hba; [|done].
      destruct (get_best_bid od) as [[b bv]|] eqn:Hbb; [|done].
      intros [[]|e] t' os _ Ha Hb; [|done].
      rewrite Heq, fmap_app, fmap_cons in Hnd. simpl in Hnd.
      apply NoDup_app in Hnd as (_ & Hdisj & Hnd2).
      apply NoDup_cons in Hnd2 as [Hpost _].
      assert (Hfresh : product ∉ pre.*1).
      { intros Hin. apply (Hdisj product Hin). left. }
      destruct (Hrest product Hfresh) as [Ha0 Hb0].
      split; simpl.
      + intros p' od' [Hin|Hin]%elem_of_app.
        * assert (p' ≠ product).
          { intros Hp. subst p'. apply Hfresh. apply list_elem_of_fmap.
            eexists. split; [|exact Hin]. reflexivity. }
          destruct (Hpre p' od' Hin) as (a' & av' & b' & bv' & ? & ? & ? & ?).
          exists a', av', b', bv'. rewrite Ha, Hb.
          by rewrite !lookup_insert_ne by done.
        * apply list_elem_of_singleton in Hin. injection Hin as -> ->.
          exists a, av, b, bv. rewrite Ha, Hb, !lookup_insert_eq.
          unfold dict_get. by rewrite Ha0, Hb0.
      + intros p' Hp'. rewrite fmap_app in Hp'. simpl in Hp'.
        apply not_elem_of_app in Hp' as [Hp1 Hp2].
        apply not_elem_of_cons in Hp2 as [Hne _].
        rewrite Ha, Hb, !lookup_insert_ne by done. by apply Hrest. }
  rewrite Hres in Hpost. destruct Hpost as [Hall _].
  intros product od Hin. apply (Hall product od Hin).
Qed.

Lemma tick_crossed_orders (t : Trader) (state : TradingState)
    (res : gmap string (list Order)) (od : OrderDepth) :
  crossed t "PEARLS" →
  (tick t state).1 = Ok res →
  ("PEARLS", od) ∈ order_depths state →
  let pos := dict_get (position state) "PEARLS" 0 in
  let lim := dict_get (position_limit t) "PEARLS" 0 in
  ∃ a b,
    ask_price (tick t state).2 !! "PEARLS" = Some a
    ∧ bid_price (tick t state).2 !! "PEARLS" = Some b
    ∧ a < b
    ∧ res !! "PEARLS"
      = Some [mkOrder "PEARLS" a (Z.abs (lim - pos));
              mkOrder "PEARLS" b (- Z.abs (lim + pos))].
Proof.
  intros Hcross Hres Hin pos lim.
  set (Inv := fun (pre : list (string * OrderDepth)) (s : Store)
                  (result : gmap string (list Order)) =>
    tightened t (self s)
    ∧ position_limit (self s) = position_limit t
    ∧ (∀ od, ("PEARLS", od) ∈ pre →
         ∃ a b,
           ask_price (self s) !! "PEARLS" = Some a
           ∧ bid_price (self s) !! "PEARLS" = Some b
           ∧ a < b
           ∧ result !! "PEARLS"
             = Some [mkOrder "PEARLS" a (Z.abs (lim - pos));
                     mkOrder "PEARLS" b (- Z.abs (lim + pos))])).
  destruct (tick_wp t state
    (fun r s' => match r with
                 | Ok res => Inv (order_depths state) s' res
                 | Raise _ => True
                 end)) as [os Hpost].
  { apply (wp_run state Inv (fun _ _ => True)); [|clear Hres|done].
    - split; [apply tightened_refl|]. split; [done|].
      intros ? []%elem_of_nil.
    - intros pre product od' post s result Heq (Ht & Hl & Hpre).
      destruct (decide (product = "PEARLS")) as [->|Hne].
      + apply wp_run_product.
        destruct (get_best_ask od') as [[a av]|]; [|done].
        destruct (get_best_bid od') as [[b bv]|]; [|done].
        cbn zeta. rewrite decide_True by done.
        destruct (crossed_tightened _ _ _ Hcross Ht)
          as (a0 & b0 & Ha0 & Hb0 & Hlt).
        assert (Hlt' :
          Z.min (dict_get (ask_price (self s)) "PEARLS" a) a
          < Z.max (dict_get (bid_price (self s)) "PEARLS" b) b).
        { unfold dict_get. rewrite Ha0, Hb0. simpl. lia. }
        rewrite decide_True by exact Hlt'.
        split; [|split]; simpl.
        * eapply tightened_trans; [exact Ht|].
          by eapply (tightened_update _ _ "PEARLS" a b).
        * done.
        * intros _ _. eexists _, _.
          rewrite !lookup_insert_eq. split; [done|]. split; [done|].
          split; [exact Hlt'|]. by rewrite Hl.
      + apply wp_run_product_quotes.
        destruct (get_best_ask od') as [[a av]|]; [|done].
        destruct (get_best_bid od') as [[b bv]|]; [|done].
        intros [[]|e] t' os Hl' Ha Hb; [|done].
        split; [|split]; simpl.
        * eapply tightened_trans; [exact Ht|]. by eapply tightened_update.
        * congruence.
        * intros od0 [Hin0|Hin0]%elem_of_app.
          -- destruct (Hpre od0 Hin0) as (a1 & b1 & ? & ? & ? & ?).
             exists a1, b1. rewrite Ha, Hb.
             by rewrite !lookup_insert_ne by done.
          -- apply list_elem_of_singleton in Hin0. by injection Hin0. }
  rewrite Hres in Hpost. destruct Hpost as (_ & _ & Hall).
  apply (Hall od Hin).
Qed.

(** C8.  Over every sequence of calls, the ask floor of a product
    never rises and its bid ceiling never falls, and an entry once set
    stays set.  A call that returns updates the entries of each product
    it quotes to [min(askFloor_prev, bestAsk)] and
    [max(bidCeiling_prev, bestBid)], the previous value being the best
    ask or bid itself when the product has no entry yet. *)
Theorem fair_value_monotone (t : Trader) :
  (∀ states, tightened t (ticks t states))
  ∧ (∀ state res,
       (tick t state).1 = Ok res →
       NoDup (order_depths state).*1 →
       ∀ product od,
         (product, od) ∈ order_depths state →
         ∃ a av b bv,
           get_best_ask od = Some (a, av) ∧ get_best_bid od = Some (b, bv)
           ∧ ask_price (tick t state).2 !! product
             = Some (Z.min (dict_get (ask_price t) product a) a)
           ∧ bid_price (tick t state).2 !! product
             = Some (Z.max (dict_get (bid_price t) product b) b)).
Proof.
  split.
  - intros states. apply ticks_quotes.
  - intros state res. apply tick_update.
Qed.

End FairValue.

(** ** Snapshots with an empty side *)

Section EmptySide.

Context `{PyNum}.

(** The same for every trader and every snapshot: a call whose
    snapshot has an instrument with an empty side raises. *)
Lemma tick_raises_on_empty_side (t : Trader) (state : TradingState)
    (product : string) (od : OrderDepth) :
  (product, od) ∈ order_depths state →
  sell_orders od = ∅ ∨ buy_orders od = ∅ →
  ∃ e, (tick t state).1 = Raise e.
Proof.
  intros Hin Hempty.
  set (Inv := fun (pre : list (string * OrderDepth)) (s : Store)
                  (_ : gmap string (list Order)) =>
    ∀ product od, (product, od) ∈ pre →
      sell_orders od ≠ ∅ ∧ buy_orders od ≠ ∅).
  destruct (tick_wp t state
    (fun r s' => match r with
                 | Ok _ => Inv (order_depths state) s' ∅
                 | Raise _ => True
                 end)) as [os Hpost].
  { apply (wp_run state Inv (fun _ _ => True)); [| |done].
    - intros ? ? []%elem_of_nil.
    - intros pre product' od' post s result Heq Hpre.
      apply wp_run_product_quotes.
      destruct (get_best_ask od') as [[a av]|] eqn:Hba; [|done].
      destruct (get_best_bid od') as [[b bv]|] eqn:Hbb; [|done].
      intros [[]|e] t' os _ _ _; [|done].
      intros p0 od0 [Hin0|Hin0]%elem_of_app; [by apply (Hpre p0 od0)|].
      apply list_elem_of_singleton in Hin0. injection Hin0 as -> ->.
      split; intros He.
      + apply get_best_ask_empty in He as [He _]. congruence.
      + apply get_best_bid_empty in He. congruence. }
  destruct (tick t state).1 as [res|e]; [|by exists e].
  destruct (Hpost product od Hin) as [? ?]. by destruct Hempty.
Qed.

(** C4: the code on snapshots with an empty side.  [get_best_ask]
    returns the absent value, and [Trader.run] then raises: line 40
    negates the absent volume (line 41 compares it with an integer when
    the buy side is the empty one).  It also raises on the snapshot
    without instrument, where line 73 reads the unbound [orders]. *)
Theorem run_raises_on_empty_side :
  get_best_ask (mkOrderDepth {[ 9998 := 3 ]} ∅) = None
  ∧ tick Trader_init pearls_no_asks = (Raise TypeError, Trader_init)
  ∧ tick Trader_init bananas_no_bids = (Raise TypeError, Trader_init)
  ∧ tick Trader_init no_instruments = (Raise UnboundLocalError, Trader_init).
Proof. repeat split. Qed.

End EmptySide.

(** ** Calls that return *)

Section Total.

Context `{PyNum}.

Lemma Trader_init_well_formed : well_formed Trader_init.
Proof. split; [simpl; lia|]. split; [done|]. intros product. done. Qed.

Lemma last_two {A : Type} (l : list A) :
  (2 ≤ length l)%nat → ∃ l0 x y, l = l0 ++ [x; y].
Proof.
  destruct l as [|y l _] using rev_ind; [simpl; lia|].
  destruct l as [|x l _] using rev_ind; [simpl; lia|].
  intros _. exists l, x, y. by rewrite <- app_assoc.
Qed.

Lemma sell_signal_total (product : string) (s : Store) (L S : list num) :
  large_bid_averages (self s) !! product = Some L →
  small_bid_averages (self s) !! product = Some S →
  length L = length S →
  2 ≤ window_size_small (self s) →
  ∃ c, sell_signal product s = (Ok c, s).
Proof.
  intros HL HS Hlen Hw.
  destruct (decide (Z.of_nat (length L) < window_size_small (self s))).
  - exists false. by apply (sell_signal_gate s product L S).
  - destruct (last_two L) as (L0 & pl & cl & ->); [lia|].
    destruct (last_two S) as (S0 & ps & cs & ->); [lia|].
    eexists. apply (sell_signal_cross s product L0 S0); [done..|lia].
Qed.

Lemma buy_signal_total (product : string) (s : Store) (L S : list num) :
  large_ask_averages (self s) !! product = Some L →
  small_ask_averages (self s) !! product = Some S →
  length L = length S →
  2 ≤ window_size_small (self s) →
  ∃ c, buy_signal product s = (Ok c, s).
Proof.
  intros HL HS Hlen Hw.
  destruct (decide (Z.of_nat (length L) < window_size_small (self s))).
  - exists false. by apply (buy_signal_gate s product L S).
  - destruct (last_two L) as (L0 & pl & cl & ->); [lia|].
    destruct (last_two S) as (S0 & ps & cs & ->); [lia|].
    eexists. apply (buy_signal_cross s product L0 S0); [done..|lia].
Qed.

Lemma wp_total_signal_then_order (signal : M bool)
    (g : list Order → list Order) (Q : outcome unit → Store → Prop)
    (s : Store) (c : bool) :
  signal s = (Ok c, s) →
  Q (Ok tt) s →
  Q (Ok tt) (mkStore (self s) (g (orders s))) →
  wp (condition ← signal;
      if (condition : bool) then modify_orders g else mret tt) Q s.
Proof.
  intros Hsig Hs Hg. unfold wp, mbind, M_bind. rewrite Hsig.
  by destruct c.
Qed.


Lemma aligned_update (t t' : Trader) (product : string)
    (large small : series) (L S : list num) :
  (large = Large_bid_averages ∧ small = Small_bid_averages)
  ∨ (large = Large_ask_averages ∧ small = Small_ask_averages) →
  aligned t →
  series_get large t' !! product = Some L →
  series_get small t' !! product = Some S →
  length L = length S →
  (∀ a p, (a = large ∨ a = small) → p ≠ product →
     series_get a t' !! p = series_get a t !! p) →
  (∀ a, a ≠ large → a ≠ small →
     a ≠ Vwap_bid_prices → a ≠ Vwap_ask_prices →
     series_get a t' = series_get a t) →
  aligned t'.
Proof.
  intros Hside Hal HL HS Hlen Hother Hrest product'.
  destruct (Hal product') as [Hbid Hask].
  destruct Hside as [[-> ->]|[-> ->]].
  - pose proof (Hrest Large_ask_averages) as E1.
    pose proof (Hrest Small_ask_averages) as E2.
    pose proof (Hother Large_bid_averages product') as E3.
    pose proof (Hother Small_bid_averages product') as E4.
    simpl in *. rewrite E1, E2 by done. split; [|done].
    destruct (decide (product' = product)) as [->|Hne].
    + by rewrite HL, HS.
    + rewrite E3, E4; auto.
  - pose proof (Hrest Large_bid_averages) as E1.
    pose proof (Hrest Small_bid_averages) as E2.
    pose proof (Hother Large_ask_averages product') as E3.
    pose proof (Hother Small_ask_averages product') as E4.
    simpl in *. rewrite E1, E2 by done. split; [done|].
    destruct (decide (product' = product)) as [->|Hne].
    + by rewrite HL, HS.
    + rewrite E3, E4; auto.
Qed.

Lemma order_by_vwap_returns (product : string)
    (prices large small : series) (book : gmap Z Z)
    (signal : M bool) (g : list Order → list Order) (s : Store) (v : num) :
  (prices = Vwap_bid_prices ∧ large = Large_bid_averages
   ∧ small = Small_bid_averages ∧ signal = sell_signal product)
  ∨ (prices = Vwap_ask_prices ∧ large = Large_ask_averages
     ∧ small = Small_ask_averages ∧ signal = buy_signal product) →
  well_formed (self s) →
  get_vwap book = Ok v →
  wp (order_by_vwap product prices large small book signal (modify_orders g))
     (fun r s' => r = Ok tt ∧ well_formed (self s')) s.
Proof.
  intros Hside (HWs & HWl & Hal) Hv.
  assert (Hd : prices ≠ large ∧ prices ≠ small ∧ large ≠ small).
  { destruct Hside as [(-> & -> & -> & _)|(-> & -> & -> & _)]; done. }
  destruct Hd as (Hpl & Hps & Hls).
  assert (Hpair : (large = Large_bid_averages ∧ small = Small_bid_averages)
                  ∨ (large = Large_ask_averages ∧ small = Small_ask_averages)).
  { destruct Hside as [(_ & -> & -> & _)|(_ & -> & -> & _)]; auto. }
  assert (Hentry :
    length (default [] (series_get large (self s) !! product))
    = length (default [] (series_get small (self s) !! product))).
  { destruct (Hal product) as [Hbid Hask].
    by destruct Hpair as [[-> ->]|[-> ->]]. }
  assert (Hvwap : prices = Vwap_bid_prices ∨ prices = Vwap_ask_prices).
  { destruct Hside as [(-> & _)|(-> & _)]; auto. }
  assert (Hne : ∀ a, a ≠ Vwap_bid_prices → a ≠ Vwap_ask_prices → prices ≠ a).
  { intros a ? ? <-. by destruct Hvwap. }
  eapply (wp_order_by_vwap_exact product prices large small book);
    [done|done|done|done|lia|exact Hv| |].
  - intros _. split; [done|]. split; [done|]. split; [done|].
    eapply (aligned_update (self s) _ product large small); [done|done| | | | |].
    + by series_norm.
    + by series_norm.
    + done.
    + intros a p [-> | ->] Hp; series_norm;
        rewrite ?series_setitem_other by done; series_norm;
        rewrite ?series_setitem_other by done; series_norm; done.
    + intros a Hl Hs Hb Ha. specialize (Hne a Hb Ha). by series_norm.
  - intros Hlen avg_large avg_small HavgL HavgS.
    set (t2 := series_setitem small product _ _).
    assert (HL2 : series_get large t2 !! product
                  = Some (default [] (series_get large (self s) !! product)
                          ++ [avg_large])) by (by subst t2; series_norm).
    assert (HS2 : series_get small t2 !! product
                  = Some (default [] (series_get small (self s) !! product)
                          ++ [avg_small])) by (by subst t2; series_norm).
    assert (Hlen2 :
      length (default [] (series_get large (self s) !! product) ++ [avg_large])
      = length (default [] (series_get small (self s) !! product)
                ++ [avg_small])).
    { rewrite !length_app. simpl. lia. }
    assert (Hwf2 : well_formed t2).
    { split; [done|]. split; [done|].
      eapply (aligned_update (self s) _ product large small);
        [done|done|exact HL2|exact HS2|exact Hlen2| |].
      - intros a p [-> | ->] Hp; subst t2; series_norm;
          rewrite ?series_setitem_other by done; series_norm;
          rewrite ?series_setitem_other by done; series_norm;
          rewrite ?series_setitem_other by done; series_norm; done.
      - intros a Hl Hs Hb Ha. specialize (Hne a Hb Ha).
        subst t2. by series_norm. }
    assert (Hsig : ∃ c, signal (mkStore t2 (orders s))
                        = (Ok c, mkStore t2 (orders s))).
    { destruct Hside as [(_ & -> & -> & ->)|(_ & -> & -> & ->)].
      - apply (sell_signal_total product (mkStore t2 (orders s)) _ _
                 HL2 HS2 Hlen2). exact HWs.
      - apply (buy_signal_total product (mkStore t2 (orders s)) _ _
                 HL2 HS2 Hlen2). exact HWs. }
    destruct Hsig as [c Hsig].
    by eapply wp_total_signal_then_order.
Qed.

Lemma order_by_vwap_raises (product : string)
    (prices large small : series) (book : gmap Z Z)
    (signal : M bool) (g : list Order → list Order) (s : Store) (e : exn) :
  (prices = Vwap_bid_prices ∧ large = Large_bid_averages
   ∧ small = Small_bid_averages ∧ signal = sell_signal product)
  ∨ (prices = Vwap_ask_prices ∧ large = Large_ask_averages
     ∧ small = Small_ask_averages ∧ signal = buy_signal product) →
  well_formed (self s) →
  get_vwap book = Raise e →
  wp (order_by_vwap product prices large small book signal (modify_orders g))
     (fun r s' =>
        r = Raise OverflowError
        ∧ well_formed (self s')
        ∧ orders s' = orders s
        ∧ (∀ a p, p ≠ product →
             series_get a (self s') !! p = series_get a (self s) !! p)
        ∧ (∀ a, default [] (series_get a (self s') !! product)
                = default [] (series_get a (self s) !! product))) s.
Proof.
  intros Hside (HWs & HWl & Hal) He.
  destruct (get_vwap_Raise book e He) as [-> _].
  assert (Hd : prices ≠ large ∧ prices ≠ small ∧ large ≠ small).
  { destruct Hside as [(-> & -> & -> & _)|(-> & -> & -> & _)]; done. }
  destruct Hd as (Hpl & Hps & Hls).
  eapply (wp_order_by_vwap_raise product prices large small book);
    [done|done|done|exact He|].
  cbn [self orders].
  set (t0 := series_setitem small product _ _).
  assert (Hother : ∀ a p, p ≠ product →
            series_get a t0 !! p = series_get a (self s) !! p).
  { intros a p Hp. subst t0.
    destruct (decide (small = a)) as [->|?];
      [rewrite series_setitem_other by done|rewrite series_setitem_ne by done];
    (destruct (decide (large = a)) as [->|?];
      [rewrite series_setitem_other by done|rewrite series_setitem_ne by done]);
    (destruct (decide (prices = a)) as [->|?];
      [rewrite series_setitem_other by done|rewrite series_setitem_ne by done]);
    done. }
  assert (Hsame : ∀ a, default [] (series_get a t0 !! product)
                       = default [] (series_get a (self s) !! product)).
  { intros a. subst t0.
    destruct (decide (small = a)) as [->|?]; [by series_norm|].
    rewrite series_setitem_ne by done.
    destruct (decide (large = a)) as [->|?]; [by series_norm|].
    rewrite series_setitem_ne by done.
    destruct (decide (prices = a)) as [->|?]; [by series_norm|].
    by rewrite series_setitem_ne by done. }
  split; [done|]. split; [|done].
  split; [done|]. split; [done|].
  intros p. destruct (Hal p) as [Hbid Hask].
  change (large_bid_averages t0) with (series_get Large_bid_averages t0).
  change (small_bid_averages t0) with (series_get Small_bid_averages t0).
  change (large_ask_averages t0) with (series_get Large_ask_averages t0).
  change (small_ask_averages t0) with (series_get Small_ask_averages t0).
  destruct (decide (p = product)) as [->|Hp].
  - by rewrite !Hsame.
  - by rewrite !Hother by done.
Qed.

Lemma order_by_vwap_total (product : string)
    (prices large small : series) (book : gmap Z Z)
    (signal : M bool) (g : list Order → list Order) (s : Store) :
  (prices = Vwap_bid_prices ∧ large = Large_bid_averages
   ∧ small = Small_bid_averages ∧ signal = sell_signal product)
  ∨ (prices = Vwap_ask_prices ∧ large = Large_ask_averages
     ∧ small = Small_ask_averages ∧ signal = buy_signal product) →
  well_formed (self s) →
  wp (order_by_vwap product prices large small book signal (modify_orders g))
     (fun r s' =>
        well_formed (self s')
        ∧ match r with
          | Ok _ => vwap_in_range book
          | Raise e => e = OverflowError ∧ ¬ vwap_in_range book
          end) s.
Proof.
  intros Hside Hwf. destruct (get_vwap book) as [v|e] eqn:Hv.
  - eapply wp_mono; [|by eapply order_by_vwap_returns].
    intros r s' [-> Hwf']. split; [done|]. by apply get_vwap_Ok in Hv.
  - eapply wp_mono; [|by eapply order_by_vwap_raises].
    intros r s' (-> & Hwf' & _). split; [done|].
    by destruct (get_vwap_Raise book e Hv).
Qed.

Lemma run_product_well_formed (state : TradingState) (product : string)
    (od : OrderDepth) (s : Store) :
  well_formed (self s) →
  wp (run_product state product od)
     (fun r s' =>
        well_formed (self s')
        ∧ match r with
          | Ok _ =>
              buy_orders od ≠ ∅ ∧ sell_orders od ≠ ∅
              ∧ (product = "BANANAS" →
                 vwap_in_range (buy_orders od)
                 ∧ vwap_in_range (sell_orders od))
          | Raise e =>
              (e = TypeError ∧ (sell_orders od = ∅ ∨ buy_orders od = ∅))
              ∨ (e = OverflowError ∧ product = "BANANAS"
                 ∧ ¬ (vwap_in_range (buy_orders od)
                      ∧ vwap_in_range (sell_orders od)))
          end)
     s.
Proof.
  intros Hwf. unfold run_product.
  wp_step. wp_step. wp_step. wp_step. cbn [self orders].
  destruct (decide (sell_orders od = ∅)) as [Hsell|Hsell].
  { destruct (get_best_ask_empty od Hsell) as [-> _].
    wp_step. split; [done|]. left. auto. }
  destruct (get_best_ask_nonempty od Hsell) as (a & av & _ & _ & -> & _).
  destruct (decide (buy_orders od = ∅)) as [Hbuy|Hbuy].
  { rewrite (get_best_bid_empty od Hbuy).
    wp_step. split; [done|]. left. auto. }
  destruct (get_best_bid_nonempty od Hbuy) as (b & bv & _ & _ & ->).
  wp_step. wp_step. wp_step. wp_step. cbn [self orders].
  set (t1 := set_bid_price _ _).
  assert (Hwf1 : well_formed t1) by exact Hwf.
  assert (Hask : is_Some (ask_price t1 !! product))
    by (subst t1; simpl; rewrite lookup_insert_eq; eauto).
  assert (Hbid : is_Some (bid_price t1 !! product))
    by (subst t1; simpl; rewrite lookup_insert_eq; eauto).
  destruct Hask as [ask Hask], Hbid as [bid Hbid].
  clearbody t1.
  destruct (decide (product = "PEARLS")) as [HP|HP].
  { assert (Hfinal : ∀ os,
      well_formed (self (mkStore t1 os))
      ∧ buy_orders od ≠ ∅ ∧ sell_orders od ≠ ∅
      ∧ (product = "BANANAS" →
         vwap_in_range (buy_orders od) ∧ vwap_in_range (sell_orders od))).
    { intros os. split; [done|]. split; [done|]. split; [done|].
      intros HB. by rewrite HB in HP. }
    wp_step. wp_step. wp_step. wp_step. cbn [self orders]. rewrite Hask.
    wp_step. wp_step. rewrite Hbid.
    destruct (decide (ask < bid)); [|wp_step; apply Hfinal].
    wp_step. wp_step. wp_step. wp_step. cbn [self orders]. rewrite Hask.
    wp_step. wp_step. wp_step. wp_step. wp_step. wp_step.
    cbn [self orders]. rewrite Hbid. wp_step. apply Hfinal. }
  destruct (decide (product = "BANANAS")) as [HB|HB]; [|by wp_step].
  wp_step.
  eapply wp_mono; [|apply order_by_vwap_total; [by left|done]].
  intros [[]|e] s1 [Hwf2 Hr1].
  - eapply wp_mono; [|apply order_by_vwap_total; [by right|done]].
    intros [[]|e] s2 [Hwf3 Hr2].
    + done.
    + destruct Hr2 as [-> Hr2]. split; [done|]. right.
      split; [done|]. split; [done|]. by intros [_ ?].
  - destruct Hr1 as [-> Hr1]. split; [done|]. right.
    split; [done|]. split; [done|]. by intros [? _].
Qed.

Lemma tick_well_formed (t : Trader) (state : TradingState) :
  well_formed t → well_formed (tick t state).2.
Proof.
  intros Hwf.
  destruct (tick_wp t state
    (fun r s' => match r with
                 | Ok _ => well_formed (self s')
                 | Raise _ => well_formed (self s')
                 end)) as [os Hpost].
  { apply (wp_run state (fun _ s' _ => well_formed (self s'))
             (fun _ s' => well_formed (self s'))); [done| |done].
    intros pre product od post s result _ Hs.
    eapply wp_mono; [|by apply run_product_well_formed].
    by intros [[]|e] s' [Hs' _]. }
  by destruct (tick t state).1.
Qed.

Lemma ticks_well_formed (states : list TradingState) (t : Trader) :
  well_formed t → well_formed (ticks t states).
Proof.
  unfold ticks. revert t.
  induction states as [|state states IH]; intros t Hwf; simpl; [done|].
  apply IH. by apply tick_well_formed.
Qed.

Lemma tick_returns (t : Trader) (state : TradingState) :
  well_formed t →
  order_depths state ≠ [] →
  (∀ product od, (product, od) ∈ order_depths state →
     buy_orders od ≠ ∅ ∧ sell_orders od ≠ ∅) →
  in_range state →
  ∃ res, (tick t state).1 = Ok res.
Proof.
  intros Hwf Hne Hsides Hrange.
  destruct (tick_wp t state
    (fun r s' => match r with
                 | Ok _ => well_formed (self s')
                 | Raise _ => False
                 end)) as [os Hpost].
  { apply (wp_run state (fun _ s' _ => well_formed (self s'))
             (fun _ _ => False)); [done| |done].
    intros pre product od post s result Heq Hs.
    assert (Hin : (product, od) ∈ order_depths state).
    { rewrite Heq. apply elem_of_app. right. left. }
    destruct (Hsides product od Hin) as [Hbuy Hsell].
    eapply wp_mono; [|by apply run_product_well_formed].
    intros [[]|e] s' [Hs' Hr]; [done|].
    destruct Hr as [[_ [?|?]]|(_ & -> & Hout)]; [done..|].
    apply Hout. by apply Hrange. }
  destruct (tick t state).1 as [res|e]; [by exists res|done].
Qed.

(** C10.  Once the ask floor of PEARLS is below its bid ceiling, it
    is so after every later sequence of calls.  Every later call that
    returns on a snapshot quoting PEARLS returns for it a buy at the
    ask floor for the buy headroom and a sell at the bid ceiling for
    the sell headroom.  And for a well-formed trader object, every
    later call returns when its snapshot has an instrument, each of
    its books has both sides, and the volume-weighted prices of its
    books of BANANAS are in the range of the floats. *)
Theorem crossed_is_absorbing (t : Trader) :
  crossed t "PEARLS" →
  (∀ states, crossed (ticks t states) "PEARLS")
  ∧ (∀ states state res od,
       (tick (ticks t states) state).1 = Ok res →
       ("PEARLS", od) ∈ order_depths state →
       let pos := dict_get (position state) "PEARLS" 0 in
       let lim := dict_get (position_limit t) "PEARLS" 0 in
       ∃ a b,
         ask_price (tick (ticks t states) state).2 !! "PEARLS" = Some a
         ∧ bid_price (tick (ticks t states) state).2 !! "PEARLS" = Some b
         ∧ a < b
         ∧ res !! "PEARLS"
           = Some [mkOrder "PEARLS" a (Z.abs (lim - pos));
                   mkOrder "PEARLS" b (- Z.abs (lim + pos))])
  ∧ (well_formed t →
     ∀ states state,
       order_depths state ≠ [] →
       (∀ product od, (product, od) ∈ order_depths state →
          buy_orders od ≠ ∅ ∧ sell_orders od ≠ ∅) →
       in_range state →
       ∃ res, (tick (ticks t states) state).1 = Ok res).
Proof.
  intros Hcross.
  assert (Hlater : ∀ states, crossed (ticks t states) "PEARLS").
  { intros states. eapply crossed_tightened; [exact Hcross|].
    apply ticks_quotes. }
  split; [done|]. split.
  - intros states state res od Hres Hin pos lim.
    destruct (ticks_quotes states t) as [_ Hl]. unfold lim. rewrite <- Hl.
    by apply (tick_crossed_orders (ticks t states) state res od).
  - intros Hwf states state Hne Hsides Hrange.
    apply tick_returns; [by apply ticks_well_formed|done|done|done].
Qed.

End Total.

(** ** The headroom invariant *)

Lemma bought_sold_nonneg (orders : list Order) :
  0 ≤ bought orders ∧ 0 ≤ sold orders.
Proof. induction orders as [|o l [? ?]]; simpl; lia. Qed.

Lemma net_quantity_bought_sold (orders : list Order) :
  net_quantity orders = bought orders - sold orders.
Proof.
  unfold net_quantity. induction orders as [|o l IH]; [done|].
  csimpl. rewrite IH. lia.
Qed.

Lemma sublist_bought_sold (executed orders : list Order) :
  sublist executed orders →
  bought executed ≤ bought orders ∧ sold executed ≤ sold orders.
Proof.
  induction 1 as [|o l1 l2 _ [? ?]|o l1 l2 _ [? ?]]; simpl; lia.
Qed.

Lemma elem_of_bought_sold (o : Order) (orders : list Order) :
  o ∈ orders →
  quantity o ≤ bought orders ∧ - quantity o ≤ sold orders.
Proof.
  induction 1 as [o l|o o' l _ [? ?]]; simpl;
    pose proof (bought_sold_nonneg l); lia.
Qed.

Lemma within_headroom_totals (pos lim : Z) (orders : list Order) :
  bought orders ≤ lim - pos → sold orders ≤ lim + pos →
  within_headroom pos lim orders.
Proof.
  intros Hb Hs. split.
  - intros o Ho. pose proof (elem_of_bought_sold o orders Ho). lia.
  - intros executed Hsub.
    pose proof (sublist_bought_sold _ _ Hsub).
    pose proof (bought_sold_nonneg executed).
    rewrite net_quantity_bought_sold. lia.
Qed.

Section Headroom.

Context `{PyNum}.

(** C1.  For a call that returns, on a snapshot whose books follow
    the sign convention of the data model: for each product whose
    position is within its limit, every order returned for it has a
    quantity of at most [limit - position] if it buys and a magnitude
    of at most [limit + position] if it sells, and executing any of
    the returned orders in full leaves the position within
    [[-limit, +limit]]. *)
Theorem headroom_invariant (t : Trader) (state : TradingState)
    (res : gmap string (list Order)) :
  (tick t state).1 = Ok res →
  (∀ product od, (product, od) ∈ order_depths state → sign_convention od) →
  ∀ product orders,
    res !! product = Some orders →
    let pos := dict_get (position state) product 0 in
    let lim := dict_get (position_limit t) product 0 in
    Z.abs pos ≤ lim →
    within_headroom pos lim orders.
Proof.
  intros Hres Hsign.
  set (P := fun (product : string) (orders : list Order) =>
    let pos := dict_get (position state) product 0 in
    let lim := dict_get (position_limit t) product 0 in
    Z.abs pos ≤ lim →
    bought orders ≤ lim - pos ∧ sold orders ≤ lim + pos).
  set (Inv := fun (pre : list (string * OrderDepth)) (s : Store)
                  (result : gmap string (list Order)) =>
    position_limit (self s) = position_limit t
    ∧ ∀ product orders, result !! product = Some orders → P product orders).
  destruct (tick_wp t state
    (fun r s' => match r with
                 | Ok res => Inv (order_depths state) s' res
                 | Raise _ => True
                 end)) as [os Hpost].
  { apply (wp_run state Inv (fun _ _ => True)); [|clear Hres|done].
    - split; [done|]. intros product orders. by rewrite lookup_empty.
    - intros pre product od post s result Heq [Hl Hresult].
      assert (Hod : sign_convention od).
      { apply (Hsign product). rewrite Heq. apply elem_of_app. right. left. }
      assert (Hstep : ∀ (r : outcome unit) t' os,
        position_limit t' = position_limit (self s) →
        P product os →
        match r with
        | Ok _ => Inv (pre ++ [(product, od)]) (mkStore t' os)
                    (<[product := os]> result)
        | Raise _ => True
        end).
      { intros [[]|e] t' os Hl' HP; [|done]. split; [simpl; congruence|].
        intros p' orders'. destruct (decide (product = p')) as [<-|Hne].
        - rewrite lookup_insert_eq. by intros [= <-].
        - rewrite lookup_insert_ne by done. apply Hresult. }
      apply wp_run_product.
      destruct (get_best_ask od) as [[a av]|] eqn:Hba; [|done].
      destruct (get_best_bid od) as [[b bv]|] eqn:Hbb; [|done].
      apply get_best_ask_Some in Hba. apply get_best_bid_Some in Hbb.
      destruct Hod as [Hbuy Hsell].
      apply Hsell in Hba. apply Hbuy in Hbb.
      cbn zeta. rewrite Hl.
      repeat case_decide.
      + apply (Hstep (Ok tt)); [done|]. unfold P. simpl. lia.
      + apply (Hstep (Ok tt)); [done|]. unfold P. simpl. lia.
      + intros r t' sells buys (Hl' & _) Hsells Hbuys.
        apply (Hstep r); [done|]. unfold P.
        destruct Hsells as [->| ->], Hbuys as [->| ->]; simpl; lia.
      + apply (Hstep (Ok tt)); [done|]. unfold P. simpl. lia. }
  rewrite Hres in Hpost. destruct Hpost as [_ Hall].
  intros product orders Hlook pos lim Hpos.
  destruct (Hall product orders Hlook Hpos).
  by apply within_headroom_totals.
Qed.

End Headroom.

(** ** Best bid, spread and mid price *)

(** X1.  [get_best_bid] returns no bid exactly on an empty buy side;
    otherwise it returns a price of the book with the volume stored
    at it, and no bid of the book is higher. *)
Theorem get_best_bid_highest (od : OrderDepth) :
  (get_best_bid od = None ↔ buy_orders od = ∅)
  ∧ (∀ p q, get_best_bid od = Some (p, q) →
       buy_orders od !! p = Some q
       ∧ ∀ p', is_Some (buy_orders od !! p') → p' ≤ p).
Proof.
  split.
  - split; [|apply get_best_bid_empty].
    intros Hnone. destruct (decide (buy_orders od = ∅)) as [|Hne]; [done|].
    destruct (get_best_bid_nonempty od Hne) as (p & q & _ & _ & Hb).
    congruence.
  - intros p q Hb.
    destruct (decide (buy_orders od = ∅)) as [He|Hne].
    { apply get_best_bid_empty in He. congruence. }
    destruct (get_best_bid_nonempty od Hne) as (p' & q' & Hq & Hmax & Hb').
    rewrite Hb in Hb'. by injection Hb' as -> ->.
Qed.

Lemma get_spread_Some (od : OrderDepth) (s : Z) :
  get_spread od = Some s →
  ∃ a qa b qb,
    sell_orders od !! a = Some qa ∧ buy_orders od !! b = Some qb
    ∧ (∀ p, is_Some (sell_orders od !! p) → a ≤ p)
    ∧ (∀ p, is_Some (buy_orders od !! p) → p ≤ b)
    ∧ s = a - b.
Proof.
  unfold get_spread. intros Hs.
  destruct (decide (buy_orders od = ∅)) as [He|Hb].
  { apply get_best_bid_empty in He. by rewrite He in Hs. }
  destruct (decide (sell_orders od = ∅)) as [He|Ha].
  { apply get_best_ask_empty in He as [He _]. rewrite He in Hs.
    by destruct (get_best_bid od) as [[??]|]. }
  destruct (get_best_bid_nonempty od Hb) as (b & qb & Hqb & Hmax & Hbb).
  destruct (get_best_ask_nonempty od Ha) as (a & qa & Hqa & Hmin & Hba & _).
  rewrite Hbb, Hba in Hs. injection Hs as <-.
  exists a, qa, b, qb. done.
Qed.

(** X2.  [get_spread] returns [None] exactly when a side of the book
    is empty.  Otherwise it returns the smallest difference between
    an ask and a bid of the book: the value is the difference of an
    ask and a bid of the book, and no ask and bid of the book differ
    by less.  It is negative exactly when some ask of the book is
    below some bid. *)
Theorem get_spread_crossed (od : OrderDepth) :
  (get_spread od = None ↔ buy_orders od = ∅ ∨ sell_orders od = ∅)
  ∧ (∀ s, get_spread od = Some s →
       (∃ pa pb, is_Some (sell_orders od !! pa)
                 ∧ is_Some (buy_orders od !! pb) ∧ s = pa - pb)
       ∧ (∀ pa pb, is_Some (sell_orders od !! pa) →
                   is_Some (buy_orders od !! pb) → s ≤ pa - pb)
       ∧ (s < 0 ↔ ∃ pa pb, is_Some (sell_orders od !! pa)
                           ∧ is_Some (buy_orders od !! pb) ∧ pa < pb)).
Proof.
  split.
  - split.
    + intros Hnone.
      destruct (decide (buy_orders od = ∅)) as [|Hb]; [by left|].
      destruct (decide (sell_orders od = ∅)) as [|Ha]; [by right|].
      destruct (get_best_bid_nonempty od Hb) as (b & qb & _ & _ & Hbb).
      destruct (get_best_ask_nonempty od Ha) as (a & qa & _ & _ & Hba & _).
      unfold get_spread in Hnone. by rewrite Hbb, Hba in Hnone.
    + unfold get_spread. intros [He|He].
      * apply get_best_bid_empty in He. by rewrite He.
      * apply get_best_ask_empty in He as [He _]. rewrite He.
        by destruct (get_best_bid od) as [[??]|].
  - intros s Hs.
    destruct (get_spread_Some od s Hs)
      as (a & qa & b & qb & Hqa & Hqb & Hmin & Hmax & ->).
    split; [|split; [|split]].
    + exists a, b. eauto.
    + intros pa pb Hpa Hpb.
      specialize (Hmin pa Hpa). specialize (Hmax pb Hpb). lia.
    + intros Hneg. exists a, b. repeat split; eauto. lia.
    + intros (pa & pb & Hpa & Hpb & Hlt).
      specialize (Hmin pa Hpa). specialize (Hmax pb Hpb). lia.
Qed.

Section MidPrice.

Context `{PyNum}.

(** X3.  [get_mid_price] returns [None] exactly when [get_spread]
    does, which is when a side of the book is empty.  On every other
    book, with [a] the lowest ask and [b] the highest bid, the spread
    is [a - b] and the mid price is [(b + a) / 2], the division being
    Python's: it raises [OverflowError] when the sum is twice
    [float_limit] or more in magnitude, and returns the quotient
    otherwise.  It never raises [ZeroDivisionError]. *)
Theorem get_mid_price_spread (od : OrderDepth) :
  (get_mid_price od = Ok None ↔ get_spread od = None)
  ∧ (∀ a b,
       is_Some (sell_orders od !! a) →
       (∀ p, is_Some (sell_orders od !! p) → a ≤ p) →
       is_Some (buy_orders od !! b) →
       (∀ p, is_Some (buy_orders od !! p) → p ≤ b) →
       get_spread od = Some (a - b)
       ∧ get_mid_price od
         = if decide (float_limit * 2 ≤ Z.abs (b + a))
           then Raise OverflowError
           else Ok (Some (num_div (num_of_int (b + a)) (num_of_int 2))))
  ∧ get_mid_price od ≠ Raise ZeroDivisionError.
Proof.
  assert (Hmid : ∀ a qa b qb,
    get_best_ask od = Some (a, qa) → get_best_bid od = Some (b, qb) →
    get_mid_price od
    = if decide (float_limit * 2 ≤ Z.abs (b + a))
      then Raise OverflowError
      else Ok (Some (num_div (num_of_int (b + a)) (num_of_int 2)))).
  { intros a qa b qb Ha Hb. unfold get_mid_price, int_truediv.
    rewrite Ha, Hb. rewrite decide_False by done.
    change (Z.abs 2) with 2. by case_decide. }
  split; [|split].
  - unfold get_spread.
    destruct (get_best_bid od) as [[b qb]|] eqn:Hb;
      [|by unfold get_mid_price; rewrite Hb].
    destruct (get_best_ask od) as [[a qa]|] eqn:Ha;
      [|by unfold get_mid_price; rewrite Hb, Ha].
    rewrite (Hmid a qa b qb eq_refl eq_refl). by case_decide.
  - intros a b [qa Hqa] Hmin [qb Hqb] Hmax.
    assert (Hsell : sell_orders od ≠ ∅).
    { intros He. rewrite He in Hqa. by rewrite lookup_empty in Hqa. }
    assert (Hbuy : buy_orders od ≠ ∅).
    { intros He. rewrite He in Hqb. by rewrite lookup_empty in Hqb. }
    destruct (get_best_ask_nonempty od Hsell)
      as (a' & qa' & Hqa' & Hmin' & Ha & _).
    destruct (get_best_bid_nonempty od Hbuy)
      as (b' & qb' & Hqb' & Hmax' & Hb).
    assert (a' = a) as ->.
    { specialize (Hmin a' ltac:(eauto)). specialize (Hmin' a ltac:(eauto)).
      lia. }
    assert (b' = b) as ->.
    { specialize (Hmax b' ltac:(eauto)). specialize (Hmax' b ltac:(eauto)).
      lia. }
    split; [|by apply (Hmid a qa' b qb')].
    unfold get_spread. by rewrite Hb, Ha.
  - unfold get_mid_price.
    destruct (get_best_bid od) as [[b qb]|]; [|done].
    destruct (get_best_ask od) as [[a qa]|]; [|done].
    unfold int_truediv. rewrite decide_False by done. by case_decide.
Qed.

(** X4.  The helpers of utils.py compute what their namesakes of
    trader.py compute, with one difference: [Util.get_best_ask]
    returns the volume negated.  The mid price ignores the volume and
    is the same; [Util.get_moving_average] is the moving average of
    the prices of the trades. *)
Theorem util_agrees_with_trader :
  (∀ od, Util.get_best_bid od = get_best_bid od)
  ∧ (∀ od, Util.get_best_ask od = prod_map id Z.opp <$> get_best_ask od)
  ∧ (∀ od, Util.get_mid_price od = get_mid_price od)
  ∧ (∀ orders, Util.get_vwap orders = get_vwap orders)
  ∧ (∀ (Trade : Type) (price_of : Trade → num) trades w,
       Util.get_moving_average price_of trades w
       = get_moving_average (price_of <$> trades) w)
  ∧ (∀ product orders p q,
       Util.place_buy_order product orders p q
       = place_buy_order product orders p q
       ∧ Util.place_sell_order product orders p q
         = place_sell_order product orders p q).
Proof.
  assert (Hask : ∀ od,
    Util.get_best_ask od = prod_map id Z.opp <$> get_best_ask od).
  { intros od. unfold Util.get_best_ask, get_best_ask.
    case_decide; [done|].
    destruct (min_key (sell_orders od)) as [a|]; simpl; [|done].
    by destruct (sell_orders od !! a). }
  split; [done|]. split; [done|]. split; [|split; [done|split; [|done]]].
  - intros od. unfold Util.get_mid_price, get_mid_price.
    rewrite Hask. change (Util.get_best_bid od) with (get_best_bid od).
    destruct (get_best_bid od) as [[b qb]|]; [|done].
    by destruct (get_best_ask od) as [[a qa]|].
  - intros Trade price_of trades w.
    unfold Util.get_moving_average, get_moving_average, slice_from.
    rewrite !length_fmap. by rewrite fmap_drop.
Qed.

End MidPrice.

(** ** The sweeps on every book *)

Lemma place_sell_orders_up_to_one_level
    (product : string) (orders : list Order) (q : Z) (od : OrderDepth) :
  buy_orders od ≠ ∅ →
  ∃ p v, buy_orders od !! p = Some v
         ∧ (∀ p', is_Some (buy_orders od !! p') → p' ≤ p)
         ∧ place_sell_orders_up_to product orders q od
           = Ok (orders
                 ++ [mkOrder product p (- Z.min (Z.abs q) (Z.abs v))]).
Proof.
  intros Hne.
  destruct (max_key_nonempty _ Hne) as (p & v & Hk & Hv & Hmax).
  destruct (min_key_nonempty _ Hne) as (p2 & v2 & Hk2 & Hv2 & Hmin).
  exists p, v. split; [done|]. split; [done|].
  unfold place_sell_orders_up_to. rewrite Hk, Hk2.
  assert (p2 ≤ p) by (apply Hmin; eauto).
  replace (p + 1 - p2) with (Z.of_nat (S (Z.to_nat (p - p2)))) by lia.
  rewrite seqZ_S, reverse_snoc.
  replace (p2 + Z.of_nat (Z.to_nat (p - p2))) with p by lia.
  simpl. rewrite Hv. rewrite decide_True by lia.
  rewrite place_sell_order_app.
  rewrite (Z.abs_eq (Z.min _ _)) by lia. done.
Qed.

(** X5.  [place_buy_orders_up_to] raises [ValueError] on an empty
    sell side.  On every other book it returns with exactly one order
    appended, at the lowest ask, for the smaller of the magnitudes of
    the target and of the volume at that price. *)
Theorem place_buy_orders_up_to_outcome
    (product : string) (orders : list Order) (q : Z) (od : OrderDepth) :
  (sell_orders od = ∅ →
   place_buy_orders_up_to product orders q od = Raise ValueError)
  ∧ (sell_orders od ≠ ∅ →
     ∃ p v, sell_orders od !! p = Some v
            ∧ (∀ p', is_Some (sell_orders od !! p') → p ≤ p')
            ∧ place_buy_orders_up_to product orders q od
              = Ok (orders
                    ++ [mkOrder product p (Z.min (Z.abs q) (Z.abs v))])
            ∧ 0 ≤ Z.min (Z.abs q) (Z.abs v) ≤ Z.abs q).
Proof.
  split.
  - intros He. unfold place_buy_orders_up_to. by rewrite He, min_key_empty.
  - intros Hne.
    destruct (place_buy_orders_up_to_one_level product orders q od Hne)
      as (p & v & Hv & Hmin & Hrun).
    exists p, v. repeat split; try done; lia.
Qed.

(** X6.  [place_sell_orders_up_to] raises [ValueError] on an empty
    buy side.  On every other book it returns with exactly one order
    appended, at the highest bid, selling the smaller of the
    magnitudes of the target and of the volume at that price. *)
Theorem place_sell_orders_up_to_outcome
    (product : string) (orders : list Order) (q : Z) (od : OrderDepth) :
  (buy_orders od = ∅ →
   place_sell_orders_up_to product orders q od = Raise ValueError)
  ∧ (buy_orders od ≠ ∅ →
     ∃ p v, buy_orders od !! p = Some v
            ∧ (∀ p', is_Some (buy_orders od !! p') → p' ≤ p)
            ∧ place_sell_orders_up_to product orders q od
              = Ok (orders
                    ++ [mkOrder product p (- Z.min (Z.abs q) (Z.abs v))])
            ∧ 0 ≤ Z.min (Z.abs q) (Z.abs v) ≤ Z.abs q).
Proof.
  split.
  - intros He. unfold place_sell_orders_up_to. by rewrite He, max_key_empty.
  - intros Hne.
    destruct (place_sell_orders_up_to_one_level product orders q od Hne)
      as (p & v & Hv & Hmax & Hrun).
    exists p, v. repeat split; try done; lia.
Qed.

(** ** Moving averages on every input *)

Section Averages.

Context `{PyNum}.


End Averages.

(** ** Rates of change *)

Section RateOutcomes.

Context `{PyArith}.







End RateOutcomes.

(** ** The archived algorithm *)

Lemma int_lt_float_buy (n : Z) :
  Algo4.int_lt_float n (4940944 # 1000) = true ↔ n ≤ 4940.
Proof.
  unfold Algo4.int_lt_float, Qltb. rewrite negb_true_iff.
  rewrite <- not_true_iff_false, Qle_bool_iff.
  unfold Qle. simpl. lia.
Qed.

Lemma int_gt_float_sell (n : Z) :
  Algo4.int_gt_float n (4935635 # 1000) = true ↔ 4936 ≤ n.
Proof.
  unfold Algo4.int_gt_float, Qltb. rewrite negb_true_iff.
  rewrite <- not_true_iff_false, Qle_bool_iff.
  unfold Qle. simpl. lia.
Qed.

Lemma algo4_buy_outcome (state : TradingState) (od : OrderDepth) :
  Algo4.buy state "BANANAS" od []
  = Ok match get_best_ask od with
       | Some (best_ask, volume) =>
           if decide (best_ask ≤ 4940)
           then [mkOrder "BANANAS" best_ask
                   (- Z.max volume
                        (dict_get (position state) "BANANAS" 0 - 20))]
           else []
       | None => []
       end.
Proof.
  unfold Algo4.buy.
  destruct (decide (sell_orders od = ∅)) as [He|Hne].
  - destruct (get_best_ask_empty od He) as [-> _].
    rewrite He, map_size_empty. by rewrite decide_False by lia.
  - destruct (min_key_nonempty _ Hne) as (a & v & Hk & Hv & _).
    destruct (get_best_ask_nonempty od Hne) as (a' & v' & Hv' & _ & Ha & _).
    assert (Hsize : size (sell_orders od) ≠ 0%nat)
      by (by apply map_size_non_empty_iff).
    rewrite decide_True by lia. rewrite Hk, Hv.
    assert (a' = a ∧ v' = v) as [-> ->].
    { unfold get_best_ask in Ha. rewrite decide_False in Ha by done.
      rewrite Hk in Ha. simpl in Ha. rewrite Hv in Ha. simpl in Ha.
      by injection Ha as -> ->. }
    rewrite Ha. simpl.
    destruct (Algo4.int_lt_float a (4940944 # 1000)) eqn:Hlt.
    + apply int_lt_float_buy in Hlt. by rewrite decide_True.
    + rewrite decide_False; [done|]. intros Hle.
      apply int_lt_float_buy in Hle. congruence.
Qed.

Lemma algo4_sell_outcome (state : TradingState) (od : OrderDepth) :
  Algo4.sell state "BANANAS" od []
  = Ok match get_best_bid od with
       | Some (best_bid, volume) =>
           if decide (4936 ≤ best_bid)
           then [mkOrder "BANANAS" best_bid
                   (- Z.min volume
                        (dict_get (position state) "BANANAS" 0 + 20))]
           else []
       | None => []
       end.
Proof.
  unfold Algo4.sell.
  destruct (decide (buy_orders od = ∅)) as [He|Hne].
  - rewrite (get_best_bid_empty od He).
    rewrite He, map_size_empty. by rewrite decide_False by (intros Hn; by apply Hn).
  - destruct (max_key_nonempty _ Hne) as (b & v & Hk & Hv & _).
    destruct (get_best_bid_nonempty od Hne) as (b' & v' & Hv' & _ & Hb).
    assert (Hsize : size (buy_orders od) ≠ 0%nat)
      by (by apply map_size_non_empty_iff).
    rewrite decide_True by done. rewrite Hk, Hv.
    assert (b' = b ∧ v' = v) as [-> ->].
    { unfold get_best_bid in Hb. rewrite decide_False in Hb by done.
      rewrite Hk in Hb. simpl in Hb. rewrite Hv in Hb. simpl in Hb.
      by injection Hb as -> ->. }
    rewrite Hb. simpl.
    destruct (Algo4.int_gt_float b (4935635 # 1000)) eqn:Hgt.
    + apply int_gt_float_sell in Hgt. by rewrite decide_True.
    + rewrite decide_False; [done|]. intros Hle.
      apply int_gt_float_sell in Hle. congruence.
Qed.

Lemma algo4_run_loop (state : TradingState)
    (items : list (string * OrderDepth)) (result : gmap string (list Order)) :
  let pos := dict_get (position state) "BANANAS" 0 in
  ∃ res,
    Algo4.run_loop state items result = Ok res
    ∧ (∀ p, p ≠ "BANANAS" → res !! p = result !! p)
    ∧ ("BANANAS" ∉ items.*1 → res !! "BANANAS" = result !! "BANANAS")
    ∧ (∀ od, NoDup items.*1 → ("BANANAS", od) ∈ items →
         res !! "BANANAS" = Some (algo4_orders pos od)).
Proof.
  intros pos. revert result.
  induction items as [|[product od] items IH]; intros result.
  - exists result. split; [done|]. split; [done|]. split; [done|].
    intros od _ []%elem_of_nil.
  - simpl. destruct (decide (product = "BANANAS")) as [->|Hne].
    + assert (Hstep :
        (if decide (0 < dict_get (position state) "BANANAS" 0)
         then Algo4.sell state "BANANAS" od []
         else Algo4.buy state "BANANAS" od [])
        = Ok (algo4_orders pos od)).
      { unfold algo4_orders. fold pos. case_decide.
        - by rewrite algo4_sell_outcome.
        - by rewrite algo4_buy_outcome. }
      rewrite Hstep.
      destruct (IH (<["BANANAS" := algo4_orders pos od]> result))
        as (res & Hres & Hother & Hkeep & Hfound).
      exists res. split; [done|]. split; [|split].
      * intros p Hp. rewrite Hother by done. by rewrite lookup_insert_ne.
      * intros Hnot. exfalso. apply Hnot. left.
      * intros od' Hnd Hin. apply NoDup_cons in Hnd as [Hfresh Hnd].
        apply elem_of_cons in Hin as [Heq|Hin].
        -- injection Heq as ->. rewrite Hkeep by done.
           by rewrite lookup_insert_eq.
        -- exfalso. apply Hfresh. apply list_elem_of_fmap.
           eexists. split; [|exact Hin]. done.
    + destruct (IH result) as (res & Hres & Hother & Hkeep & Hfound).
      exists res. split; [done|]. split; [done|]. split.
      * intros Hnot. apply Hkeep. intros Hin. apply Hnot. by right.
      * intros od' Hnd Hin. apply NoDup_cons in Hnd as [_ Hnd].
        apply elem_of_cons in Hin as [Heq|Hin]; [congruence|].
        by apply Hfound.
Qed.

(** X10.  [Algo4.run] returns on every snapshot.  Its result has no
    key other than BANANAS, is empty when BANANAS is not quoted, and
    for a quoted book holds: with a positive position, a sell at the
    best bid when that bid is 4936 or more; otherwise a buy at the
    best ask when that ask is 4940 or less; and no order on an empty
    side. *)
Theorem algo4_run_result (state : TradingState) :
  let pos := dict_get (position state) "BANANAS" 0 in
  ∃ res,
    Algo4.run state = Ok res
    ∧ (∀ p, p ≠ "BANANAS" → res !! p = None)
    ∧ ("BANANAS" ∉ (order_depths state).*1 → res = ∅)
    ∧ (NoDup (order_depths state).*1 →
       ∀ od, ("BANANAS", od) ∈ order_depths state →
         res !! "BANANAS" = Some (algo4_orders pos od)).
Proof.
  intros pos. unfold Algo4.run.
  destruct (algo4_run_loop state (order_depths state) ∅)
    as (res & Hres & Hother & Hkeep & Hfound).
  exists res. split; [done|]. split; [|split].
  - intros p Hp. by rewrite Hother.
  - intros Hnot. apply map_eq. intros p. rewrite lookup_empty.
    destruct (decide (p = "BANANAS")) as [->|Hp].
    + by rewrite Hkeep.
    + by rewrite Hother.
  - intros Hnd od Hin. by apply Hfound.
Qed.

(** X11.  For a book of BANANAS that follows the sign convention and
    a position within [[-20, 20]], the orders [Algo4.run] returns keep
    the position within [[-20, 20]]: with a positive position they
    only sell, at 4936 or more, and otherwise they only buy, at 4940
    or less. *)
Theorem algo4_headroom (state : TradingState) (od : OrderDepth)
    (res : gmap string (list Order)) :
  let pos := dict_get (position state) "BANANAS" 0 in
  Algo4.run state = Ok res →
  NoDup (order_depths state).*1 →
  ("BANANAS", od) ∈ order_depths state →
  sign_convention od →
  -20 ≤ pos ≤ 20 →
  ∃ os,
    res !! "BANANAS" = Some os
    ∧ within_headroom pos 20 os
    ∧ ∀ o, o ∈ os →
        symbol o = "BANANAS"
        ∧ (0 < pos → quantity o < 0 ∧ 4936 ≤ price o)
        ∧ (pos ≤ 0 → 0 < quantity o ∧ price o ≤ 4940).
Proof.
  intros pos Hres Hnd Hin [Hbuy Hsell] Hpos.
  destruct (algo4_run_loop state (order_depths state) ∅)
    as (res' & Hres' & _ & _ & Hfound).
  unfold Algo4.run in Hres. rewrite Hres in Hres'. injection Hres' as <-.
  exists (algo4_orders pos od). split; [by apply Hfound|].
  unfold algo4_orders. case_decide as Hp.
  - destruct (get_best_bid od) as [[b v]|] eqn:Hb.
    + apply get_best_bid_Some in Hb. apply Hbuy in Hb.
      case_decide.
      * split; [apply within_headroom_totals; simpl; lia|].
        intros o ->%list_elem_of_singleton. simpl. split; [done|lia].
      * split; [apply within_headroom_totals; simpl; lia|].
        by intros o ?%elem_of_nil.
    + split; [apply within_headroom_totals; simpl; lia|].
      by intros o ?%elem_of_nil.
  - destruct (get_best_ask od) as [[a v]|] eqn:Ha.
    + apply get_best_ask_Some in Ha. apply Hsell in Ha.
      case_decide.
      * split; [apply within_headroom_totals; simpl; lia|].
        intros o ->%list_elem_of_singleton. simpl. split; [done|lia].
      * split; [apply within_headroom_totals; simpl; lia|].
        by intros o ?%elem_of_nil.
    + split; [apply within_headroom_totals; simpl; lia|].
      by intros o ?%elem_of_nil.
Qed.

(** ** The result of [Trader.run] *)

Section Results.

Context `{PyNum}.

Lemma run_product_shape (state : TradingState) (product : string)
    (od : OrderDepth) (s : Store) :
  wp (run_product state product od)
     (fun _ s' => returned_shape product (orders s')) s.
Proof.
  apply wp_run_product.
  destruct (get_best_ask od) as [[a av]|];
    [|by repeat split; [constructor|left|exists [], []; auto]].
  destruct (get_best_bid od) as [[b bv]|];
    [|by repeat split; [constructor|left|exists [], []; auto]].
  cbn zeta. repeat case_decide; simpl.
  - split; [by repeat constructor|]. split; [|split; [congruence|congruence]].
    intros _. right. eexists _, _, _, _. split; [done|]. lia.
  - split; [constructor|]. split; [by left|]. split; [congruence|done].
  - intros r t' sells buys _ Hsells Hbuys.
    split; [|split; [congruence|split; [|congruence]]].
    + apply Forall_app. split.
      * destruct Hsells as [->| ->]; by repeat constructor.
      * destruct Hbuys as [->| ->]; by repeat constructor.
    + intros _. exists sells, buys. split; [done|]. split.
      * destruct Hsells as [->| ->]; [by left|]. right.
        eexists _, _. split; [done|]. lia.
      * destruct Hbuys as [->| ->]; [by left|]. right.
        eexists _, _. split; [done|]. lia.
  - split; [constructor|]. split; [congruence|]. split; [congruence|done].
Qed.

(** X12.  The result of a call of [Trader.run] that returns has
    exactly the products of the snapshot as keys.  Every order under a
    key is for that product; PEARLS has no order or a buy followed by
    a sell at a higher price; BANANAS has at most one sell followed by
    at most one buy; every other product has no order. *)
Theorem tick_result_shape (t : Trader) (state : TradingState)
    (res : gmap string (list Order)) :
  (tick t state).1 = Ok res →
  dom res = list_to_set (order_depths state).*1
  ∧ ∀ product os, res !! product = Some os → returned_shape product os.
Proof.
  intros Hres.
  set (Inv := fun (pre : list (string * OrderDepth)) (_ : Store)
                  (result : gmap string (list Order)) =>
    dom result = list_to_set pre.*1
    ∧ ∀ product os, result !! product = Some os → returned_shape product os).
  destruct (tick_wp t state
    (fun r s' => match r with
                 | Ok res => Inv (order_depths state) s' res
                 | Raise _ => True
                 end)) as [os Hpost].
  { apply (wp_run state Inv (fun _ _ => True)); [| |done].
    - split; [by rewrite dom_empty_L|]. intros p os. by rewrite lookup_empty.
    - intros pre product od post s result _ [Hdom Hshape].
      eapply wp_mono; [|apply run_product_shape].
      intros [[]|e] s' Hs'; [|done]. split.
      + rewrite dom_insert_L, Hdom, fmap_app, list_to_set_app_L. simpl.
        rewrite union_empty_r_L. apply (comm_L (∪)).
      + intros p os. destruct (decide (product = p)) as [<-|Hne].
        * rewrite lookup_insert_eq. by intros [= <-].
        * rewrite lookup_insert_ne by done. apply Hshape. }
  by rewrite Hres in Hpost.
Qed.

Lemma run_product_configuration (state : TradingState) (product : string)
    (od : OrderDepth) (s : Store) :
  wp (run_product state product od)
     (fun _ s' =>
        position_limit (self s') = position_limit (self s)
        ∧ window_size_small (self s') = window_size_small (self s)
        ∧ window_size_large (self s') = window_size_large (self s)) s.
Proof.
  apply wp_run_product.
  destruct (get_best_ask od) as [[a av]|]; [|done].
  destruct (get_best_bid od) as [[b bv]|]; [|done].
  cbn zeta. repeat case_decide; try done.
  by intros r t' sells buys (? & _ & _ & ? & ?) _ _.
Qed.

Lemma tick_configuration (t : Trader) (state : TradingState) :
  position_limit (tick t state).2 = position_limit t
  ∧ window_size_small (tick t state).2 = window_size_small t
  ∧ window_size_large (tick t state).2 = window_size_large t.
Proof.
  set (C := fun t' : Trader =>
    position_limit t' = position_limit t
    ∧ window_size_small t' = window_size_small t
    ∧ window_size_large t' = window_size_large t).
  destruct (tick_wp t state
    (fun r s' => match r with
                 | Ok _ => C (self s')
                 | Raise _ => C (self s')
                 end)) as [os Hpost].
  { apply (wp_run state (fun _ s' _ => C (self s')) (fun _ s' => C (self s')));
      [done| |done].
    intros pre product od post s result _ (Hl & Hs & Hw).
    eapply wp_mono; [|apply run_product_configuration].
    intros [[]|e] s' (Hl' & Hs' & Hw'); (split; [|split]); congruence. }
  by destruct (tick t state).1.
Qed.

(** X13.  No sequence of calls changes the position limits or the
    two window sizes of the trader. *)
Theorem ticks_configuration (t : Trader) (states : list TradingState) :
  position_limit (ticks t states) = position_limit t
  ∧ window_size_small (ticks t states) = window_size_small t
  ∧ window_size_large (ticks t states) = window_size_large t.
Proof.
  unfold ticks. revert t.
  induction states as [|state states IH]; intros t; simpl; [done|].
  destruct (IH (tick t state).2) as (-> & -> & ->).
  apply tick_configuration.
Qed.

(** X14.  On a well-formed trader a call of [Trader.run] returns
    exactly when the snapshot has an instrument, each of its books
    has both sides, and the volume-weighted prices of its books of
    BANANAS are in the range of the floats.  Otherwise it raises
    [UnboundLocalError] on the snapshot without instrument,
    [TypeError] on a snapshot with a book that has an empty side, or
    the [OverflowError] of [get_vwap] on a snapshot with a book of
    BANANAS out of range; it raises nothing else. *)
Theorem tick_outcome (t : Trader) (state : TradingState) :
  well_formed t →
  match (tick t state).1 with
  | Ok _ =>
      order_depths state ≠ []
      ∧ (∀ product od, (product, od) ∈ order_depths state →
           buy_orders od ≠ ∅ ∧ sell_orders od ≠ ∅)
      ∧ in_range state
  | Raise e =>
      (e = UnboundLocalError ∧ order_depths state = [])
      ∨ (e = TypeError
         ∧ ∃ product od, (product, od) ∈ order_depths state
                         ∧ (sell_orders od = ∅ ∨ buy_orders od = ∅))
      ∨ (e = OverflowError
         ∧ ∃ od, ("BANANAS", od) ∈ order_depths state
                 ∧ ¬ (vwap_in_range (buy_orders od)
                      ∧ vwap_in_range (sell_orders od)))
  end.
Proof.
  intros Hwf.
  set (Inv := fun (pre : list (string * OrderDepth)) (s : Store)
                  (_ : gmap string (list Order)) =>
    well_formed (self s)
    ∧ (∀ product od, (product, od) ∈ pre →
         buy_orders od ≠ ∅ ∧ sell_orders od ≠ ∅)
    ∧ (∀ od, ("BANANAS", od) ∈ pre →
         vwap_in_range (buy_orders od) ∧ vwap_in_range (sell_orders od))).
  set (Qe := fun (e : exn) (_ : Store) =>
    (e = UnboundLocalError ∧ order_depths state = [])
    ∨ (e = TypeError
       ∧ ∃ product od, (product, od) ∈ order_depths state
                       ∧ (sell_orders od = ∅ ∨ buy_orders od = ∅))
    ∨ (e = OverflowError
       ∧ ∃ od, ("BANANAS", od) ∈ order_depths state
               ∧ ¬ (vwap_in_range (buy_orders od)
                    ∧ vwap_in_range (sell_orders od)))).
  destruct (tick_wp t state
    (fun r s' => match r with
                 | Ok _ => Inv (order_depths state) s' ∅
                           ∧ order_depths state ≠ []
                 | Raise e => Qe e s'
                 end)) as [os Hpost].
  { destruct (decide (order_depths state = [])) as [He|Hne].
    { unfold wp, run. rewrite He. simpl. by left. }
    eapply wp_mono;
      [|apply (wp_run state Inv Qe); [| |done]].
    - intros [res|e] s'; [|done]. intros (Hwf' & Hall & Hran). by split.
    - split; [done|]. split; [intros ? ? []%elem_of_nil|].
      intros ? []%elem_of_nil.
    - intros pre product od post s result Heq (Hs & Hpre & Hran).
      assert (Hin : (product, od) ∈ order_depths state).
      { rewrite Heq. apply elem_of_app. right. left. }
      eapply wp_mono; [|by apply run_product_well_formed].
      intros [[]|e] s' [Hs' Hr].
      + destruct Hr as (Hbuy & Hsell & Hb).
        split; [done|]. split.
        * intros p0 od0 [Hin0|Hin0]%elem_of_app; [by apply (Hpre p0 od0)|].
          apply list_elem_of_singleton in Hin0. by injection Hin0 as -> ->.
        * intros od0 [Hin0|Hin0]%elem_of_app; [by apply Hran|].
          apply list_elem_of_singleton in Hin0. injection Hin0 as <- ->.
          by apply Hb.
      + destruct Hr as [[-> Hempty]|(-> & -> & Hout)].
        * right. left. split; [done|]. by exists product, od.
        * right. right. split; [done|]. by exists od. }
  destruct (tick t state).1 as [res|e]; [|done].
  destruct Hpost as [(_ & Hall & Hran) Hne]. done.
Qed.

End Results.

(** ** The orders for PEARLS *)

Section Pearls.

Context `{PyNum}.

(** X15.  A call that returns on a snapshot quoting PEARLS returns for
    it the orders of the ask floor and the bid ceiling, which are the
    stored ones tightened by the best ask and the best bid of the
    book.  For a trader that has not seen PEARLS before, no order is
    returned exactly when the spread of the book is not negative. *)
Theorem tick_pearls_orders (t : Trader) (state : TradingState)
    (res : gmap string (list Order)) (od : OrderDepth) :
  (tick t state).1 = Ok res →
  NoDup (order_depths state).*1 →
  ("PEARLS", od) ∈ order_depths state →
  let pos := dict_get (position state) "PEARLS" 0 in
  let lim := dict_get (position_limit t) "PEARLS" 0 in
  ∃ a av b bv,
    get_best_ask od = Some (a, av) ∧ get_best_bid od = Some (b, bv)
    ∧ res !! "PEARLS"
      = Some (pearls_orders
                (Z.min (dict_get (ask_price t) "PEARLS" a) a)
                (Z.max (dict_get (bid_price t) "PEARLS" b) b)
                (lim - pos) (lim + pos))
    ∧ (ask_price t !! "PEARLS" = None → bid_price t !! "PEARLS" = None →
       (res !! "PEARLS" = Some [] ↔ ∃ s, get_spread od = Some s ∧ 0 ≤ s)).
Proof.
  intros Hres Hnd Hin pos lim.
  set (Inv := fun (pre : list (string * OrderDepth)) (s : Store)
                  (result : gmap string (list Order)) =>
    position_limit (self s) = position_limit t
    ∧ ("PEARLS" ∉ pre.*1 →
       ask_price (self s) !! "PEARLS" = ask_price t !! "PEARLS"
       ∧ bid_price (self s) !! "PEARLS" = bid_price t !! "PEARLS")
    ∧ (∀ od, ("PEARLS", od) ∈ pre →
         ∃ a av b bv,
           get_best_ask od = Some (a, av) ∧ get_best_bid od = Some (b, bv)
           ∧ result !! "PEARLS"
             = Some (pearls_orders
                       (Z.min (dict_get (ask_price t) "PEARLS" a) a)
                       (Z.max (dict_get (bid_price t) "PEARLS" b) b)
                       (lim - pos) (lim + pos)))).
  destruct (tick_wp t state
    (fun r s' => match r with
                 | Ok res => Inv (order_depths state) s' res
                 | Raise _ => True
                 end)) as [os Hpost].
  { apply (wp_run state Inv (fun _ _ => True)); [|clear Hres|done].
    - split; [done|]. split; [done|]. intros ? []%elem_of_nil.
    - intros pre product od' post s result Heq (Hl & Hfresh & Hpre).
      rewrite Heq, fmap_app, fmap_cons in Hnd. simpl in Hnd.
      apply NoDup_app in Hnd as (_ & Hdisj & Hnd2).
      assert (Hnew : product ∉ pre.*1).
      { intros Hp. apply (Hdisj product Hp). left. }
      destruct (decide (product = "PEARLS")) as [->|Hne].
      + destruct (Hfresh Hnew) as [Ha0 Hb0].
        apply wp_run_product.
        destruct (get_best_ask od') as [[a av]|] eqn:Hba; [|done].
        destruct (get_best_bid od') as [[b bv]|] eqn:Hbb; [|done].
        cbn zeta. rewrite decide_True by done. rewrite Hl.
        assert (Hget : dict_get (ask_price (self s)) "PEARLS" a
                       = dict_get (ask_price t) "PEARLS" a
                       ∧ dict_get (bid_price (self s)) "PEARLS" b
                         = dict_get (bid_price t) "PEARLS" b).
        { unfold dict_get. by rewrite Ha0, Hb0. }
        destruct Hget as [-> ->].
        assert (Hfinal : ∀ os0,
          os0 = pearls_orders
                  (Z.min (dict_get (ask_price t) "PEARLS" a) a)
                  (Z.max (dict_get (bid_price t) "PEARLS" b) b)
                  (lim - pos) (lim + pos) →
          ∀ t', position_limit t' = position_limit t →
          Inv (pre ++ [("PEARLS", od')]) (mkStore t' os0)
            (<["PEARLS" := os0]> result)).
        { intros os0 -> t' Hl'. split; [done|]. split.
          - intros Hnot. exfalso. apply Hnot. rewrite fmap_app.
            apply elem_of_app. right. left.
          - intros od0 [Hin0|Hin0]%elem_of_app.
            + exfalso. apply Hnew. apply list_elem_of_fmap.
              eexists. split; [|exact Hin0]. done.
            + apply list_elem_of_singleton in Hin0. injection Hin0 as ->.
              exists a, av, b, bv. by rewrite lookup_insert_eq. }
        unfold pearls_orders in Hfinal.
        case_decide; by apply Hfinal.
      + apply wp_run_product_quotes.
        destruct (get_best_ask od') as [[a av]|]; [|done].
        destruct (get_best_bid od') as [[b bv]|]; [|done].
        intros [[]|e] t' os Hl' Ha Hb; [|done].
        split; [simpl; congruence|]. split; simpl.
        * intros Hnot. rewrite Ha, Hb, !lookup_insert_ne by done.
          apply Hfresh. intros Hp. apply Hnot. rewrite fmap_app.
          apply elem_of_app. by left.
        * intros od0 [Hin0|Hin0]%elem_of_app.
          -- destruct (Hpre od0 Hin0) as (a1 & av1 & b1 & bv1 & ? & ? & ?).
             exists a1, av1, b1, bv1. by rewrite lookup_insert_ne by done.
          -- apply list_elem_of_singleton in Hin0. by injection Hin0. }
  rewrite Hres in Hpost. destruct Hpost as (_ & _ & Hall).
  destruct (Hall od Hin) as (a & av & b & bv & Hba & Hbb & Hlook).
  exists a, av, b, bv. split; [done|]. split; [done|]. split; [done|].
  intros Hna Hnb. rewrite Hlook. unfold dict_get, pearls_orders, get_spread.
  rewrite Hna, Hnb, Hba, Hbb. simpl.
  rewrite Z.min_id, Z.max_id. case_decide.
  - split; [done|]. intros (s & [= <-] & ?). lia.
  - split; [|done]. intros _. exists (a - b). split; [done|lia].
Qed.

End Pearls.

(** ** The effect of [order_by_vwap] on the series *)

Section Effect.

Context `{PyNum}.

Lemma series_setitem_frame (a b : series) (p p' : string) (l : list num)
    (t : Trader) :
  a ≠ b ∨ p ≠ p' →
  series_get b (series_setitem a p l t) !! p' = series_get b t !! p'.
Proof.
  intros [Hne|Hne]; [by rewrite series_setitem_ne|].
  destruct (decide (a = b)) as [->|Hab].
  - by rewrite series_setitem_other.
  - by rewrite series_setitem_ne.
Qed.

Lemma wp_signal_value (signal : M bool) (g : list Order → list Order)
    (Q : outcome unit → Store → Prop) (s : Store) (c : bool) :
  signal s = (Ok c, s) →
  Q (Ok tt) (if c then mkStore (self s) (g (orders s)) else s) →
  wp (condition ← signal;
      if (condition : bool) then modify_orders g else mret tt) Q s.
Proof.
  intros Hsig HQ. unfold wp, mbind, M_bind. rewrite Hsig. by destruct c.
Qed.

Lemma order_by_vwap_effect (product : string)
    (prices large small : series) (book : gmap Z Z)
    (signal : M bool) (g : list Order → list Order) (s : Store) (v : num) :
  (prices = Vwap_bid_prices ∧ large = Large_bid_averages
   ∧ small = Small_bid_averages ∧ signal = sell_signal product)
  ∨ (prices = Vwap_ask_prices ∧ large = Large_ask_averages
     ∧ small = Small_ask_averages ∧ signal = buy_signal product) →
  well_formed (self s) →
  get_vwap book = Ok v →
  let entry a t := default [] (series_get a t !! product) in
  let n := S (length (entry prices (self s))) in
  wp (order_by_vwap product prices large small book signal (modify_orders g))
     (fun r s' =>
        r = Ok tt
        ∧ well_formed (self s')
        ∧ same_quotes (self s) (self s')
        ∧ length (entry prices (self s')) = n
        ∧ (Z.of_nat n < window_size_large (self s) →
           length (entry large (self s')) = length (entry large (self s))
           ∧ length (entry small (self s')) = length (entry small (self s))
           ∧ orders s' = orders s)
        ∧ (¬ Z.of_nat n < window_size_large (self s) →
           length (entry large (self s')) = S (length (entry large (self s)))
           ∧ length (entry small (self s')) = S (length (entry small (self s)))
           ∧ (orders s' = orders s
              ∨ (orders s' = g (orders s)
                 ∧ window_size_small (self s)
                   ≤ Z.of_nat (S (length (entry large (self s)))))))
        ∧ (∀ a p, (a ≠ prices ∧ a ≠ large ∧ a ≠ small) ∨ p ≠ product →
             series_get a (self s') !! p = series_get a (self s) !! p)) s.
Proof.
  intros Hside Hwf Hv entry n.
  assert (Hwp := order_by_vwap_returns product prices large small book
                   signal g s v Hside Hwf Hv).
  destruct Hwf as (HWs & HWl & Hal).
  assert (Hd : prices ≠ large ∧ prices ≠ small ∧ large ≠ small).
  { destruct Hside as [(-> & -> & -> & _)|(-> & -> & -> & _)]; done. }
  destruct Hd as (Hpl & Hps & Hls).
  assert (Hentry : length (entry large (self s)) = length (entry small (self s))).
  { destruct (Hal product) as [Hbid Hask]. unfold entry.
    by destruct Hside as [(_ & -> & -> & _)|(_ & -> & -> & _)]. }
  assert (Hframe : wp
    (order_by_vwap product prices large small book signal (modify_orders g))
    (fun r s' =>
        same_quotes (self s) (self s')
        ∧ length (entry prices (self s')) = n
        ∧ (Z.of_nat n < window_size_large (self s) →
           length (entry large (self s')) = length (entry large (self s))
           ∧ length (entry small (self s')) = length (entry small (self s))
           ∧ orders s' = orders s)
        ∧ (¬ Z.of_nat n < window_size_large (self s) →
           length (entry large (self s')) = S (length (entry large (self s)))
           ∧ length (entry small (self s')) = S (length (entry small (self s)))
           ∧ (orders s' = orders s
              ∨ (orders s' = g (orders s)
                 ∧ window_size_small (self s)
                   ≤ Z.of_nat (S (length (entry large (self s)))))))
        ∧ (∀ a p, (a ≠ prices ∧ a ≠ large ∧ a ≠ small) ∨ p ≠ product →
             series_get a (self s') !! p = series_get a (self s) !! p)) s).
  { eapply (wp_order_by_vwap_exact product prices large small book);
      [done|done|done|done|lia|exact Hv| |].
    - intros Hlt. cbn [self orders]. unfold entry.
      split; [by repeat split|]. split.
      { series_norm. simpl. rewrite length_app. simpl. unfold n, entry. lia. }
      split.
      { intros _. by series_norm. }
      split.
      { intros Hge. exfalso. apply Hge. revert Hlt.
        rewrite length_app. simpl. unfold n, entry. lia. }
      intros a p [(Ha1 & Ha2 & Ha3)|Hp].
      + by rewrite !series_setitem_frame by (left; done).
      + by rewrite !series_setitem_frame by (right; done).
    - intros Hge avg_large avg_small _ _.
      set (t2 := series_setitem small product _ _).
      assert (HP2 : series_get prices t2 !! product
                    = Some (entry prices (self s) ++ [v]))
        by (by subst t2; series_norm).
      assert (HL2 : series_get large t2 !! product
                    = Some (entry large (self s) ++ [avg_large]))
        by (by subst t2; series_norm).
      assert (HS2 : series_get small t2 !! product
                    = Some (entry small (self s) ++ [avg_small]))
        by (by subst t2; series_norm).
      assert (Hlen2 : length (entry large (self s) ++ [avg_large])
                      = length (entry small (self s) ++ [avg_small])).
      { rewrite !length_app. simpl. lia. }
      assert (Hsig : ∃ c, signal (mkStore t2 (orders s))
                          = (Ok c, mkStore t2 (orders s))
                     ∧ (c = true →
                        window_size_small (self s)
                        ≤ Z.of_nat (S (length (entry large (self s)))))).
      { assert (HWs2 : 2 ≤ window_size_small (self (mkStore t2 (orders s))))
          by exact HWs.
        destruct (decide (Z.of_nat (length (entry large (self s) ++ [avg_large]))
                          < window_size_small (self s))) as [Hlt|Hnlt].
        - exists false. split; [|done].
          destruct Hside as [(_ & -> & -> & ->)|(_ & -> & -> & ->)].
          + by apply (sell_signal_gate (mkStore t2 (orders s)) product _ _
                        HL2 HS2).
          + by apply (buy_signal_gate (mkStore t2 (orders s)) product _ _
                        HL2 HS2).
        - assert (Hbound : window_size_small (self s)
                           ≤ Z.of_nat (S (length (entry large (self s))))).
          { revert Hnlt. rewrite length_app. simpl. lia. }
          destruct Hside as [(_ & -> & -> & ->)|(_ & -> & -> & ->)].
          + destruct (sell_signal_total product (mkStore t2 (orders s)) _ _
                        HL2 HS2 Hlen2 HWs2) as [c Hc]. by exists c.
          + destruct (buy_signal_total product (mkStore t2 (orders s)) _ _
                        HL2 HS2 Hlen2 HWs2) as [c Hc]. by exists c. }
      destruct Hsig as (c & Hsig & Hc).
      eapply wp_signal_value; [exact Hsig|].
      assert (Hself : self (if c then mkStore (self (mkStore t2 (orders s)))
                                        (g (orders (mkStore t2 (orders s))))
                            else mkStore t2 (orders s)) = t2)
        by (by destruct c).
      rewrite Hself.
      split; [by subst t2; repeat split|]. split.
      { unfold entry at 1. rewrite HP2. simpl. rewrite length_app. simpl.
        unfold n. lia. }
      split.
      { intros Hlt. exfalso. apply Hge. revert Hlt.
        rewrite length_app. simpl. unfold n, entry. lia. }
      split.
      { intros _. unfold entry at 1 3. rewrite HL2, HS2. simpl.
        rewrite !length_app. simpl. split; [lia|]. split; [lia|].
        destruct c; simpl; [right|left]; auto. }
      intros a p [(Ha1 & Ha2 & Ha3)|Hp]; subst t2.
      + by rewrite !series_setitem_frame by (left; done).
      + by rewrite !series_setitem_frame by (right; done). }
  unfold wp in *. destruct Hwp as [Hr Hwf']. done.
Qed.

End Effect.

(** ** The history of BANANAS *)

Section History.

Context `{PyNum}.

Lemma run_product_other (state : TradingState) (product : string)
    (od : OrderDepth) (s : Store) :
  product ≠ "BANANAS" →
  wp (run_product state product od)
     (fun _ s' => ∀ a, series_get a (self s') = series_get a (self s)) s.
Proof.
  intros Hne. apply wp_run_product.
  destruct (get_best_ask od) as [[a av]|]; [|done].
  destruct (get_best_bid od) as [[b bv]|]; [|done].
  cbn zeta. repeat case_decide; try done; by intros [].
Qed.

Lemma run_product_bananas (state : TradingState) (od : OrderDepth)
    (s : Store) :
  well_formed (self s) →
  wp (run_product state "BANANAS" od)
     (fun r s' =>
        (∀ a p, p ≠ "BANANAS" →
           series_get a (self s') !! p = series_get a (self s) !! p)
        ∧ match r with
          | Ok _ =>
              ∀ n, observed (self s) "BANANAS" n →
                observed (self s') "BANANAS" (S n)
                ∧ (Z.of_nat (S n)
                   < window_size_large (self s) + window_size_small (self s) - 1 →
                   orders s' = [])
          | Raise _ => True
          end) s.
Proof.
  intros Hwf. unfold run_product.
  wp_step. wp_step. wp_step. wp_step. cbn [self orders].
  destruct (get_best_ask od) as [[a av]|]; [|by wp_step].
  destruct (get_best_bid od) as [[b bv]|]; [|by wp_step].
  wp_step. wp_step. wp_step. wp_step. cbn [self orders].
  set (t1 := set_bid_price _ _).
  assert (Hwf1 : well_formed t1) by exact Hwf.
  assert (Hobs1 : ∀ n, observed (self s) "BANANAS" n → observed t1 "BANANAS" n)
    by (intros n Hobs; exact Hobs).
  assert (Hser : ∀ a, series_get a t1 = series_get a (self s))
    by (by intros []).
  assert (HW : window_size_large t1 = window_size_large (self s)) by done.
  assert (Hw : window_size_small t1 = window_size_small (self s)) by done.
  clearbody t1.
  rewrite decide_False by done. rewrite decide_True by done.
  wp_step.
  destruct (get_vwap (buy_orders od)) as [v1|e1] eqn:Hv1.
  2:{ eapply wp_mono;
        [|eapply (order_by_vwap_raises "BANANAS" Vwap_bid_prices
                    Large_bid_averages Small_bid_averages);
          [by left|exact Hwf1|exact Hv1]].
      intros r s1 (-> & _ & _ & Hfr & _). split; [|done].
      intros x p Hp. rewrite Hfr by done. by rewrite Hser. }
  eapply wp_mono;
    [|eapply (order_by_vwap_effect "BANANAS" Vwap_bid_prices Large_bid_averages
                Small_bid_averages); [by left|exact Hwf1|exact Hv1]].
  cbn [self orders].
  intros r s1 (-> & Hwf2 & Hq2 & Hp2 & Hlt2 & Hge2 & Hfr2).
  destruct (get_vwap (sell_orders od)) as [v2|e2] eqn:Hv2.
  2:{ eapply wp_mono;
        [|eapply (order_by_vwap_raises "BANANAS" Vwap_ask_prices
                    Large_ask_averages Small_ask_averages);
          [by right|exact Hwf2|exact Hv2]].
      intros r s2 (-> & _ & _ & Hfr & _). split; [|done].
      intros x p Hp. rewrite Hfr by done. rewrite Hfr2 by auto.
      by rewrite Hser. }
  eapply wp_mono;
    [|eapply (order_by_vwap_effect "BANANAS" Vwap_ask_prices Large_ask_averages
                Small_ask_averages); [by right|exact Hwf2|exact Hv2]].
  cbn [self orders].
  intros r s2 (-> & Hwf3 & Hq3 & Hp3 & Hlt3 & Hge3 & Hfr3).
  destruct Hq2 as (_ & _ & _ & Hw2 & HW2).
  destruct Hq3 as (_ & _ & _ & Hw3 & HW3).
  split.
  { intros x p Hp. rewrite Hfr3 by auto. rewrite Hfr2 by auto.
    by rewrite Hser. }
  intros n Hobs.
  destruct (Hobs1 n Hobs) as (Ob1 & Ob2 & Ob3 & Ob4 & Ob5 & Ob6).
  clear Hobs Hobs1. cbv zeta in *.
  assert (Hbid : ∀ x, x = Vwap_bid_prices ∨ x = Large_bid_averages
                      ∨ x = Small_bid_averages →
            series_get x (self s2) !! "BANANAS"
            = series_get x (self s1) !! "BANANAS").
  { intros x Hx. apply Hfr3. left.
    destruct Hx as [->|[->| ->]]; done. }
  assert (Hask : ∀ x, x = Vwap_ask_prices ∨ x = Large_ask_averages
                      ∨ x = Small_ask_averages →
            series_get x (self s1) !! "BANANAS"
            = series_get x t1 !! "BANANAS").
  { intros x Hx. apply Hfr2. left.
    destruct Hx as [->|[->| ->]]; done. }
  rewrite (Hask Vwap_ask_prices) in Hp3, Hlt3, Hge3 by auto.
  rewrite (Hask Large_ask_averages) in Hlt3, Hge3 by auto.
  rewrite (Hask Small_ask_averages) in Hlt3, Hge3 by auto.
  rewrite HW2 in Hlt3, Hge3. rewrite Hw2 in Hge3.
  rewrite Ob1 in Hp2, Hlt2, Hge2. rewrite Ob2 in Hp3, Hlt3, Hge3.
  rewrite Ob3 in Hlt2, Hge2. rewrite Ob4 in Hlt2, Hge2.
  rewrite Ob5 in Hlt3, Hge3. rewrite Ob6 in Hlt3, Hge3.
  rewrite <- HW, <- Hw.
  destruct (decide (Z.of_nat (S n) < window_size_large t1)) as [Hlt|Hge].
  - destruct (Hlt2 Hlt) as (L2 & S2 & O2).
    destruct (Hlt3 Hlt) as (L3 & S3 & O3).
    split.
    + unfold observed. cbv zeta. rewrite HW3, HW2.
      rewrite (Hbid Vwap_bid_prices), (Hbid Large_bid_averages),
        (Hbid Small_bid_averages) by auto.
      rewrite Hp2, Hp3, L2, S2, L3, S3.
      repeat split; lia.
    + intros _. by rewrite O3, O2.
  - destruct (Hge2 Hge) as (L2 & S2 & O2).
    destruct (Hge3 Hge) as (L3 & S3 & O3).
    split.
    + unfold observed. cbv zeta. rewrite HW3, HW2.
      rewrite (Hbid Vwap_bid_prices), (Hbid Large_bid_averages),
        (Hbid Small_bid_averages) by auto.
      rewrite Hp2, Hp3, L2, S2, L3, S3.
      repeat split; lia.
    + intros Hwarm.
      destruct O3 as [->|[_ O3]]; [|lia].
      destruct O2 as [->|[_ O2]]; [done|lia].
Qed.

Lemma observed_ext (t t' : Trader) (product : string) (n : nat) :
  (∀ a, series_get a t' !! product = series_get a t !! product) →
  window_size_large t' = window_size_large t →
  observed t product n → observed t' product n.
Proof.
  intros Hser HW. unfold observed. cbv zeta. by rewrite !Hser, HW.
Qed.

Lemma run_product_frame (state : TradingState) (product : string)
    (od : OrderDepth) (s : Store) :
  well_formed (self s) →
  wp (run_product state product od)
     (fun r s' =>
        (∀ a p, p ≠ "BANANAS" →
           series_get a (self s') !! p = series_get a (self s) !! p)
        ∧ (product ≠ "BANANAS" →
           ∀ a, series_get a (self s') = series_get a (self s))) s.
Proof.
  intros Hwf. destruct (decide (product = "BANANAS")) as [->|Hne].
  - eapply wp_mono; [|by apply run_product_bananas].
    intros r s' [Hfr Hr]. by split.
  - eapply wp_mono; [|by apply run_product_other].
    intros r s' Hs'. split; [|done]. intros a p _. by rewrite Hs'.
Qed.

Lemma tick_frame (t : Trader) (state : TradingState) :
  well_formed t →
  (∀ a p, p ≠ "BANANAS" →
     series_get a (tick t state).2 !! p = series_get a t !! p)
  ∧ ("BANANAS" ∉ (order_depths state).*1 →
     ∀ a, series_get a (tick t state).2 = series_get a t).
Proof.
  intros Hwf.
  set (F := fun (pre : list (string * OrderDepth)) (t' : Trader) =>
    well_formed t'
    ∧ (∀ a p, p ≠ "BANANAS" → series_get a t' !! p = series_get a t !! p)
    ∧ ("BANANAS" ∉ pre.*1 → ∀ a, series_get a t' = series_get a t)).
  destruct (tick_wp t state
    (fun r s' => match r with
                 | Ok _ => F (order_depths state) (self s')
                 | Raise _ => F (order_depths state) (self s')
                 end)) as [os Hpost].
  { apply (wp_run state (fun pre s' _ => F pre (self s'))
             (fun _ s' => F (order_depths state) (self s'))); [done| |done].
    intros pre product od post s result Heq (Hs & Hfr & Hall).
    assert (H1 := run_product_well_formed state product od s Hs).
    assert (H2 := run_product_frame state product od s Hs).
    unfold wp in *. destruct H1 as [Hwf' _]. destruct H2 as [Hfr' Hall'].
    assert (Hfr2 : ∀ a p, p ≠ "BANANAS" →
              series_get a (self (run_product state product od s).2) !! p
              = series_get a t !! p).
    { intros a p Hp. rewrite Hfr' by done. by apply Hfr. }
    destruct (run_product state product od s).1 as [[]|e] eqn:Hr.
    - split; [done|]. split; [done|].
      rewrite fmap_app. simpl.
      intros [Hpre Hp%not_elem_of_cons]%not_elem_of_app a.
      rewrite Hall'; [by apply Hall|intros ->; by destruct Hp].
    - split; [done|]. split; [done|].
      rewrite Heq, fmap_app. simpl.
      intros [Hpre Hp%not_elem_of_cons]%not_elem_of_app a.
      rewrite Hall'; [by apply Hall|intros ->; by destruct Hp]. }
  destruct (tick t state).1; destruct Hpost as (_ & ? & ?); done.
Qed.

Lemma tick_observed (t : Trader) (state : TradingState) (n : nat)
    (res : gmap string (list Order)) :
  well_formed t →
  observed t "BANANAS" n →
  NoDup (order_depths state).*1 →
  "BANANAS" ∈ (order_depths state).*1 →
  (tick t state).1 = Ok res →
  observed (tick t state).2 "BANANAS" (S n)
  ∧ (Z.of_nat (S n) < window_size_large t + window_size_small t - 1 →
     res !! "BANANAS" = Some []).
Proof.
  intros Hwf Hobs Hnd Hin Hres.
  set (Inv := fun (pre : list (string * OrderDepth)) (s : Store)
                  (result : gmap string (list Order)) =>
    well_formed (self s)
    ∧ window_size_small (self s) = window_size_small t
    ∧ window_size_large (self s) = window_size_large t
    ∧ ("BANANAS" ∉ pre.*1 → ∀ a, series_get a (self s) = series_get a t)
    ∧ ("BANANAS" ∈ pre.*1 →
       observed (self s) "BANANAS" (S n)
       ∧ (Z.of_nat (S n) < window_size_large t + window_size_small t - 1 →
          result !! "BANANAS" = Some []))).
  destruct (tick_wp t state
    (fun r s' => match r with
                 | Ok res => Inv (order_depths state) s' res
                 | Raise _ => True
                 end)) as [os Hpost].
  { apply (wp_run state Inv (fun _ _ => True)); [| |done].
    { split; [done|]. split; [done|]. split; [done|]. split; [done|].
      simpl. by intros ?%elem_of_nil. }
    intros pre product od post s result Heq (Hs & Hw & HW & Hall & Hseen).
    assert (H1 := run_product_well_formed state product od s Hs).
    assert (H2 := run_product_configuration state product od s).
    unfold wp in H1, H2. destruct H1 as [Hwf' _], H2 as (_ & Hw' & HW').
    rewrite Heq, fmap_app in Hnd. simpl in Hnd.
    apply NoDup_app in Hnd as (_ & Hdisj & _).
    destruct (decide (product = "BANANAS")) as [->|Hne].
    - assert (Hpre : "BANANAS" ∉ pre.*1).
      { intros Hp. apply (Hdisj _ Hp). left. }
      assert (H3 := run_product_bananas state od s Hs).
      unfold wp in *.
      destruct (run_product state "BANANAS" od s).1 as [[]|e]; [|done].
      destruct H3 as [_ H3].
      destruct (H3 n) as [Ho Hord].
      { apply (observed_ext t); [|done|done]. intros a. by rewrite Hall. }
      split; [done|]. split; [congruence|]. split; [congruence|]. split.
      { rewrite fmap_app. simpl. intros [_ Hp]%not_elem_of_app.
        destruct Hp. left. }
      intros _. split; [done|]. intros Hwarm.
      rewrite lookup_insert_eq. f_equal. apply Hord. by rewrite Hw, HW.
    - assert (H3 := run_product_other state product od s Hne).
      unfold wp in *.
      destruct (run_product state product od s).1 as [[]|e]; [|done].
      split; [done|]. split; [congruence|]. split; [congruence|].
      rewrite fmap_app. simpl. split.
      { intros [Hpre _]%not_elem_of_app a. rewrite H3. by apply Hall. }
      intros Hb. assert (Hb' : "BANANAS" ∈ pre.*1).
      { apply elem_of_app in Hb as [Hb|Hb%list_elem_of_singleton]; done. }
      destruct (Hseen Hb') as [Ho Hord]. split.
      + apply (observed_ext (self s)); [|congruence|done].
        intros a. by rewrite H3.
      + intros Hwarm. rewrite lookup_insert_ne by done. by apply Hord. }
  rewrite Hres in Hpost. destruct Hpost as (_ & _ & _ & _ & Hseen).
  by apply Hseen.
Qed.

Lemma ticks_observed (states : list TradingState) (t : Trader) (n : nat) :
  well_formed t →
  observed t "BANANAS" n →
  Forall (fun state => quotes state "BANANAS") states →
  observed (ticks t states) "BANANAS" (n + length states)
  ∧ window_size_small (ticks t states) = window_size_small t
  ∧ window_size_large (ticks t states) = window_size_large t.
Proof.
  unfold ticks. revert t n.
  induction states as [|state states IH]; intros t n Hwf Hobs Hall; simpl.
  { by rewrite Nat.add_0_r. }
  apply Forall_cons in Hall as [(Hnd & Hin & Hsides & Hrange) Hall].
  destruct (tick_returns t state Hwf) as [res Hres]; [|done|done|].
  { intros Hnil. rewrite Hnil in Hin. by apply elem_of_nil in Hin. }
  destruct (tick_observed t state n res Hwf Hobs Hnd Hin Hres) as [Hobs' _].
  destruct (tick_configuration t state) as (_ & Hw & HW).
  destruct (IH (tick t state).2 (S n)) as (Ho & Hw' & HW');
    [by apply tick_well_formed|done|done|].
  rewrite <- Nat.add_succ_comm. split; [done|]. split; congruence.
Qed.

(** X16.  Over snapshots that quote BANANAS with two-sided books
    whose volume-weighted prices are in the range of the floats, every
    call returns and records one observation of BANANAS; and the call
    that records observation [k] returns no order for BANANAS as long
    as [k] is below the sum of the two windows minus 1, which is 599
    for the initial trader. *)
Theorem bananas_warm_up (t : Trader) (n : nat) (states : list TradingState) :
  well_formed t →
  observed t "BANANAS" n →
  Forall (fun state => quotes state "BANANAS") states →
  observed (ticks t states) "BANANAS" (n + length states)
  ∧ ∀ state,
      quotes state "BANANAS" →
      Z.of_nat (n + length states) + 1
      < window_size_large t + window_size_small t - 1 →
      ∃ res, (tick (ticks t states) state).1 = Ok res
             ∧ res !! "BANANAS" = Some [].
Proof.
  intros Hwf Hobs Hall.
  destruct (ticks_observed states t n Hwf Hobs Hall) as (Ho & Hw & HW).
  split; [done|].
  intros state (Hnd & Hin & Hsides & Hrange) Hwarm.
  assert (Hwf' : well_formed (ticks t states)) by (by apply ticks_well_formed).
  destruct (tick_returns (ticks t states) state Hwf') as [res Hres];
    [|done|done|].
  { intros Hnil. rewrite Hnil in Hin. by apply elem_of_nil in Hin. }
  exists res. split; [done|].
  destruct (tick_observed _ state _ res Hwf' Ho Hnd Hin Hres) as [_ Hord].
  apply Hord. rewrite Hw, HW. lia.
Qed.

(** X17.  Calls of [Trader.run] on a well-formed trader write the
    series of no product other than BANANAS, and write no series at
    all when no snapshot quotes BANANAS. *)
Theorem series_of_bananas_only (t : Trader) (states : list TradingState) :
  well_formed t →
  (∀ a p, p ≠ "BANANAS" →
     series_get a (ticks t states) !! p = series_get a t !! p)
  ∧ (Forall (fun state => "BANANAS" ∉ (order_depths state).*1) states →
     ∀ a, series_get a (ticks t states) = series_get a t).
Proof.
  unfold ticks. revert t.
  induction states as [|state states IH]; intros t Hwf; simpl; [done|].
  destruct (tick_frame t state Hwf) as [Hfr Hnone].
  destruct (IH (tick t state).2) as [Hfr' Hnone'];
    [by apply tick_well_formed|].
  split.
  - intros a p Hp. rewrite Hfr' by done. by apply Hfr.
  - intros [Hs Hall]%Forall_cons a. rewrite Hnone' by done. by apply Hnone.
Qed.

End History.

(** * The theorems at concrete inputs, over exact rationals *)

Lemma headroom_invariant_witness : within_headroom 5 20 crossed_orders.
Proof.
  apply (headroom_invariant (H := QNum) Trader_init pearls_crossed
           {[ "PEARLS" := crossed_orders ]}) with (product := "PEARLS").
  - reflexivity.
  - intros product od Hin. apply list_elem_of_singleton in Hin.
    injection Hin as -> ->. split; intros p q; simpl;
      intros [<- <-]%lookup_singleton_Some; lia.
  - reflexivity.
  - vm_compute. discriminate.
Defined.

Lemma crossover_signals_witness :
  buy_signal (H := QNum) "BANANAS" cross_store = (Ok true, cross_store)
  ∧ sell_signal (H := QNum) "BANANAS" cross_store = (Ok false, cross_store).
Proof.
  destruct (crossover_signals (H := QNum) cross_store "BANANAS" eq_refl)
    as (_ & _ & Hbuy & Hsell).
  split.
  - destruct (Hbuy (replicate 98 (inject_Z 10)) (replicate 98 (inject_Z 10))
               (inject_Z 12) (inject_Z 8) (inject_Z 8) (inject_Z 12))
      as [Hb _]; [reflexivity|reflexivity|simpl; lia|exact Hb].
  - destruct (Hsell (replicate 98 (inject_Z 10)) (replicate 98 (inject_Z 10))
               (inject_Z 10) (inject_Z 10) (inject_Z 10) (inject_Z 10))
      as [_ Hs]; [reflexivity|reflexivity|simpl; lia|].
    apply Hs. by left.
Defined.

Lemma order_by_vwap_warm_up_witness :
  ∃ avg_large avg_small,
    wp (H := QNum)
      (order_by_vwap "BANANAS"
         Vwap_bid_prices Large_bid_averages Small_bid_averages bananas_bids
         (sell_signal "BANANAS")
         (modify_orders (fun orders =>
            place_sell_order "BANANAS" orders 4999 2)))
      (fun _ s' =>
         large_bid_averages (self s') !! "BANANAS" = Some [avg_large]
         ∧ small_bid_averages (self s') !! "BANANAS" = Some [avg_small])
      warm_store.
Proof.
  destruct (order_by_vwap_warm_up (H := QNum) "BANANAS"
              Vwap_bid_prices Large_bid_averages Small_bid_averages
              bananas_bids (sell_signal "BANANAS")
              (modify_orders (fun orders =>
                 place_sell_order "BANANAS" orders 4999 2))
              warm_store) as (Hrange & Hreturn & _).
  - discriminate.
  - discriminate.
  - discriminate.
  - intros s0. by rewrite sell_signal_readonly.
  - reflexivity.
  - reflexivity.
  - reflexivity.
  - destruct (proj1 Hrange) as [v Hv]; [intros _; vm_compute; reflexivity|].
    eexists _, _. eapply wp_mono; [|exact (Hreturn v Hv)].
    intros r s' (_ & _ & Hge). apply Hge.
    vm_compute. lia.
Defined.

Lemma fair_value_monotone_witness :
  ∃ a av b bv,
    get_best_ask (mkOrderDepth {[ 10002 := 1 ]} {[ 9998 := -1 ]}) = Some (a, av)
    ∧ get_best_bid (mkOrderDepth {[ 10002 := 1 ]} {[ 9998 := -1 ]}) = Some (b, bv)
    ∧ ask_price (tick (H := QNum) Trader_init pearls_crossed).2 !! "PEARLS"
      = Some (Z.min (dict_get (ask_price (H := QNum) Trader_init) "PEARLS" a) a)
    ∧ bid_price (tick (H := QNum) Trader_init pearls_crossed).2 !! "PEARLS"
      = Some (Z.max (dict_get (bid_price (H := QNum) Trader_init) "PEARLS" b) b).
Proof.
  apply (proj2 (fair_value_monotone (H := QNum) Trader_init) pearls_crossed
           {[ "PEARLS" := crossed_orders ]}).
  - reflexivity.
  - simpl. apply NoDup_singleton.
  - simpl. left.
Defined.

Lemma crossed_is_absorbing_witness :
  crossed (H := QNum)
    (ticks (tick Trader_init pearls_crossed).2 [pearls_wide]) "PEARLS"
  ∧ (∃ a b,
      ask_price (tick (H := QNum)
                   (ticks (tick Trader_init pearls_crossed).2 [pearls_wide])
                   pearls_wide).2 !! "PEARLS" = Some a
      ∧ bid_price (tick (H := QNum)
                     (ticks (tick Trader_init pearls_crossed).2 [pearls_wide])
                     pearls_wide).2 !! "PEARLS" = Some b
      ∧ a < b
      ∧ ({[ "PEARLS" := crossed_orders ]} : gmap string (list Order))
          !! "PEARLS"
        = Some [mkOrder "PEARLS" a (Z.abs (20 - 5));
                mkOrder "PEARLS" b (- Z.abs (20 + 5))])
  ∧ ∃ res,
      (tick (H := QNum)
         (ticks (tick Trader_init pearls_crossed).2 [pearls_wide])
         pearls_wide).1 = Ok res.
Proof.
  assert (Hc : crossed (H := QNum) (tick Trader_init pearls_crossed).2 "PEARLS").
  { exists 9998, 10002. split; [reflexivity|]. split; [reflexivity|lia]. }
  destruct (crossed_is_absorbing (H := QNum) _ Hc)
    as (Hlater & Horders & Hreturns).
  split; [apply Hlater|]. split.
  - apply (Horders [pearls_wide] pearls_wide {[ "PEARLS" := crossed_orders ]}
             (mkOrderDepth {[ 9995 := 1 ]} {[ 10005 := -1 ]})).
    + reflexivity.
    + simpl. left.
  - apply (Hreturns (tick_well_formed _ _ Trader_init_well_formed)
             [pearls_wide] pearls_wide).
    + discriminate.
    + intros product od Hin. apply list_elem_of_singleton in Hin.
      injection Hin as -> ->. split; simpl; apply insert_non_empty.
    + intros od Hin. apply list_elem_of_singleton in Hin. discriminate.
Defined.

Lemma get_best_bid_highest_witness :
  buy_orders (mkOrderDepth {[ 4890 := 2 ]} {[ 4900 := -3 ]}) !! 4890 = Some 2
  ∧ ∀ p', is_Some (buy_orders (mkOrderDepth {[ 4890 := 2 ]} {[ 4900 := -3 ]})
                     !! p') →
          p' ≤ 4890.
Proof.
  apply (proj2 (get_best_bid_highest
                  (mkOrderDepth {[ 4890 := 2 ]} {[ 4900 := -3 ]})) 4890 2).
  reflexivity.
Defined.

Lemma get_spread_crossed_witness :
  (∃ pa pb,
     is_Some (sell_orders (mkOrderDepth {[ 10002 := 1 ]} {[ 9998 := -1 ]})
                !! pa)
     ∧ is_Some (buy_orders (mkOrderDepth {[ 10002 := 1 ]} {[ 9998 := -1 ]})
                  !! pb)
     ∧ -4 = pa - pb)
  ∧ (∀ pa pb,
       is_Some (sell_orders (mkOrderDepth {[ 10002 := 1 ]} {[ 9998 := -1 ]})
                  !! pa) →
       is_Some (buy_orders (mkOrderDepth {[ 10002 := 1 ]} {[ 9998 := -1 ]})
                  !! pb) →
       -4 ≤ pa - pb)
  ∧ (-4 < 0
     ↔ ∃ pa pb,
         is_Some (sell_orders (mkOrderDepth {[ 10002 := 1 ]} {[ 9998 := -1 ]})
                    !! pa)
         ∧ is_Some (buy_orders (mkOrderDepth {[ 10002 := 1 ]} {[ 9998 := -1 ]})
                      !! pb)
         ∧ pa < pb).
Proof.
  apply (proj2 (get_spread_crossed
                  (mkOrderDepth {[ 10002 := 1 ]} {[ 9998 := -1 ]})) (-4)).
  reflexivity.
Defined.

Lemma get_mid_price_spread_witness :
  get_spread (mkOrderDepth {[ 4890 := 2 ]} {[ 4900 := -3 ]})
  = Some (4900 - 4890)
  ∧ get_mid_price (H := QNum) (mkOrderDepth {[ 4890 := 2 ]} {[ 4900 := -3 ]})
    = if decide (float_limit * 2 ≤ Z.abs (4890 + 4900))
      then Raise OverflowError
      else Ok (Some (Qdiv (inject_Z (4890 + 4900)) (inject_Z 2))).
Proof.
  apply (proj1 (proj2 (get_mid_price_spread (H := QNum)
                         (mkOrderDepth {[ 4890 := 2 ]} {[ 4900 := -3 ]})))).
  - simpl. rewrite lookup_singleton_eq. eauto.
  - simpl. intros p [q [<- _]%lookup_singleton_Some]. lia.
  - simpl. rewrite lookup_singleton_eq. eauto.
  - simpl. intros p [q [<- _]%lookup_singleton_Some]. lia.
Defined.

Lemma place_buy_orders_up_to_outcome_witness :
  ∃ p v,
    sell_orders one_ask !! p = Some v
    ∧ (∀ p', is_Some (sell_orders one_ask !! p') → p ≤ p')
    ∧ place_buy_orders_up_to "BANANAS" [] 8 one_ask
      = Ok ([] ++ [mkOrder "BANANAS" p (Z.min (Z.abs 8) (Z.abs v))])
    ∧ 0 ≤ Z.min (Z.abs 8) (Z.abs v) ≤ Z.abs 8.
Proof.
  apply (proj2 (place_buy_orders_up_to_outcome "BANANAS" [] 8 one_ask)).
  simpl. apply insert_non_empty.
Defined.

Lemma place_sell_orders_up_to_outcome_witness :
  ∃ p v,
    buy_orders (mkOrderDepth {[ 4890 := 2 ]} {[ 4900 := -3 ]}) !! p = Some v
    ∧ (∀ p', is_Some (buy_orders (mkOrderDepth {[ 4890 := 2 ]} {[ 4900 := -3 ]})
                        !! p') →
             p' ≤ p)
    ∧ place_sell_orders_up_to "BANANAS" [] 8
        (mkOrderDepth {[ 4890 := 2 ]} {[ 4900 := -3 ]})
      = Ok ([] ++ [mkOrder "BANANAS" p (- Z.min (Z.abs 8) (Z.abs v))])
    ∧ 0 ≤ Z.min (Z.abs 8) (Z.abs v) ≤ Z.abs 8.
Proof.
  apply (proj2 (place_sell_orders_up_to_outcome "BANANAS" [] 8
                  (mkOrderDepth {[ 4890 := 2 ]} {[ 4900 := -3 ]}))).
  simpl. apply insert_non_empty.
Defined.


Lemma algo4_run_result_witness :
  ∃ res,
    Algo4.run bananas_quoted = Ok res
    ∧ res !! "BANANAS"
      = Some (algo4_orders (dict_get (position bananas_quoted) "BANANAS" 0)
                (mkOrderDepth {[ 4890 := 2 ]} {[ 4900 := -3 ]})).
Proof.
  destruct (algo4_run_result bananas_quoted) as (res & Hres & _ & _ & Hfound).
  exists res. split; [exact Hres|].
  apply Hfound.
  - simpl. apply NoDup_singleton.
  - simpl. left.
Defined.

Lemma algo4_headroom_witness :
  ∃ os,
    ({[ "BANANAS" := [mkOrder "BANANAS" 4900 3] ]} : gmap string (list Order))
      !! "BANANAS" = Some os
    ∧ within_headroom 0 20 os
    ∧ ∀ o, o ∈ os →
        symbol o = "BANANAS"
        ∧ (0 < 0 → quantity o < 0 ∧ 4936 ≤ price o)
        ∧ (0 ≤ 0 → 0 < quantity o ∧ price o ≤ 4940).
Proof.
  apply (algo4_headroom bananas_quoted
           (mkOrderDepth {[ 4890 := 2 ]} {[ 4900 := -3 ]})).
  - reflexivity.
  - simpl. apply NoDup_singleton.
  - simpl. left.
  - split; intros p q; simpl; intros [<- <-]%lookup_singleton_Some; lia.
  - vm_compute. split; discriminate.
Defined.

Lemma tick_result_shape_witness :
  dom ({[ "PEARLS" := crossed_orders ]} : gmap string (list Order))
  = list_to_set (order_depths pearls_crossed).*1
  ∧ ∀ product os,
      ({[ "PEARLS" := crossed_orders ]} : gmap string (list Order)) !! product
      = Some os →
      returned_shape product os.
Proof.
  apply (tick_result_shape (H := QNum) Trader_init pearls_crossed).
  reflexivity.
Defined.

Lemma tick_outcome_witness :
  match (tick (H := QNum) Trader_init bananas_huge).1 with
  | Ok _ =>
      order_depths bananas_huge ≠ []
      ∧ (∀ product od, (product, od) ∈ order_depths bananas_huge →
           buy_orders od ≠ ∅ ∧ sell_orders od ≠ ∅)
      ∧ in_range bananas_huge
  | Raise e =>
      (e = UnboundLocalError ∧ order_depths bananas_huge = [])
      ∨ (e = TypeError
         ∧ ∃ product od, (product, od) ∈ order_depths bananas_huge
                         ∧ (sell_orders od = ∅ ∨ buy_orders od = ∅))
      ∨ (e = OverflowError
         ∧ ∃ od, ("BANANAS", od) ∈ order_depths bananas_huge
                 ∧ ¬ (vwap_in_range (buy_orders od)
                      ∧ vwap_in_range (sell_orders od)))
  end.
Proof.
  apply (tick_outcome (H := QNum) Trader_init bananas_huge).
  apply Trader_init_well_formed.
Defined.

Lemma tick_pearls_orders_witness :
  ∃ a av b bv,
    get_best_ask (mkOrderDepth {[ 10002 := 1 ]} {[ 9998 := -1 ]}) = Some (a, av)
    ∧ get_best_bid (mkOrderDepth {[ 10002 := 1 ]} {[ 9998 := -1 ]})
      = Some (b, bv)
    ∧ ({[ "PEARLS" := crossed_orders ]} : gmap string (list Order)) !! "PEARLS"
      = Some (pearls_orders
                (Z.min (dict_get (ask_price (H := QNum) Trader_init) "PEARLS" a) a)
                (Z.max (dict_get (bid_price (H := QNum) Trader_init) "PEARLS" b) b)
                (dict_get (position_limit (H := QNum) Trader_init) "PEARLS" 0
                 - dict_get (position pearls_crossed) "PEARLS" 0)
                (dict_get (position_limit (H := QNum) Trader_init) "PEARLS" 0
                 + dict_get (position pearls_crossed) "PEARLS" 0))
    ∧ (ask_price (H := QNum) Trader_init !! "PEARLS" = None →
       bid_price (H := QNum) Trader_init !! "PEARLS" = None →
       (({[ "PEARLS" := crossed_orders ]} : gmap string (list Order))
          !! "PEARLS" = Some []
        ↔ ∃ s, get_spread (mkOrderDepth {[ 10002 := 1 ]} {[ 9998 := -1 ]})
               = Some s ∧ 0 ≤ s)).
Proof.
  apply (tick_pearls_orders (H := QNum) Trader_init pearls_crossed
           {[ "PEARLS" := crossed_orders ]}).
  - reflexivity.
  - simpl. apply NoDup_singleton.
  - simpl. left.
Defined.

Lemma bananas_quoted_quotes : quotes bananas_quoted "BANANAS".
Proof.
  split; [simpl; apply NoDup_singleton|]. split; [simpl; left|]. split.
  - intros p od Hin. apply list_elem_of_singleton in Hin.
    injection Hin as -> ->. split; simpl; apply insert_non_empty.
  - intros od Hin. apply list_elem_of_singleton in Hin.
    injection Hin as ->. split; intros _; vm_compute; reflexivity.
Qed.

Lemma bananas_warm_up_witness :
  observed (H := QNum) (ticks Trader_init [bananas_quoted]) "BANANAS" 1
  ∧ ∃ res,
      (tick (H := QNum) (ticks Trader_init [bananas_quoted]) bananas_quoted).1
      = Ok res
      ∧ res !! "BANANAS" = Some [].
Proof.
  destruct (bananas_warm_up (H := QNum) Trader_init 0 [bananas_quoted])
    as [Hobs Hnone].
  - apply Trader_init_well_formed.
  - repeat split.
  - constructor; [apply bananas_quoted_quotes|constructor].
  - split; [exact Hobs|].
    apply Hnone; [apply bananas_quoted_quotes|simpl; lia].
Defined.

Lemma series_of_bananas_only_witness :
  (∀ a p, p ≠ "BANANAS" →
     series_get (H := QNum) a (ticks Trader_init [pearls_crossed]) !! p
     = series_get a Trader_init !! p)
  ∧ (Forall (fun state => "BANANAS" ∉ (order_depths state).*1)
       [pearls_crossed] →
     ∀ a, series_get (H := QNum) a (ticks Trader_init [pearls_crossed])
          = series_get a Trader_init).
Proof.
  apply (series_of_bananas_only (H := QNum) Trader_init [pearls_crossed]).
  apply Trader_init_well_formed.
Defined.

(** The calls on a book of BANANAS whose prices are beyond the floats. *)
Lemma run_raises_on_huge_book :
  (tick (H := QNum) Trader_init bananas_huge).1 = Raise OverflowError
  ∧ get_mid_price (H := QNum)
      (mkOrderDepth {[ 10 ^ 400 := 1 ]} {[ 10 ^ 400 + 1 := -1 ]})
    = Raise OverflowError.
Proof. split; vm_compute; reflexivity. Qed.
